(** * Chat dispatcher and response renderer: a shallow embedding

    The development follows the two source files that carry logic:

    - [src/components/DashboardRenderer.tsx]: [transformChartData],
      [getAlertVariant], [getAlertMessage] and the chart callback of the
      component body;
    - [src/components/ChatInterfaceWithSidebar.tsx]: [sendMessage] and
      [renderMessageContent].

    JavaScript strings are sequences of UTF-16 code units, JavaScript values
    are an inductive type, exceptions are an explicit [result] type, and the
    React state touched by [sendMessage] is threaded through a small state
    and exception monad.

    The platform functions that the two files call are embedded too, so that
    every statement can be evaluated: [JSON.parse] as a recursive-descent
    parser of the JSON grammar, [JSON.stringify] as the serialization of
    ECMAScript without replacer and indentation, [String.prototype.trim] and
    [startsWith], ToBoolean and ToString.  Left out of the platform model:
    the rounding of numbers to binary64, the reordering of array-index keys
    of an object, and the depth limit of the parser of an engine.  The
    collaborators of [sendMessage] ([fetch], [saveMessage],
    [updateSessionTitle], [createNewSession]) are represented by their
    outcomes. *)

From Stdlib Require Import List NArith ZArith Bool String Ascii Lia.
Import ListNotations.

Set Implicit Arguments.
Set Warnings "-register-all,-abstract-large-number".

(** ** Strings *)

Module JsString.
Local Open Scope N_scope.

(** A JavaScript string: a list of UTF-16 code units. *)
Definition jsstring := list N.

(** ASCII literals of the source, as code units. *)
Definition js (s : string) : jsstring :=
  List.map N_of_ascii (list_ascii_of_string s).

(** A JSON text written with ['] in place of the double quote. *)
Definition jsq (s : string) : jsstring :=
  List.map (fun c => if c =? 39 then 34 else c) (js s).

Fixpoint eqb (a b : jsstring) : bool :=
  match a, b with
  | [], [] => true
  | x :: a', y :: b' => N.eqb x y && eqb a' b'
  | _, _ => false
  end.

(** [String.prototype.startsWith]. *)
Fixpoint startsWith (s p : jsstring) {struct p} : bool :=
  match p, s with
  | [], _ => true
  | y :: p', x :: s' => N.eqb x y && startsWith s' p'
  | _ :: _, [] => false
  end.

(** WhiteSpace and LineTerminator code units of ECMAScript, the set that
    [String.prototype.trim] removes. *)
Definition isWhiteSpace (c : N) : bool :=
  ((9 <=? c) && (c <=? 13)) || (c =? 32) || (c =? 160) || (c =? 5760)
  || ((8192 <=? c) && (c <=? 8202)) || (c =? 8232) || (c =? 8233)
  || (c =? 8239) || (c =? 8287) || (c =? 12288) || (c =? 65279).

Fixpoint trimStart (s : jsstring) : jsstring :=
  match s with
  | c :: s' => if isWhiteSpace c then trimStart s' else s
  | [] => []
  end.

Definition trimEnd (s : jsstring) : jsstring := rev (trimStart (rev s)).

(** [String.prototype.trim]. *)
Definition trim (s : jsstring) : jsstring := trimEnd (trimStart s).

End JsString.
Import JsString.

(** ** Numbers

    A JSON number literal denotes a decimal fraction.  The embedding keeps
    that decimal exactly, in normal form: a sign, the significant digits
    (no leading and no trailing zero) and a power of ten.  Rounding to
    binary64 is outside the model, and so are its consequences (overflow to
    an infinity, underflow to zero); zero carries no sign. *)

Module Number.
Local Open Scope N_scope.

Record number : Type := mkNumber
  { negative : bool;        (* sign *)
    digits : list N;        (* significant digits, most significant first *)
    exp10 : Z }.            (* the value is  digits * 10 ^ exp10 *)

Definition zero : number := mkNumber false [] 0.

Definition isZero (x : number) : bool :=
  match digits x with [] => true | _ => false end.

Fixpoint dropZeros (ds : list N) : list N :=
  match ds with
  | d :: ds' => if N.eqb d 0 then dropZeros ds' else ds
  | [] => []
  end.

(** Normal form of [ds * 10 ^ e]: trailing zeros move into the exponent. *)
Definition normal (sg : bool) (ds : list N) (e : Z) : number :=
  let ds1 := dropZeros ds in
  let sd := dropZeros (rev ds1) in
  match sd with
  | [] => zero
  | _ => mkNumber sg (rev sd)
           (e + Z.of_nat (List.length ds1) - Z.of_nat (List.length sd))
  end.

Definition digitChar (d : N) : N := (48 + d)%N.

(** Decimal digits of a natural number, most significant first. *)
Fixpoint digitsOfAux (fuel : nat) (n : N) (acc : list N) : list N :=
  match fuel with
  | O => n :: acc
  | S f => if (n <? 10)%N then n :: acc
           else digitsOfAux f (n / 10)%N ((n mod 10)%N :: acc)
  end.

Definition digitsOf (n : N) : list N :=
  digitsOfAux (N.to_nat (N.log2 n)) n [].

Definition valueOfDigits (ds : list N) : N :=
  fold_left (fun acc d => (10 * acc + d)%N) ds 0%N.

(** The digits [ds] and the exponent [e] of a number that is not zero, as
    [Number::toString] writes them (radix 10): with [k] digits and the
    decimal point after position [n = k + e], plain notation for
    [-6 < n <= 21] and exponent notation otherwise. *)
Definition magnitudeText (ds : list N) (e : Z) : jsstring :=
  let k := Z.of_nat (List.length ds) in
  let n := (k + e)%Z in
  if ((k <=? n) && (n <=? 21))%Z then
    List.map digitChar ds ++ repeat 48 (Z.to_nat (n - k))
  else if ((0 <? n) && (n <=? 21))%Z then
    List.map digitChar (firstn (Z.to_nat n) ds) ++ [46]
    ++ List.map digitChar (skipn (Z.to_nat n) ds)
  else if ((-6 <? n) && (n <=? 0))%Z then
    [48; 46] ++ repeat 48 (Z.to_nat (- n)) ++ List.map digitChar ds
  else
    match ds with
    | [] => []
    | d :: ds' =>
        digitChar d
        :: match ds' with
           | [] => []
           | _ => 46 :: List.map digitChar ds'
           end
        ++ [101]
        ++ (if (n - 1 <? 0)%Z then [45] else [43])
        ++ List.map digitChar (digitsOf (Z.abs_N (n - 1)))
    end.

(** [Number::toString]. *)
Definition toString (x : number) : jsstring :=
  match digits x with
  | [] => js "0"
  | _ => (if negative x then [45] else []) ++ magnitudeText (digits x) (exp10 x)
  end.

(** A number in normal form: digits below ten, the first and the last one
    not zero; zero is the empty digit list, unsigned, with exponent 0. *)
Definition wf (x : number) : bool :=
  match digits x with
  | [] => negb (negative x) && (exp10 x =? 0)%Z
  | d :: _ =>
      forallb (fun c => c <? 10) (digits x)
      && negb (d =? 0) && negb (last (digits x) 1 =? 0)
  end.

End Number.
Import Number.

(** ** Values *)

(** JavaScript values as the two files see them: [undefined] and what
    [JSON.parse] can return.  An object is its list of own properties in
    insertion order (the reordering of array-index keys is not modelled). *)
Inductive value : Type :=
| Undefined
| Null
| Bool (b : bool)
| Num (n : number)
| Str (s : jsstring)
| Arr (elems : list value)
| Obj (props : list (jsstring * value)).

(** Completion of a JavaScript computation. *)
Inductive exn : Type :=
| TypeError
| SyntaxError
| Error (message : jsstring)
| Rejected (who : string).

Inductive result (A : Type) : Type :=
| Ok (a : A)
| Throw (e : exn).
Arguments Ok {A} a.
Arguments Throw {A} e.

Definition bind {A B} (r : result A) (k : A -> result B) : result B :=
  match r with
  | Ok a => k a
  | Throw e => Throw e
  end.

Notation "x <- r ;; k" := (bind r (fun x => k))
  (at level 61, r at next level, right associativity).

(** [try { body } catch (e) { handler }] for a handler that ignores [e]. *)
Definition try_catch {A} (body : result A) (handler : result A) : result A :=
  match body with
  | Ok a => Ok a
  | Throw _ => handler
  end.

(** ToBoolean. *)
Definition truthy (v : value) : bool :=
  match v with
  | Undefined | Null => false
  | Bool b => b
  | Num n => negb (isZero n)
  | Str s => match s with [] => false | _ => true end
  | Arr _ | Obj _ => true
  end.

Fixpoint lookup (k : jsstring) (l : list (jsstring * value)) : option value :=
  match l with
  | [] => None
  | (k', v) :: l' => if JsString.eqb k' k then Some v else lookup k l'
  end.

(** Reading property [k] of a value that is neither [undefined] nor [null].
    On a primitive or an array the answer is [undefined]: this is right for
    every name that is not a member of the wrapper prototypes, which holds
    for all names the two files read this way except [values] on an array
    (see [transformChartData]). *)
Definition prop (v : value) (k : jsstring) : value :=
  match v with
  | Obj l => match lookup k l with Some x => x | None => Undefined end
  | _ => Undefined
  end.

(** [v.k]: a TypeError on [undefined] and [null]. *)
Definition get (v : value) (k : jsstring) : result value :=
  match v with
  | Undefined | Null => Throw TypeError
  | _ => Ok (prop v k)
  end.

Definition Array_isArray (v : value) : bool :=
  match v with Arr _ => true | _ => false end.

(** The elements of an array. *)
Definition elements (v : value) : list value :=
  match v with Arr l => l | _ => [] end.

(** [a ?? b]. *)
Definition nullish_or (a b : value) : value :=
  match a with
  | Undefined | Null => b
  | _ => a
  end.

(** [a || b]. *)
Definition or_else (a b : value) : value := if truthy a then a else b.

(** [xs[i]]. *)
Definition index (xs : list value) (i : nat) : value :=
  match nth_error xs i with Some x => x | None => Undefined end.

(** [xs.map((x, i) => f x i)]. *)
Fixpoint mapi_from {A B} (i : nat) (f : A -> nat -> B) (xs : list A) : list B :=
  match xs with
  | [] => []
  | x :: xs' => f x i :: mapi_from (S i) f xs'
  end.

Definition mapi {A B} (f : A -> nat -> B) (xs : list A) : list B :=
  mapi_from 0 f xs.

(** ToString, as [JSON.parse] applies it to its argument. *)
Fixpoint ToString (v : value) : jsstring :=
  match v with
  | Undefined => js "undefined"
  | Null => js "null"
  | Bool true => js "true"
  | Bool false => js "false"
  | Num n => Number.toString n
  | Str s => s
  | Arr l =>
      (fix join (l : list value) : jsstring :=
         match l with
         | [] => []
         | x :: l' =>
             match x with Undefined | Null => [] | _ => ToString x end
             ++ match l' with [] => [] | _ => 44%N :: join l' end
         end) l
  | Obj _ => js "[object Object]"
  end.

(** [v === s] for a string literal [s]. *)
Definition strictEqStr (v : value) (s : jsstring) : bool :=
  match v with
  | Str t => JsString.eqb t s
  | _ => false
  end.

(** ** JSON.stringify and JSON.parse *)

Module JSON.
Local Open Scope N_scope.

Definition hexChar (d : N) : N := if d <? 10 then 48 + d else 87 + d.

(** The escape [\uXXXX] of a code unit. *)
Definition escapeUnit (c : N) : jsstring :=
  [92; 117; hexChar (c / 4096); hexChar ((c / 256) mod 16);
   hexChar ((c / 16) mod 16); hexChar (c mod 16)].

Definition isHighSurrogate (c : N) : bool := (55296 <=? c) && (c <=? 56319).
Definition isLowSurrogate (c : N) : bool := (56320 <=? c) && (c <=? 57343).

Definition quoteUnit (c : N) : jsstring :=
  if c =? 8 then [92; 98]
  else if c =? 9 then [92; 116]
  else if c =? 10 then [92; 110]
  else if c =? 12 then [92; 102]
  else if c =? 13 then [92; 114]
  else if c =? 34 then [92; 34]
  else if c =? 92 then [92; 92]
  else if c <? 32 then escapeUnit c
  else [c].

(** The body of QuoteJSONString: control characters, the quote, the
    backslash and lone surrogates are escaped. *)
Fixpoint quoteUnits (s : jsstring) : jsstring :=
  match s with
  | [] => []
  | c :: s' =>
      if isHighSurrogate c then
        match s' with
        | d :: s'' =>
            if isLowSurrogate d then c :: d :: quoteUnits s''
            else escapeUnit c ++ quoteUnits s'
        | [] => escapeUnit c
        end
      else if isLowSurrogate c then escapeUnit c ++ quoteUnits s'
      else quoteUnit c ++ quoteUnits s'
  end.

Definition quote (s : jsstring) : jsstring := 34 :: quoteUnits s ++ [34].

Fixpoint join (sep : jsstring) (parts : list jsstring) : jsstring :=
  match parts with
  | [] => []
  | p :: parts' =>
      p ++ match parts' with [] => [] | _ => sep ++ join sep parts' end
  end.

(** An element that serializes to [undefined] is written [null]. *)
Definition elementText (o : option jsstring) : jsstring :=
  match o with
  | Some t => t
  | None => js "null"
  end.

(** A property that serializes to [undefined] is left out. *)
Definition memberText (k : jsstring) (o : option jsstring) : list jsstring :=
  match o with
  | Some t => [quote k ++ 58 :: t]
  | None => []
  end.

(** SerializeJSONProperty without replacer and indentation, on values
    that hold no function: [None] is the answer [undefined]. *)
Fixpoint serialize (v : value) : option jsstring :=
  match v with
  | Undefined => None
  | Null => Some (js "null")
  | Bool true => Some (js "true")
  | Bool false => Some (js "false")
  | Num n => Some (Number.toString n)
  | Str s => Some (quote s)
  | Arr l =>
      Some (91 :: join [44] (List.map (fun x => elementText (serialize x)) l)
               ++ [93])
  | Obj l =>
      Some (123 :: join [44]
                     (List.flat_map
                        (fun kx => memberText (fst kx) (serialize (snd kx))) l)
                ++ [125])
  end.

(** [JSON.stringify(v)]. *)
Definition stringify (v : value) : option jsstring := serialize v.

Definition isJsonWs (c : N) : bool :=
  (c =? 32) || (c =? 9) || (c =? 10) || (c =? 13).

Fixpoint skipWs (s : jsstring) : jsstring :=
  match s with
  | c :: s' => if isJsonWs c then skipWs s' else s
  | [] => []
  end.

Definition digitVal (c : N) : option N :=
  if (48 <=? c) && (c <=? 57) then Some (c - 48) else None.

Definition hexVal (c : N) : option N :=
  if (48 <=? c) && (c <=? 57) then Some (c - 48)
  else if (97 <=? c) && (c <=? 102) then Some (c - 87)
  else if (65 <=? c) && (c <=? 70) then Some (c - 55)
  else None.

Fixpoint spanDigits (s : jsstring) : list N * jsstring :=
  match s with
  | c :: s' =>
      match digitVal c with
      | Some d => let (ds, r) := spanDigits s' in (d :: ds, r)
      | None => ([], s)
      end
  | [] => ([], [])
  end.

(** The single-character escapes of a JSON string. *)
Definition unescape (e : N) : option N :=
  if e =? 34 then Some 34
  else if e =? 92 then Some 92
  else if e =? 47 then Some 47
  else if e =? 98 then Some 8
  else if e =? 102 then Some 12
  else if e =? 110 then Some 10
  else if e =? 114 then Some 13
  else if e =? 116 then Some 9
  else None.

(** The characters of a JSON string after its opening quote, up to and
    including the closing quote. *)
Fixpoint parseChars (s : jsstring) : option (jsstring * jsstring) :=
  match s with
  | [] => None
  | c :: s' =>
      if c =? 34 then Some ([], s')
      else if c =? 92 then
        match s' with
        | [] => None
        | e :: s'' =>
            if e =? 117 then
              match s'' with
              | h1 :: h2 :: h3 :: h4 :: s3 =>
                  match hexVal h1, hexVal h2, hexVal h3, hexVal h4 with
                  | Some a, Some b, Some c', Some d =>
                      match parseChars s3 with
                      | Some (t, r) =>
                          Some (((a * 16 + b) * 16 + c') * 16 + d :: t, r)
                      | None => None
                      end
                  | _, _, _, _ => None
                  end
              | _ => None
              end
            else
              match unescape e with
              | Some u =>
                  match parseChars s'' with
                  | Some (t, r) => Some (u :: t, r)
                  | None => None
                  end
              | None => None
              end
        end
      else if c <? 32 then None
      else
        match parseChars s' with
        | Some (t, r) => Some (c :: t, r)
        | None => None
        end
  end.

(** The rest of [s] after the code unit [c], when [s] starts with it. *)
Definition expect (c : N) (s : jsstring) : option jsstring :=
  match s with
  | x :: r => if x =? c then Some r else None
  | [] => None
  end.

(** The integer part: [0], or digits that do not start with [0] (a [0]
    followed by a digit leaves the digit unread). *)
Definition parseInteger (s : jsstring) : list N * jsstring :=
  match expect 48 s with
  | Some r => ([0], r)
  | None => spanDigits s
  end.

(** The optional fraction: a point and at least one digit. *)
Definition parseFraction (s : jsstring) : option (list N * jsstring) :=
  match expect 46 s with
  | Some r =>
      let (fp, r') := spanDigits r in
      match fp with
      | [] => None
      | _ => Some (fp, r')
      end
  | None => Some ([], s)
  end.

(** The optional exponent: [e] or [E], an optional sign and at least one
    digit. *)
Definition parseExponent (s : jsstring) : option (Z * jsstring) :=
  match s with
  | c :: r =>
      if (c =? 101) || (c =? 69) then
        let (esg, r1) :=
          match expect 45 r with
          | Some r' => (true, r')
          | None => match expect 43 r with
                    | Some r' => (false, r')
                    | None => (false, r)
                    end
          end in
        let (ep, r2) := spanDigits r1 in
        match ep with
        | [] => None
        | _ =>
            let e := Z.of_N (valueOfDigits ep) in
            Some (if esg then Z.opp e else e, r2)
        end
      else Some (0%Z, s)
  | [] => Some (0%Z, s)
  end.

Definition parseMagnitude (sg : bool) (s : jsstring)
  : option (number * jsstring) :=
  let (ip, s2) := parseInteger s in
  match ip with
  | [] => None
  | _ =>
      match parseFraction s2 with
      | None => None
      | Some (fp, s3) =>
          match parseExponent s3 with
          | None => None
          | Some (e, s4) =>
              Some (normal sg (ip ++ fp) (e - Z.of_nat (List.length fp))%Z, s4)
          end
      end
  end.

(** A JSON number: [-? int frac? exp?]. *)
Definition parseNumber (s : jsstring) : option (number * jsstring) :=
  match expect 45 s with
  | Some r => parseMagnitude true r
  | None => parseMagnitude false s
  end.

(** CreateDataProperty on the property list: a repeated key keeps its
    place and takes the later value.  (The engine lists the keys that are
    array indices before the others, in ascending order; the list here
    keeps the order of the text, which is the order in which
    [JSON.stringify] writes the keys and decides nothing else.) *)
Fixpoint setProp (l : list (jsstring * value)) (k : jsstring) (v : value)
  : list (jsstring * value) :=
  match l with
  | [] => [(k, v)]
  | (k', v') :: l' =>
      if JsString.eqb k' k then (k', v) :: l'
      else (k', v') :: setProp l' k v
  end.

Definition objectOf (members : list (jsstring * value)) : value :=
  Obj (fold_left (fun acc kv => setProp acc (fst kv) (snd kv)) members []).

(** The JSON grammar, by recursive descent.  [fuel] bounds the number of
    nested calls; a parse that succeeds needs no more fuel than the code
    units it consumes, so [S (length s)] is enough for the text [s]
    ([JSONFacts.parseValue_fuel]). *)
Fixpoint parseValue (fuel : nat) (s : jsstring) : option (value * jsstring) :=
  match fuel with
  | O => None
  | S f =>
      match skipWs s with
      | [] => None
      | c :: r =>
          if c =? 123 then
            match expect 125 (skipWs r) with
            | Some r' => Some (Obj [], r')
            | None =>
                match parseMembers f r with
                | Some (ms, r') => Some (objectOf ms, r')
                | None => None
                end
            end
          else if c =? 91 then
            match expect 93 (skipWs r) with
            | Some r' => Some (Arr [], r')
            | None =>
                match parseElements f r with
                | Some (vs, r') => Some (Arr vs, r')
                | None => None
                end
            end
          else if c =? 34 then
            match parseChars r with
            | Some (t, r') => Some (Str t, r')
            | None => None
            end
          else if startsWith (c :: r) (js "true") then
            Some (Bool true, skipn 4 (c :: r))
          else if startsWith (c :: r) (js "false") then
            Some (Bool false, skipn 5 (c :: r))
          else if startsWith (c :: r) (js "null") then
            Some (Null, skipn 4 (c :: r))
          else
            match parseNumber (c :: r) with
            | Some (n, r') => Some (Num n, r')
            | None => None
            end
      end
  end
with parseElements (fuel : nat) (s : jsstring)
  : option (list value * jsstring) :=
  match fuel with
  | O => None
  | S f =>
      match parseValue f s with
      | Some (v, r) =>
          match skipWs r with
          | c :: r' =>
              if c =? 44 then
                match parseElements f r' with
                | Some (vs, r'') => Some (v :: vs, r'')
                | None => None
                end
              else if c =? 93 then Some ([v], r')
              else None
          | [] => None
          end
      | None => None
      end
  end
with parseMembers (fuel : nat) (s : jsstring)
  : option (list (jsstring * value) * jsstring) :=
  match fuel with
  | O => None
  | S f =>
      match expect 34 (skipWs s) with
      | Some r =>
          match parseChars r with
          | Some (k, r1) =>
              match expect 58 (skipWs r1) with
              | Some r2 =>
                  match parseValue f r2 with
                  | Some (v, r3) =>
                      match skipWs r3 with
                      | c :: r4 =>
                          if c =? 44 then
                            match parseMembers f r4 with
                            | Some (ms, r5) => Some ((k, v) :: ms, r5)
                            | None => None
                            end
                          else if c =? 125 then Some ([(k, v)], r4)
                          else None
                      | [] => None
                      end
                  | None => None
                  end
              | None => None
              end
          | None => None
          end
      | None => None
      end
  end.

Fixpoint distinct (ks : list jsstring) : bool :=
  match ks with
  | [] => true
  | k :: ks' => negb (existsb (JsString.eqb k) ks') && distinct ks'
  end.

(** The values that [JSON.parse] returns: no [undefined] inside, numbers in
    normal form, no repeated key. *)
Fixpoint isJson (v : value) : bool :=
  match v with
  | Undefined => false
  | Null | Bool _ | Str _ => true
  | Num n => Number.wf n
  | Arr l => forallb isJson l
  | Obj l =>
      forallb (fun kx => isJson (snd kx)) l && distinct (List.map fst l)
  end.

(** The whole text must be one JSON value between optional white space. *)
Definition parseText (s : jsstring) : option value :=
  match parseValue (S (List.length s)) s with
  | Some (v, r) => match skipWs r with [] => Some v | _ => None end
  | None => None
  end.

(** [JSON.parse(text)]: the argument goes through ToString; a text that
    is not JSON raises a SyntaxError. *)
Definition parse (text : value) : result value :=
  match parseText (ToString text) with
  | Some v => Ok v
  | None => Throw SyntaxError
  end.

End JSON.


(** ** The dashboard renderer ([DashboardRenderer.tsx]) *)

Module Dashboard.
Local Open Scope N_scope.

(** The warning sign of the source, U+26A0 followed by the variation
    selector U+FE0F. *)
Definition warningGlyph : jsstring := [9888; 65039].

(** The check mark U+2705. *)
Definition successGlyph : jsstring := [9989].

(** The class of the regular expression of [getAlertMessage]: without the
    [u] flag it is a set of code units, the two of the warning sign and the
    one of the check mark. *)
Definition glyphClass (c : N) : bool :=
  (c =? 9888) || (c =? 65039) || (c =? 9989).

(** [s.replace(/[...]/g, '')]. *)
Definition removeClass (cls : N -> bool) (s : jsstring) : jsstring :=
  filter (fun c => negb (cls c)) s.

(** The object literal [{ label, value }]. *)
Definition point (label v : value) : value :=
  Obj [(js "label", label); (js "value", v)].

(** The guard reads [data.labels] and [data.values] only when [data] is
    truthy.  (When [data] is an array, [data.values] is the method of
    [Array.prototype]: not an array either, so the guard answers the
    same.) *)
Definition transformChartData (data : value) : list value :=
  let labels := prop data (js "labels") in
  let values := prop data (js "values") in
  if negb (truthy data)
     || negb (Array_isArray labels)
     || negb (Array_isArray values)
     || Nat.eqb (List.length (elements labels)) 0
  then []
  else mapi (fun label i =>
               point label (nullish_or (index (elements values) i) (Num zero)))
            (elements labels).

Inductive variant : Type := destructive | default.

Definition getAlertVariant (alert : value) : result variant :=
  match alert with
  | Str s => Ok (if startsWith s warningGlyph then destructive else default)
  | _ =>
      type <- get alert (js "type") ;;
      Ok (if strictEqStr type (js "error") || strictEqStr type (js "warning")
          then destructive else default)
  end.

Definition getAlertMessage (alert : value) : result value :=
  match alert with
  | Str s => Ok (Str (trim (removeClass glyphClass s)))
  | _ => get alert (js "message")
  end.

(** The card of one chart. *)
Record ChartCard : Type := mkChartCard
  { cardTitle : value;
    cardIsPie : bool;
    cardData : list value }.

(** The callback of [content.charts?.map]: [None] is the answer [null],
    no card. *)
Definition renderChart (chart : value) : result (option ChartCard) :=
  data <- get chart (js "data") ;;
  let transformedData := transformChartData data in
  if Nat.eqb (List.length transformedData) 0 then Ok None
  else Ok (Some (mkChartCard
                   (or_else (prop chart (js "title")) (Str (js "Chart")))
                   (strictEqStr (prop chart (js "type")) (js "pie"))
                   transformedData)).

End Dashboard.

(** ** The message dispatcher ([sendMessage]) *)

Module Dispatcher.

Inductive Sender : Type := User | Assistant.

Record Message : Type := mkMessage
  { id : jsstring;
    sender : Sender;
    content : jsstring;
    created_at : jsstring }.

(** What a [fetch] that resolves hands back: [ok], [status], and the text
    that [json()] parses. *)
Record Response : Type := mkResponse
  { ok : bool;
    status : N;
    body : jsstring }.

(** The outcomes of the awaited collaborators, one per call site of
    [sendMessage]; a rejected promise is a [Throw]. *)
Record World : Type := mkWorld
  { createNewSession : result (option jsstring);
    saveMessage_user : result unit;
    updateSessionTitle : result unit;
    fetch : result Response;
    saveMessage_reply : result unit;
    saveMessage_apology : result unit }.

(** The component state that [sendMessage] reads and writes, with the
    traces of its calls to the collaborators. *)
Record State : Type := mkState
  { user : option jsstring;
    currentSessionId : option jsstring;
    messages : list Message;
    inputMessage : jsstring;
    isLoading : bool;
    error : option jsstring;
    saved : list (value * Sender);      (* saveMessage calls that resolved *)
    titled : list (jsstring * jsstring); (* updateSessionTitle calls *)
    toasts : list jsstring }.

(** State and exception monad. *)
Definition M (A : Type) : Type := State -> result A * State.

Definition ret {A} (a : A) : M A := fun s => (Ok a, s).

Definition raise {A} (e : exn) : M A := fun s => (Throw e, s).

Definition bindM {A B} (m : M A) (k : A -> M B) : M B :=
  fun s => match m s with
           | (Ok a, s') => k a s'
           | (Throw e, s') => (Throw e, s')
           end.

Definition lift {A} (r : result A) : M A := fun s => (r, s).

(** [try { body } catch (error) { handler }]. *)
Definition catchM {A} (body : M A) (handler : exn -> M A) : M A :=
  fun s => match body s with
           | (Ok a, s') => (Ok a, s')
           | (Throw e, s') => handler e s'
           end.

(** [try { body } finally { cleanup }]. *)
Definition finallyM {A} (body : M A) (cleanup : M unit) : M A :=
  fun s => match body s with
           | (r, s') =>
               match cleanup s' with
               | (Ok _, s'') => (r, s'')
               | (Throw e, s'') => (Throw e, s'')
               end
           end.

Notation "x <~ m ;; k" := (bindM m (fun x => k))
  (at level 61, m at next level, right associativity).
Notation "m ;;; k" := (bindM m (fun _ => k))
  (at level 61, right associativity).

Definition setInputMessage (v : jsstring) : M unit :=
  fun s => (Ok tt, mkState (user s) (currentSessionId s) (messages s) v
                     (isLoading s) (error s) (saved s) (titled s) (toasts s)).

Definition setIsLoading (b : bool) : M unit :=
  fun s => (Ok tt, mkState (user s) (currentSessionId s) (messages s)
                     (inputMessage s) b (error s) (saved s) (titled s)
                     (toasts s)).

Definition setError (e : option jsstring) : M unit :=
  fun s => (Ok tt, mkState (user s) (currentSessionId s) (messages s)
                     (inputMessage s) (isLoading s) e (saved s) (titled s)
                     (toasts s)).

Definition toast (title : jsstring) : M unit :=
  fun s => (Ok tt, mkState (user s) (currentSessionId s) (messages s)
                     (inputMessage s) (isLoading s) (error s) (saved s)
                     (titled s) (toasts s ++ [title])).

(** [await saveMessage(content, sender)] with the given outcome. *)
Definition saveMessage (outcome : result unit) (c : value) (who : Sender)
  : M unit :=
  fun s => match outcome with
           | Ok _ =>
               (Ok tt, mkState (user s) (currentSessionId s) (messages s)
                         (inputMessage s) (isLoading s) (error s)
                         (saved s ++ [(c, who)]) (titled s) (toasts s))
           | Throw e => (Throw e, s)
           end.

(** [await updateSessionTitle(sessionId, title)] with the given outcome. *)
Definition updateTitle (outcome : result unit) (sid title : jsstring)
  : M unit :=
  fun s => match outcome with
           | Ok _ =>
               (Ok tt, mkState (user s) (currentSessionId s) (messages s)
                         (inputMessage s) (isLoading s) (error s) (saved s)
                         (titled s ++ [(sid, title)]) (toasts s))
           | Throw e => (Throw e, s)
           end.

Definition isEmpty (s : jsstring) : bool :=
  match s with [] => true | _ => false end.

(** [!sessionId] is false. *)
Definition validSession (sid : option jsstring) : option jsstring :=
  match sid with
  | Some (c :: t) => Some (c :: t)
  | _ => None
  end.

Definition errorMessage : jsstring :=
  js "I'm sorry, I'm having trouble connecting right now. Please try again in a moment.".

Definition fallbackReply (data response : value) : value :=
  Obj [(js "textView", response);
       (js "dashboardView", or_else (prop data (js "module_outputs")) (Obj []))].

(** The normalization of the reply ("Handle both response formats"):
    the value bound to [assistantResponse]. *)
Definition normalizeReply (data : value) : result value :=
  response <- get data (js "response") ;;
  if truthy response then
    try_catch
      (parsedResponse <- JSON.parse response ;;
       textView <- get parsedResponse (js "textView") ;;
       Ok (if truthy textView then parsedResponse
           else fallbackReply data response))
      (Ok (fallbackReply data response))
  else Ok data.

(** The value of [JSON.stringify(v)]: a string or [undefined]. *)
Definition stringified (v : value) : value :=
  match JSON.stringify v with
  | Some text => Str text
  | None => Undefined
  end.

(** The body of the [try] block. *)
Definition request (w : World) (userMessageContent : jsstring) : M unit :=
  response <~ lift (fetch w) ;;
  (if ok response then ret tt
   else raise (Error (js "HTTP error! status: "
                        ++ List.map digitChar (digitsOf (status response))))) ;;;
  data <~ lift (JSON.parse (Str (body response))) ;;
  assistantResponse <~ lift (normalizeReply data) ;;
  saveMessage (saveMessage_reply w) (stringified assistantResponse) Assistant.

(** The [catch] block. *)
Definition recover (w : World) : M unit :=
  setError (Some (js "Failed to send message. Please check your connection and try again.")) ;;;
  toast (js "Connection Error") ;;;
  saveMessage (saveMessage_apology w) (Str errorMessage) Assistant.

(** The session of the send: the current one, or a new one when there is
    none; [None] when the new one is not usable either. *)
Definition ensureSession (w : World) (current : option jsstring)
  : result (option jsstring) :=
  match validSession current with
  | Some sid => Ok (Some sid)
  | None => created <- createNewSession w ;; Ok (validSession created)
  end.

(** The entry guard: a blank input, a send in flight or no user. *)
Definition refused (s0 : State) : bool :=
  isEmpty (trim (inputMessage s0)) || isLoading s0
  || match user s0 with None => true | Some _ => false end.

Definition sendMessage (w : World) : M unit :=
  fun s0 =>
    if refused s0 then (Ok tt, s0)
    else
      (sessionId <~ lift (ensureSession w (currentSessionId s0)) ;;
       match sessionId with
       | None => ret tt
       | Some sid =>
           let userMessageContent := inputMessage s0 in
           setInputMessage [] ;;;
           setIsLoading true ;;;
           setError None ;;;
           saveMessage (saveMessage_user w) (Str userMessageContent) User ;;;
           (let nonWelcomeMessages :=
              filter (fun msg => negb (startsWith (id msg) (js "welcome-")))
                     (messages s0) in
            let isFirstMessage := Nat.leb (List.length nonWelcomeMessages) 1 in
            if isFirstMessage
            then updateTitle (updateSessionTitle w) sid userMessageContent
            else ret tt) ;;;
           finallyM
             (catchM (request w userMessageContent) (fun _ => recover w))
             (setIsLoading false)
       end) s0.

End Dispatcher.

(** ** The response renderer ([renderMessageContent]) *)

Module Renderer.

Inductive ViewMode : Type := text | dashboard.

(** What [renderMessageContent] returns: a React element, which is built
    but not rendered by the function. *)
Inductive Element : Type :=
| DashboardView (content : value)   (* <DashboardRenderer content=... /> *)
| TextView (children : value)       (* markdown with raw HTML, "prose" *)
| RawFallback (children : jsstring). (* markdown without raw HTML *)

(** The two parse attempts. *)
Definition parseContent (content : jsstring) : result value :=
  try_catch
    (JSON.parse (Str content))
    (try_catch
       (inner <- JSON.parse (Str content) ;; JSON.parse inner)
       (Throw (Error (js "Not valid JSON")))).

(** "Handle the different response formats": the final [textContent] and
    [dashboardContent]. *)
Definition classify (content : jsstring) (parsedContent : value)
  : result (value * value) :=
  textView <- get parsedContent (js "textView") ;;
  if truthy textView then
    Ok (textView, prop parsedContent (js "dashboardView"))
  else if truthy (prop parsedContent (js "response")) then
    let response := prop parsedContent (js "response") in
    let tc :=
      match (responseJson <- JSON.parse response ;;
             inner <- get responseJson (js "textView") ;;
             Ok (responseJson, inner)) with
      | Ok (responseJson, inner) =>
          if truthy inner
          then (inner, prop responseJson (js "dashboardView"))
          else (response, Null)
      | Throw _ => (response, Null)
      end in
    let module_outputs := prop parsedContent (js "module_outputs") in
    Ok (fst tc,
        if negb (truthy (snd tc)) && truthy module_outputs
        then module_outputs else snd tc)
  else Ok (Str content, Null).

Definition renderMessageContent
           (messageViewModes : jsstring -> option ViewMode)
           (message : Dispatcher.Message) : result Element :=
  let viewMode := match messageViewModes (Dispatcher.id message) with
                  | Some m => m
                  | None => text
                  end in
  try_catch
    (parsedContent <- parseContent (Dispatcher.content message) ;;
     tc <- classify (Dispatcher.content message) parsedContent ;;
     Ok (match viewMode with
         | dashboard =>
             if truthy (snd tc) then DashboardView (snd tc)
             else TextView (fst tc)
         | text => TextView (fst tc)
         end))
    (Ok (RawFallback (Dispatcher.content message))).

End Renderer.

(** * Vocabulary of the statements *)

(** ** Texts and parsers: the vocabulary of the round trip *)

Module JSONSpec.
Local Open Scope N_scope.

(** [rest] does not go on with a digit. *)
Definition stopsDigits (rest : jsstring) : Prop :=
  match rest with
  | [] => True
  | c :: _ => JSON.digitVal c = None
  end.

(** What follows a value inside the text that [JSON.stringify] writes: the
    end, a comma, a closing bracket or a closing brace. *)
Definition delimited (rest : jsstring) : Prop :=
  match rest with
  | [] => True
  | c :: _ => c = 44 \/ c = 93 \/ c = 125
  end.

(** The code units of the digits [0] to [9]. *)
Definition isDigitChar (c : N) : Prop := 48 <= c /\ c <= 57.

(** The unit [c] put in front of the string that a parse of the rest
    returns. *)
Definition consInto (c : N) (o : option (jsstring * jsstring))
  : option (jsstring * jsstring) :=
  match o with
  | Some (t, r) => Some (c :: t, r)
  | None => None
  end.

(** The first code unit of the text of a value. *)
Definition valueStart (c : N) : Prop :=
  c = 123 \/ c = 91 \/ c = 34 \/ c = 116 \/ c = 102 \/ c = 110 \/ c = 45
  \/ isDigitChar c.

(** The text of the JSON value [v], followed by a delimiter, is parsed back
    to [v] with any fuel above its length. *)
Definition parsesBack (v : value) : Prop :=
  JSON.isJson v = true ->
  forall t, JSON.serialize v = Some t ->
  forall fuel rest,
    (List.length t < fuel)%nat -> delimited rest ->
    JSON.parseValue fuel (t ++ rest) = Some (v, rest).

(** The text between the brackets of an array. *)
Definition elementsText (l : list value) : jsstring :=
  JSON.join [44] (List.map (fun x => JSON.elementText (JSON.serialize x)) l).

(** The text between the braces of an object. *)
Definition membersText (l : list (jsstring * value)) : jsstring :=
  JSON.join [44]
    (List.flat_map
       (fun kx => JSON.memberText (fst kx) (JSON.serialize (snd kx))) l).

(** A success of [parser] with [fuel] consumes input, and is reached with
    any fuel that is at least the number of code units consumed. *)
Definition enough {A} (parser : nat -> jsstring -> option (A * jsstring))
           (fuel : nat) : Prop :=
  forall s a r,
    parser fuel s = Some (a, r) ->
    (List.length r < List.length s)%nat
    /\ forall fuel', (List.length s - List.length r <= fuel')%nat ->
                     parser fuel' s = Some (a, r).

End JSONSpec.

(** ** The value paired with a label *)

Module DashboardSpec.
Import Dashboard.

(** The value that the chart transform pairs with the label at index
    [i]: the entry of [values] there, and [0] where it is missing. *)
Definition valueAt (values : list value) (i : nat) : value :=
  match nth_error values i with
  | Some Undefined | Some Null | None => Num zero
  | Some v => v
  end.

(** The transform as the reading "for every chart spec" has it: the labels
    zipped with the values by position, with [0] for a value that is
    missing, whatever [values] is. *)
Definition transformChartData_byZip (data : value) : list value :=
  mapi (fun label i =>
          Obj [(js "label", label);
               (js "value", valueAt (elements (prop data (js "values"))) i)])
       (elements (prop data (js "labels"))).

End DashboardSpec.

(** ** The phases of a send *)

Module DispatcherSpec.
Import Dispatcher.

(** The state in which the [try] block starts: input cleared, flag set,
    error cleared, the user's message saved and the title updated when the
    message is the first one. *)
Definition started (s0 : State) (sid : jsstring) : State :=
  mkState (user s0) (currentSessionId s0) (messages s0) [] true None
          (saved s0 ++ [(Str (inputMessage s0), User)])
          (titled s0
           ++ (if Nat.leb
                    (List.length
                       (filter (fun msg =>
                                  negb (startsWith (id msg) (js "welcome-")))
                               (messages s0))) 1
               then [(sid, inputMessage s0)] else []))
          (toasts s0).

(** What the [try] block computes before it saves: the normalized reply,
    or the exception that ends the block. *)
Definition replyOf (w : World) : result value :=
  response <- fetch w ;;
  _ <- (if ok response then Ok tt
        else Throw (Error (js "HTTP error! status: "
                             ++ List.map digitChar (digitsOf (status response))))) ;;
  data <- JSON.parse (Str (body response)) ;;
  normalizeReply data.

(** [k] is an own property of [v]. *)
Definition hasField (v : value) (k : jsstring) : bool :=
  match v with
  | Obj l => match lookup k l with Some _ => true | None => false end
  | _ => false
  end.

(** The normalization as the presence reading has it: the branches are
    chosen by whether the fields [response], [textView] and
    [module_outputs] are there.  (The argument has a [response] field.) *)
Definition normalizeReply_byPresence (data : value) : value :=
  let response := prop data (js "response") in
  let fallback :=
    Obj [(js "textView", response);
         (js "dashboardView",
          if hasField data (js "module_outputs")
          then prop data (js "module_outputs") else Obj [])] in
  match JSON.parse response with
  | Ok parsed => if hasField parsed (js "textView") then parsed else fallback
  | Throw _ => fallback
  end.

End DispatcherSpec.

(** ** The reply object *)

Module RendererSpec.
Import Dispatcher Renderer.

(** The reply object [{textView, dashboardView}]. *)
Definition replyObject (textView : jsstring) (dashboardView : value) : value :=
  Obj [(js "textView", Str textView); (js "dashboardView", dashboardView)].

End RendererSpec.

(** ** Sample data *)

Module Samples.
Import Dashboard Dispatcher Renderer RendererSpec.

(** Three labels and two values: three points, the third with value 0,
    and a card is rendered. *)
Definition chart32 : value :=
  Obj [(js "title", Str (js "Spend"));
       (js "data",
        Obj [(js "labels", Arr [Str (js "a"); Str (js "b"); Str (js "c")]);
             (js "values", Arr [Num (normal false [1%N] 0);
                                Num (normal false [2%N] 0)])])].

(** Labels without values. *)
Definition chartNoValues : value :=
  Obj [(js "data", Obj [(js "labels", Arr [Str (js "a"); Str (js "b")])])].

(** A signed-in user with an open session who typed "hello". *)
Definition sampleState : State :=
  mkState (Some (js "u1")) (Some (js "s1")) [] (js "hello") false None [] [] [].

(** A world in which every collaborator resolves and the agent answers 200
    with the given body. *)
Definition answering (text : jsstring) : World :=
  mkWorld (Ok None) (Ok tt) (Ok tt) (Ok (mkResponse true 200 text))
          (Ok tt) (Ok tt).

(** A world in which the request fails at the network. *)
Definition offline : World :=
  mkWorld (Ok None) (Ok tt) (Ok tt) (Throw (Rejected "fetch")) (Ok tt) (Ok tt).

(** A world in which saving the user's message is rejected. *)
Definition storageDown : World :=
  mkWorld (Ok None) (Throw (Rejected "saveMessage")) (Ok tt)
          (Ok (mkResponse true 200 (jsq "{'textView':'hi'}"))) (Ok tt) (Ok tt).

(** Three bodies that have a [response] field: an empty [response]; a
    [response] whose JSON has an empty [textView]; a [module_outputs] that
    is [false]. *)
Definition bodyEmptyResponse : value := Obj [(js "response", Str [])].

Definition bodyEmptyTextView : value :=
  Obj [(js "response", Str (jsq "{'textView':''}"))].

Definition bodyFalseOutputs : value :=
  Obj [(js "response", Str (js "plain text"));
       (js "module_outputs", Bool false)].

(** The body with a plain text answer and module outputs. *)
Definition bodyPlainText : value :=
  Obj [(js "response", Str (js "plain text"));
       (js "module_outputs",
        Obj [(js "alerts",
              Arr [Str (Dashboard.warningGlyph ++ js " watch spend")])])].

(** A reply object encoded twice: a JSON string literal whose characters
    are the JSON text of [{textView: "hi", dashboardView: {}}]. *)
Definition twiceEncoded : jsstring :=
  jsq "'{\'textView\':\'hi\',\'dashboardView\':{}}'".

(** A reply with an empty [textView] and one alert. *)
Definition replyWithoutText : value :=
  replyObject [] (Obj [(js "alerts", Arr [Str (js "watch spend")])]).

End Samples.

(** * The rest of the two files *)

(** ** View modes and selection ([ChatInterfaceWithSidebar.tsx]) *)

Module Interface.
Import Dispatcher Renderer.

(** [toggleMessageView]: the updater given to [setMessageViewModes], on
    the object [messageViewModes] read as a map from message ids. *)
Definition toggleMessageView (messageId : jsstring)
           (prev : jsstring -> option ViewMode) : jsstring -> option ViewMode :=
  fun k =>
    if JsString.eqb k messageId
    then Some (match prev messageId with
               | Some dashboard => text
               | _ => dashboard
               end)
    else prev k.

(** The [pressed] attribute of the toggle of a message. *)
Definition togglePressed (messageViewModes : jsstring -> option ViewMode)
           (messageId : jsstring) : bool :=
  match messageViewModes messageId with
  | Some dashboard => true
  | _ => false
  end.

(** A [Set] of strings: its elements in insertion order. *)
Definition Set_has (s : list jsstring) (x : jsstring) : bool :=
  existsb (JsString.eqb x) s.

Definition Set_delete (s : list jsstring) (x : jsstring) : list jsstring :=
  filter (fun y => negb (JsString.eqb x y)) s.

Definition Set_add (s : list jsstring) (x : jsstring) : list jsstring :=
  if Set_has s x then s else s ++ [x].

(** [handleMessageToggle]: the set given to [setSelectedMessages]. *)
Definition handleMessageToggle (messageId : jsstring)
           (selectedMessages : list jsstring) : list jsstring :=
  let newSelected := selectedMessages in
  if Set_has newSelected messageId
  then Set_delete newSelected messageId
  else Set_add newSelected messageId.

End Interface.

(** ** The binary64 range

    Where a decimal falls with respect to the numbers of binary64, under
    rounding to nearest with ties to even: at or below [2^-1075], half the
    least positive number, it rounds to zero; at or above
    [2^1024 - 2^970], half way past the greatest number, it rounds to an
    infinity. *)

Module Binary64.
Local Open Scope Z_scope.

(** Whether [m * 10^e], with [0 <= m], rounds to zero. *)
Definition roundsToZero (m e : Z) : bool :=
  if 0 <=? e then m =? 0
  else m * 2 ^ 1075 <=? 10 ^ (- e).

(** Whether [m * 10^e], with [0 <= m], rounds to an infinity. *)
Definition roundsToInfinity (m e : Z) : bool :=
  if 0 <=? e then 2 ^ 1024 - 2 ^ 970 <=? m * 10 ^ e
  else (2 ^ 1024 - 2 ^ 970) * 10 ^ (- e) <=? m.

(** A number of the embedding that binary64 keeps apart from zero and
    from the infinities: zero, or a decimal that rounds to neither.  On
    these numbers the exact decimal and its binary64 rounding are truthy
    together and are written by [JSON.stringify] as numbers together. *)
Definition inRange (x : number) : bool :=
  isZero x
  || (negb (roundsToZero (Z.of_N (valueOfDigits (digits x))) (exp10 x))
      && negb (roundsToInfinity (Z.of_N (valueOfDigits (digits x))) (exp10 x))).

(** A value all of whose numbers are in range. *)
Fixpoint allInRange (v : value) : bool :=
  match v with
  | Num n => inRange n
  | Arr l => forallb allInRange l
  | Obj l => forallb (fun kx => allInRange (snd kx)) l
  | _ => true
  end.

End Binary64.

(** ** The body of the dashboard component ([DashboardRenderer.tsx]) *)

Module DashboardBody.
Import Dashboard.
Local Open Scope N_scope.

Definition COLORS : list jsstring :=
  [js "#0088FE"; js "#00C49F"; js "#FFBB28"; js "#FF8042";
   js "#A4DE6C"; js "#D0ED57"; js "#8884D8"; js "#82CA9D"].

(** [COLORS[i % COLORS.length]], the fill of the cell of index [i]. *)
Definition cellFill (i : nat) : value :=
  match nth_error COLORS (Nat.modulo i (List.length COLORS)) with
  | Some c => Str c
  | None => Undefined
  end.

(** The fills of the cells of a pie chart. *)
Definition cellFills (transformedData : list value) : list value :=
  mapi (fun _ i => cellFill i) transformedData.

(** The value of [a && b] inside JSX: the falsy [a] itself, which is left
    as the child, or what [b] builds. *)
Inductive Guarded (A : Type) : Type :=
| Leaked (v : value)
| Shown (a : A).
Arguments Leaked {A} v.
Arguments Shown {A} a.

(** Whether the digits of a literal, in hexadecimal notation at most, are
    all below [base], and whether one of them is not zero. *)
Definition digitsBelow (base : N) (s : jsstring) : bool :=
  forallb (fun c => match JSON.hexVal c with
                    | Some d => d <? base
                    | None => false
                    end) s.

Definition someDigitNotZero (s : jsstring) : bool :=
  existsb (fun c => match JSON.hexVal c with
                    | Some d => negb (d =? 0)
                    | None => false
                    end) s.

(** StringToNumber on the literals [0x..], [0o..] and [0b..]: whether the
    number is above zero, or [None] when the string has no such prefix. *)
Definition nonDecimalPositive (s : jsstring) : option bool :=
  match s with
  | z :: p :: ds =>
      if z =? 48 then
        let base :=
          if (p =? 120) || (p =? 88) then Some 16
          else if (p =? 111) || (p =? 79) then Some 8
          else if (p =? 98) || (p =? 66) then Some 2
          else None in
        match base with
        | Some b =>
            Some (match ds with
                  | [] => false
                  | _ => digitsBelow b ds && someDigitNotZero ds
                  end)
        | None => None
        end
      else None
  | _ => None
  end.

(** StringToNumber on a decimal literal (optional sign, [Infinity], or
    digits with an optional point and exponent): whether the number is
    above zero.  A string that is no literal is NaN, which is not, and a
    literal that binary64 rounds to zero is not either. *)
Definition decimalPositive (s : jsstring) : bool :=
  match JSON.expect 45 s with
  | Some _ => false
  | None =>
      let s1 := match JSON.expect 43 s with Some r => r | None => s end in
      if JsString.eqb s1 (js "Infinity") then true
      else
        let (ip, r1) := JSON.spanDigits s1 in
        let (fp, r3) := match JSON.expect 46 r1 with
                        | Some r2 => JSON.spanDigits r2
                        | None => ([], r1)
                        end in
        match ip ++ fp with
        | [] => false
        | _ =>
            match JSON.parseExponent r3 with
            | Some (e, []) =>
                negb (Binary64.roundsToZero
                        (Z.of_N (valueOfDigits (ip ++ fp)))
                        (e - Z.of_nat (List.length fp)))
            | _ => false
            end
        end
  end.

(** [Number(s) > 0]. *)
Definition stringPositive (s : jsstring) : bool :=
  match trim s with
  | [] => false
  | t => match nonDecimalPositive t with
         | Some b => b
         | None => decimalPositive t
         end
  end.

(** [v > 0]: the comparison converts [v] to a number. *)
Definition isPositive (v : value) : bool :=
  match v with
  | Undefined | Null => false
  | Bool b => b
  | Num n => negb (negative n) && negb (isZero n)
  | Str s => stringPositive s
  | Arr _ | Obj _ => stringPositive (ToString v)
  end.

(** [v.length > 0]: the length of an array or a string, the property of an
    object, [undefined] on a number or a boolean. *)
Definition lengthPositive (v : value) : result bool :=
  match v with
  | Undefined | Null => Throw TypeError
  | Arr l => Ok (match l with [] => false | _ => true end)
  | Str s => Ok (match s with [] => false | _ => true end)
  | Obj _ => Ok (isPositive (prop v (js "length")))
  | Bool _ | Num _ => Ok false
  end.

(** The callbacks of [map], in order, up to the first one that raises. *)
Fixpoint mapM {A B} (f : A -> result B) (l : list A) : result (list B) :=
  match l with
  | [] => Ok []
  | x :: l' => y <- f x ;; ys <- mapM f l' ;; Ok (y :: ys)
  end.

(** [xs.map(f)]: only an array has the method. *)
Definition Array_map {B} (xs : value) (f : value -> result B)
  : result (list B) :=
  match xs with
  | Arr l => mapM f l
  | _ => Throw TypeError
  end.

(** [xs?.map(f)]: [None] is [undefined]. *)
Definition optional_map {B} (xs : value) (f : value -> result B)
  : result (option (list B)) :=
  match xs with
  | Undefined | Null => Ok None
  | _ => l <- Array_map xs f ;; Ok (Some l)
  end.

(** [xs && xs.length > 0 && (... xs.map(f) ...)]. *)
Definition whenNotEmpty {B} (xs : value) (f : value -> result B)
  : result (Guarded (list B)) :=
  if truthy xs then
    positive <- lengthPositive xs ;;
    if positive then l <- Array_map xs f ;; Ok (Shown l)
    else Ok (Leaked (Bool false))
  else Ok (Leaked xs).

Record SummaryCard : Type := mkSummaryCard
  { summaryTitle : value;
    summaryValue : value;
    summaryDescription : Guarded value }.

Definition renderSummaryCard (card : value) : result SummaryCard :=
  title <- get card (js "title") ;;
  Ok (mkSummaryCard title (prop card (js "value"))
        (let description := prop card (js "description") in
         if truthy description then Shown description
         else Leaked description)).

Record TableView : Type := mkTableView
  { tableTitle : Guarded value;
    tableHead : list value;
    tableBody : list (list value) }.

Definition renderTable (table : value) : result TableView :=
  title <- get table (js "title") ;;
  head <- Array_map (prop table (js "headers")) (fun header => Ok header) ;;
  body <- Array_map (prop table (js "rows"))
                    (fun row => Array_map row (fun cell => Ok cell)) ;;
  Ok (mkTableView (if truthy title then Shown title else Leaked title)
                  head body).

Record AlertView : Type := mkAlertView
  { alertVariant : variant;
    alertMessage : value }.

Definition renderAlert (alert : value) : result AlertView :=
  v <- getAlertVariant alert ;;
  m <- getAlertMessage alert ;;
  Ok (mkAlertView v m).

(** The children of the element that the component returns. *)
Record DashboardElement : Type := mkDashboardElement
  { summaryCards : Guarded (list SummaryCard);
    charts : option (list (option ChartCard));
    tables : option (list TableView);
    alerts : Guarded (list AlertView);
    recommendations : Guarded (list value) }.

Definition DashboardRenderer (content : value) : result DashboardElement :=
  cards <- get content (js "summaryCards") ;;
  summary <- whenNotEmpty cards renderSummaryCard ;;
  chartCards <- optional_map (prop content (js "charts")) renderChart ;;
  tableViews <- optional_map (prop content (js "tables")) renderTable ;;
  alertViews <- whenNotEmpty (prop content (js "alerts")) renderAlert ;;
  recs <- whenNotEmpty (prop content (js "recommendations"))
                       (fun rec => Ok rec) ;;
  Ok (mkDashboardElement summary chartCards tableViews alertViews recs).

End DashboardBody.

(** ** Scenarios and vocabulary for the rest of the two files *)

Module MoreSamples.
Import Dispatcher Samples.

(** A signed-in user with an open session whose input is white space. *)
Definition blankState : State :=
  mkState (Some (js "u1")) (Some (js "s1")) [] [32%N; 9%N; 10%N] false None
          [] [] [].

(** A signed-in user without a session who typed "hello". *)
Definition noSessionState : State :=
  mkState (Some (js "u1")) None [] (js "hello") false None [] [] [].

(** A world in which a session is created with the given outcome and the
    agent answers 200 with [{"textView":"hi"}]. *)
Definition creating (outcome : result (option jsstring)) : World :=
  mkWorld outcome (Ok tt) (Ok tt)
          (Ok (mkResponse true 200 (jsq "{'textView':'hi'}"))) (Ok tt) (Ok tt).

(** A world in which the agent answers with status 500 and a body that
    would be a good reply. *)
Definition failing500 : World :=
  mkWorld (Ok None) (Ok tt) (Ok tt)
          (Ok (mkResponse false 500 (jsq "{'textView':'hi'}"))) (Ok tt) (Ok tt).

(** A state that shows the error of an earlier send. *)
Definition staleErrorState : State :=
  mkState (Some (js "u1")) (Some (js "s1")) [] (js "hello") false
          (Some (js "Failed to send message. Please check your connection and try again."))
          [] [] [js "Connection Error"].

(** A session that already shows a welcome message and two others. *)
Definition busyState : State :=
  mkState (Some (js "u1")) (Some (js "s1"))
          [mkMessage (js "welcome-1") Assistant (js "Welcome") (js "t0");
           mkMessage (js "m1") User (js "first") (js "t1");
           mkMessage (js "m2") Assistant (js "answer") (js "t2")]
          (js "hello") false None [] [] [].

(** A world in which the title update would be rejected. *)
Definition titleDown : World :=
  mkWorld (Ok None) (Ok tt) (Throw (Rejected "updateSessionTitle"))
          (Ok (mkResponse true 200 (jsq "{'textView':'hi'}"))) (Ok tt) (Ok tt).

(** A world in which the request fails and the apology cannot be saved. *)
Definition allDown : World :=
  mkWorld (Ok None) (Ok tt) (Ok tt) (Throw (Rejected "fetch")) (Ok tt)
          (Throw (Rejected "saveMessage")).

End MoreSamples.

Module ViewSpec.
Import Dispatcher Renderer.

(** The view mode of a message: [messageViewModes[id] || 'text']. *)
Definition viewModeOf (modes : jsstring -> option ViewMode) (k : jsstring)
  : ViewMode :=
  match modes k with Some v => v | None => text end.

(** The element selected for a text and a dashboard content. *)
Definition selected (mode : ViewMode) (textContent dashboardContent : value)
  : Element :=
  match mode with
  | dashboard =>
      if truthy dashboardContent then DashboardView dashboardContent
      else TextView textContent
  | text => TextView textContent
  end.

(** A stored reply with a dashboard. *)
Definition storedReply : Message :=
  mkMessage (js "m1") Assistant
            (jsq "{'textView':'hi','dashboardView':{'alerts':['watch spend']}}")
            (js "t").

(** A stored reply whose dashboard holds a number. *)
Definition storedTotal : Message :=
  mkMessage (js "m4") Assistant
            (jsq "{'textView':'hi','dashboardView':{'alerts':['watch spend'],'total':1.5}}")
            (js "t").

(** Stored content of the old format: a text answer and module outputs. *)
Definition storedLegacy : Message :=
  mkMessage (js "m2") Assistant
            (jsq "{'response':'plain text','module_outputs':{'alerts':['watch spend']}}")
            (js "t").

End ViewSpec.

Module DashboardSchema.
Import Dashboard DashboardBody.

(** The props of the component as its interface declares them
    ([DashboardRendererProps]): five optional arrays, of objects for the
    cards and the charts, of tables with a [headers] array and a [rows]
    array of arrays, of strings or objects for the alerts. *)
Definition isObject (v : value) : bool :=
  match v with Obj _ => true | _ => false end.

Definition anything (v : value) : bool := true.

Definition arrayOf (p : value -> bool) (v : value) : bool :=
  match v with Arr l => forallb p l | _ => false end.

Definition optional (p : value -> bool) (v : value) : bool :=
  match v with Undefined => true | _ => p v end.

Definition isTable (t : value) : bool :=
  isObject t
  && arrayOf anything (prop t (js "headers"))
  && arrayOf (arrayOf anything) (prop t (js "rows")).

Definition isAlert (a : value) : bool :=
  match a with Str _ | Obj _ => true | _ => false end.

Definition conforms (content : value) : bool :=
  isObject content
  && optional (arrayOf isObject) (prop content (js "summaryCards"))
  && optional (arrayOf isTable) (prop content (js "tables"))
  && optional (arrayOf isObject) (prop content (js "charts"))
  && optional (arrayOf isAlert) (prop content (js "alerts"))
  && optional (arrayOf anything) (prop content (js "recommendations")).

(** The number of views in a guarded section and in an optional one. *)
Definition shownCount {A} (g : Guarded (list A)) : nat :=
  match g with Shown l => List.length l | Leaked _ => 0 end.

Definition mappedCount {A} (o : option (list A)) : nat :=
  match o with Some l => List.length l | None => 0 end.

(** The chart cards among the answers of the chart callback: an answer
    [null] is no card. *)
Definition cardCount (o : option (list (option ChartCard))) : nat :=
  match o with
  | Some l =>
      List.length (filter (fun c => match c with
                                    | Some _ => true
                                    | None => false
                                    end) l)
  | None => 0
  end.

(** A chart whose transformed data is not empty. *)
Definition hasPoints (chart : value) : bool :=
  negb (Nat.eqb (List.length (transformChartData (prop chart (js "data")))) 0).

(** What a guarded section leaves as a child when it shows no view. *)
Definition leak {A} (g : Guarded A) : option value :=
  match g with Leaked v => Some v | Shown _ => None end.

(** A dashboard with one card, a pie chart and a chart without data, one
    table whose rows have one and three cells under two headers, two
    alerts and one recommendation. *)
Definition sampleDashboard : value :=
  Obj [(js "summaryCards",
        Arr [Obj [(js "title", Str (js "Spend")); (js "value", Str (js "$10"))]]);
       (js "charts",
        Arr [Obj [(js "type", Str (js "pie"));
                  (js "data",
                   Obj [(js "labels", Arr [Str (js "a"); Str (js "b")]);
                        (js "values", Arr [Num (normal false [1%N] 0);
                                           Num (normal false [2%N] 0)])])];
             Obj [(js "title", Str (js "Empty"))]]);
       (js "tables",
        Arr [Obj [(js "headers", Arr [Str (js "h1"); Str (js "h2")]);
                  (js "rows",
                   Arr [Arr [Str (js "x")];
                        Arr [Str (js "p"); Str (js "q"); Str (js "r")]])]]);
       (js "alerts",
        Arr [Str (warningGlyph ++ js " watch spend");
             Obj [(js "message", Str (js "fine")); (js "type", Str (js "info"))]]);
       (js "recommendations", Arr [Str (js "save")])].

(** A table of [sampleDashboard]. *)
Definition sampleTable : value :=
  Obj [(js "headers", Arr [Str (js "h1"); Str (js "h2")]);
       (js "rows",
        Arr [Arr [Str (js "x")];
             Arr [Str (js "p"); Str (js "q"); Str (js "r")]])].

(** A dashboard whose table has no [rows]. *)
Definition brokenDashboard : value :=
  Obj [(js "tables", Arr [Obj [(js "headers", Arr [Str (js "h1")])]])].

(** A line chart. *)
Definition lineChart : value :=
  Obj [(js "type", Str (js "line"));
       (js "data",
        Obj [(js "labels", Arr [Str (js "a")]);
             (js "values", Arr [Num (normal false [1%N] 0)])])].

End DashboardSchema.

(** * Properties *)

Local Open Scope string_scope.
Local Open Scope list_scope.

(** ** Strings and lists *)

Section StringFacts.

Lemma jseqb_eq (a b : jsstring) : JsString.eqb a b = true <-> a = b.
Proof.
  revert b; induction a as [|x a IH]; intros [|y b]; simpl;
    try (split; [discriminate | discriminate]); try tauto.
  rewrite andb_true_iff, N.eqb_eq, IH.
  split; [intros [-> ->]; reflexivity | intros H; inversion H; auto].
Qed.

Lemma jseqb_refl (a : jsstring) : JsString.eqb a a = true.
Proof. apply jseqb_eq; reflexivity. Qed.

Lemma jseqb_neq (a b : jsstring) : JsString.eqb a b = false <-> a <> b.
Proof.
  rewrite <- jseqb_eq. destruct (JsString.eqb a b); split; congruence.
Qed.

Lemma startsWith_prefix (s p : jsstring) :
  startsWith s p = true <-> exists rest, s = p ++ rest.
Proof.
  revert s; induction p as [|y p IH]; intros s; simpl.
  - split; [intros _; exists s; reflexivity | reflexivity].
  - destruct s as [|x s].
    + split; [discriminate | intros [r H]; discriminate].
    + rewrite andb_true_iff, N.eqb_eq, IH. split.
      * intros [-> [r ->]]. exists r; reflexivity.
      * intros [r H]. inversion H; subst. split; [reflexivity | eauto].
Qed.

Lemma trimStart_In (c : N) (s : jsstring) : In c (trimStart s) -> In c s.
Proof.
  induction s as [|x s IH]; simpl; [tauto|].
  destruct (isWhiteSpace x); simpl; tauto.
Qed.

Lemma trim_In (c : N) (s : jsstring) : In c (trim s) -> In c s.
Proof.
  unfold trim, trimEnd. intros H.
  apply trimStart_In. apply in_rev in H. apply trimStart_In in H.
  apply in_rev in H. exact H.
Qed.

Lemma mapi_from_length {A B} (f : A -> nat -> B) (xs : list A) (k : nat) :
  List.length (mapi_from k f xs) = List.length xs.
Proof. revert k; induction xs; simpl; intros; [|rewrite IHxs]; reflexivity. Qed.

Lemma mapi_from_nth {A B} (f : A -> nat -> B) (xs : list A) (k i : nat) :
  nth_error (mapi_from k f xs) i
  = option_map (fun x => f x (k + i)) (nth_error xs i).
Proof.
  revert k i; induction xs as [|x xs IH]; intros k [|i]; simpl; try reflexivity.
  - rewrite Nat.add_0_r; reflexivity.
  - rewrite IH. replace (S k + i) with (k + S i) by lia. reflexivity.
Qed.

End StringFacts.

(** ** JSON: parsing the text of a value gives the value back *)

Module JSONFacts.
Import JSONSpec.
Local Open Scope N_scope.

(** *** Numbers *)

Lemma valueOfDigits_aux (fuel : nat) (n : N) (acc : list N) :
  fold_left (fun a d => 10 * a + d) (digitsOfAux fuel n acc) 0
  = fold_left (fun a d => 10 * a + d) acc n.
Proof.
  revert n acc; induction fuel as [|f IH]; intros n acc; simpl.
  - reflexivity.
  - destruct (n <? 10) eqn:E; simpl; [reflexivity|].
    rewrite IH. simpl. f_equal.
    rewrite (N.div_mod n 10) at 3 by discriminate. reflexivity.
Qed.

Lemma valueOfDigits_digitsOf (n : N) : valueOfDigits (digitsOf n) = n.
Proof. unfold valueOfDigits, digitsOf. rewrite valueOfDigits_aux. reflexivity. Qed.

Lemma digitsOfAux_small (fuel : nat) (n : N) (acc : list N) :
  n < 10 * 2 ^ N.of_nat fuel ->
  Forall (fun d => d < 10) acc ->
  Forall (fun d => d < 10) (digitsOfAux fuel n acc).
Proof.
  revert n acc; induction fuel as [|f IH]; intros n acc Hn Hacc; simpl.
  - constructor; [|exact Hacc]. simpl in Hn. lia.
  - destruct (n <? 10) eqn:E.
    + constructor; [apply N.ltb_lt; exact E | exact Hacc].
    + apply IH.
      * rewrite Nat2N.inj_succ, N.pow_succ_r' in Hn.
        apply N.Div0.div_lt_upper_bound. 
        assert (0 < 2 ^ N.of_nat f) by (apply N.neq_0_lt_0, N.pow_nonzero; discriminate).
        lia.
      * constructor; [|exact Hacc]. apply N.mod_lt. discriminate.
Qed.

Lemma digitsOf_small (n : N) : Forall (fun d => d < 10) (digitsOf n).
Proof.
  unfold digitsOf. apply digitsOfAux_small; [|constructor].
  rewrite N2Nat.id. destruct (N.eq_dec n 0) as [->|Hn]; [reflexivity|].
  destruct (N.log2_spec n) as [_ H]; [lia|].
  rewrite N.pow_succ_r' in H. 
  assert (0 < 2 ^ N.log2 n) by (apply N.neq_0_lt_0, N.pow_nonzero; discriminate).
  lia.
Qed.

Lemma digitsOfAux_nonempty (fuel : nat) (n : N) (acc : list N) :
  digitsOfAux fuel n acc <> [].
Proof.
  revert n acc; induction fuel as [|f IH]; intros n acc; simpl.
  - discriminate.
  - destruct (n <? 10); [discriminate | apply IH].
Qed.

Lemma digitVal_digitChar (d : N) : d < 10 -> JSON.digitVal (digitChar d) = Some d.
Proof.
  intros H. unfold JSON.digitVal, digitChar.
  replace (48 <=? 48 + d) with true by (symmetry; apply N.leb_le; lia).
  replace (48 + d <=? 57) with true by (symmetry; apply N.leb_le; lia).
  cbn [andb]. f_equal. lia.
Qed.

Lemma spanDigits_digits (ds : list N) (rest : jsstring) :
  Forall (fun d => d < 10) ds -> stopsDigits rest ->
  JSON.spanDigits (List.map digitChar ds ++ rest) = (ds, rest).
Proof.
  intros Hds Hrest. induction Hds as [|d ds Hd _ IH]; simpl.
  - destruct rest as [|c r]; [reflexivity|]. simpl in *. rewrite Hrest. reflexivity.
  - rewrite (digitVal_digitChar Hd), IH. reflexivity.
Qed.

Lemma dropZeros_repeat (a : nat) (l : list N) :
  dropZeros (repeat 0 a ++ l) = dropZeros l.
Proof. induction a; simpl; auto. Qed.

Lemma dropZeros_head (d : N) (l : list N) : d <> 0 -> dropZeros (d :: l) = d :: l.
Proof. intros H. simpl. apply N.eqb_neq in H. rewrite H. reflexivity. Qed.

Lemma rev_last (ds : list N) :
  ds <> [] -> rev ds = last ds 1 :: rev (removelast ds).
Proof.
  intros H. rewrite (app_removelast_last 1 H) at 1.
  rewrite rev_app_distr. reflexivity.
Qed.

Lemma rev_repeat0 (b : nat) : rev (repeat 0 b) = repeat 0 b.
Proof.
  induction b; simpl; [reflexivity|]. rewrite IHb.
  clear. induction b; simpl; [reflexivity|]. rewrite IHb. reflexivity.
Qed.

Lemma normal_padded (sg : bool) (a b : nat) (d : N) (ds : list N) (e : Z) :
  d <> 0 -> last (d :: ds) 1 <> 0 ->
  normal sg (repeat 0 a ++ (d :: ds) ++ repeat 0 b) e
  = mkNumber sg (d :: ds) (e + Z.of_nat b).
Proof.
  intros Hd Hl. unfold normal.
  rewrite dropZeros_repeat.
  change ((d :: ds) ++ repeat 0 b) with (d :: (ds ++ repeat 0 b)).
  rewrite (dropZeros_head _ Hd).
  change (d :: ds ++ repeat 0 b) with ((d :: ds) ++ repeat 0 b).
  rewrite rev_app_distr, rev_repeat0, dropZeros_repeat.
  rewrite (@rev_last (d :: ds)) by discriminate.
  rewrite (dropZeros_head _ Hl).
  rewrite <- (@rev_last (d :: ds)) by discriminate.
  rewrite rev_involutive.
  destruct (rev (d :: ds)) eqn:E.
  - apply (f_equal (@List.length N)) in E. rewrite length_rev in E. discriminate.
  - rewrite <- E. f_equal.
    rewrite length_app, length_rev, repeat_length. lia.
Qed.

Lemma wf_nonzero (x : number) (d : N) (ds : list N) :
  wf x = true -> digits x = d :: ds ->
  Forall (fun c => c < 10) (d :: ds) /\ d <> 0 /\ last (d :: ds) 1 <> 0.
Proof.
  unfold wf. intros H E. rewrite E in H.
  apply andb_true_iff in H. destruct H as [H H3].
  apply andb_true_iff in H. destruct H as [H1 H2].
  apply negb_true_iff, N.eqb_neq in H2, H3.
  split; [|auto].
  apply Forall_forall. intros c Hc.
  rewrite forallb_forall in H1. apply N.ltb_lt. auto.
Qed.

Lemma wf_zero (x : number) : wf x = true -> digits x = [] -> x = zero.
Proof.
  unfold wf. intros H E. destruct x as [sg ds e]. simpl in *. subst.
  apply andb_true_iff in H. destruct H as [H1 H2].
  apply negb_true_iff in H1. apply Z.eqb_eq in H2. subst. reflexivity.
Qed.

Lemma delimited_stops (rest : jsstring) : delimited rest -> stopsDigits rest.
Proof.
  destruct rest as [|c r]; simpl; [auto|].
  intros [->|[->| ->]]; reflexivity.
Qed.

Lemma expect_same (c : N) (r : jsstring) : JSON.expect c (c :: r) = Some r.
Proof. unfold JSON.expect. rewrite N.eqb_refl. reflexivity. Qed.

Lemma expect_other (c x : N) (r : jsstring) :
  x <> c -> JSON.expect c (x :: r) = None.
Proof. intros H. unfold JSON.expect. apply N.eqb_neq in H. rewrite H. reflexivity. Qed.

Lemma expect_delimited (c : N) (rest : jsstring) :
  c <> 44 -> c <> 93 -> c <> 125 -> delimited rest -> JSON.expect c rest = None.
Proof.
  intros H1 H2 H3. destruct rest as [|x r]; simpl; [reflexivity|].
  intros H. apply expect_other. destruct H as [->|[->| ->]]; congruence.
Qed.

Lemma parseFraction_absent (rest : jsstring) :
  delimited rest -> JSON.parseFraction rest = Some ([], rest).
Proof.
  intros H. unfold JSON.parseFraction.
  rewrite (@expect_delimited 46 rest); try discriminate; auto.
Qed.

Lemma parseFraction_digits (fp : list N) (rest : jsstring) :
  fp <> [] -> Forall (fun d => d < 10) fp -> stopsDigits rest ->
  JSON.parseFraction (46 :: List.map digitChar fp ++ rest) = Some (fp, rest).
Proof.
  intros Hne Hfp Hrest. unfold JSON.parseFraction.
  rewrite expect_same, (spanDigits_digits rest Hfp Hrest).
  destruct fp; [contradiction | reflexivity].
Qed.

Lemma parseExponent_absent (rest : jsstring) :
  delimited rest -> JSON.parseExponent rest = Some (0%Z, rest).
Proof.
  destruct rest as [|c r]; simpl; [reflexivity|].
  intros [->|[->| ->]]; reflexivity.
Qed.

Lemma parseExponent_present (e : Z) (rest : jsstring) :
  stopsDigits rest ->
  JSON.parseExponent
    (101 :: (if (e <? 0)%Z then [45] else [43])
         ++ List.map digitChar (digitsOf (Z.abs_N e)) ++ rest)
  = Some (e, rest).
Proof.
  intros Hrest. unfold JSON.parseExponent.
  change ((101 =? 101) || (101 =? 69)) with true. cbn iota.
  destruct (e <? 0)%Z eqn:E.
  - change ([45] ++ ?l) with (45 :: l). cbn [app].
    rewrite expect_same.
    rewrite (spanDigits_digits rest (digitsOf_small _) Hrest).
    destruct (digitsOf (Z.abs_N e)) eqn:D.
    + exfalso. unfold digitsOf in D. exact (digitsOfAux_nonempty _ _ _ D).
    + rewrite <- D, valueOfDigits_digitsOf. f_equal. f_equal.
      apply Z.ltb_lt in E. lia.
  - cbn [app]. rewrite expect_other by discriminate. rewrite expect_same.
    rewrite (spanDigits_digits rest (digitsOf_small _) Hrest).
    destruct (digitsOf (Z.abs_N e)) eqn:D.
    + exfalso. unfold digitsOf in D. exact (digitsOfAux_nonempty _ _ _ D).
    + rewrite <- D, valueOfDigits_digitsOf. f_equal. f_equal.
      apply Z.ltb_ge in E. lia.
Qed.

Lemma digitChar_not_zero_char (d : N) : d <> 0 -> digitChar d <> 48.
Proof. unfold digitChar. lia. Qed.

Lemma repeat_digitChar (j : nat) : repeat 48 j = List.map digitChar (repeat 0 j).
Proof. induction j; simpl; [reflexivity|]. rewrite IHj. reflexivity. Qed.

Lemma Forall_zeros (j : nat) : Forall (fun d => d < 10) (repeat 0 j).
Proof. induction j; simpl; constructor; [reflexivity | assumption]. Qed.

Lemma normal_wf (sg : bool) (d : N) (ds : list N) (e : Z) :
  d <> 0 -> last (d :: ds) 1 <> 0 ->
  normal sg (d :: ds) e = mkNumber sg (d :: ds) e.
Proof.
  intros Hd Hl.
  pose proof (@normal_padded sg 0 0 d ds e Hd Hl) as H.
  simpl repeat in H. rewrite app_nil_r in H. simpl app in H.
  rewrite H. f_equal. lia.
Qed.

Lemma parseInteger_digits (d : N) (ds : list N) (rest : jsstring) :
  d <> 0 -> Forall (fun c => c < 10) (d :: ds) -> stopsDigits rest ->
  JSON.parseInteger (List.map digitChar (d :: ds) ++ rest) = (d :: ds, rest).
Proof.
  intros Hd Hds Hrest. unfold JSON.parseInteger.
  cbn [List.map app].
  rewrite expect_other by (apply digitChar_not_zero_char; assumption).
  exact (spanDigits_digits rest Hds Hrest).
Qed.

Lemma same_number (sg : bool) (ds : list N) (e e' : Z) (rest : jsstring) :
  e = e' -> Some (mkNumber sg ds e, rest) = Some (mkNumber sg ds e', rest).
Proof. intros ->; reflexivity. Qed.

Lemma parseMagnitude_text (sg : bool) (d : N) (ds : list N) (e : Z)
      (rest : jsstring) :
  Forall (fun c => c < 10) (d :: ds) -> d <> 0 -> last (d :: ds) 1 <> 0 ->
  delimited rest ->
  JSON.parseMagnitude sg (magnitudeText (d :: ds) e ++ rest)
  = Some (mkNumber sg (d :: ds) e, rest).
Proof.
  intros Hds Hd Hl Hrest.
  pose proof (delimited_stops rest Hrest) as Hstop.
  unfold magnitudeText, JSON.parseMagnitude.
  set (k := Z.of_nat (List.length (d :: ds))).
  assert (Hk : (0 < k)%Z) by (subst k; simpl List.length; lia).
  destruct ((k <=? k + e) && (k + e <=? 21))%Z eqn:C1.
  - (* digits followed by zeros *)
    apply andb_true_iff in C1. destruct C1 as [C1 _]. apply Z.leb_le in C1.
    rewrite repeat_digitChar, <- map_app.
    change ((d :: ds) ++ ?z) with (d :: (ds ++ z)).
    rewrite parseInteger_digits; auto.
    + rewrite parseFraction_absent by assumption. rewrite parseExponent_absent by assumption.
      rewrite app_nil_r.
      change (d :: ds ++ ?z) with (repeat 0 0 ++ (d :: ds) ++ z).
      rewrite normal_padded by assumption. apply same_number. subst k. simpl List.length in *. lia.
    + change (d :: ds ++ ?z) with ((d :: ds) ++ z).
      apply Forall_app. split; [exact Hds | apply Forall_zeros].
  - destruct ((0 <? k + e) && (k + e <=? 21))%Z eqn:C2.
    + (* a point inside the digits *)
      apply andb_true_iff in C2. destruct C2 as [C2 C2']. apply Z.ltb_lt in C2.
      apply Z.leb_le in C2'.
      assert (C3 : (k + e < k)%Z).
      { apply andb_false_iff in C1. destruct C1 as [C1|C1];
          apply Z.leb_gt in C1; lia. }
      set (n := Z.to_nat (k + e)).
      destruct n as [|n'] eqn:En; [subst n; lia|].
      assert (Hn' : (n' < List.length ds)%nat) by (subst k; simpl List.length in *; lia).
      cbn [firstn skipn]. rewrite <- !app_assoc.
      assert (Hsplit : Forall (fun c => c < 10) (firstn n' ds)
                       /\ Forall (fun c => c < 10) (skipn n' ds)).
      { apply Forall_app. rewrite firstn_skipn. inversion Hds; assumption. }
      destruct Hsplit as [Hfirst Hskip].
      assert (Hfirst' : Forall (fun c => c < 10) (d :: firstn n' ds))
        by (constructor; [inversion Hds; assumption | exact Hfirst]).
      rewrite (@parseInteger_digits d (firstn n' ds)); auto; [|reflexivity].
      cbn [app].
      rewrite parseFraction_digits; auto.
      * rewrite parseExponent_absent by assumption.
        change ((d :: firstn n' ds) ++ skipn n' ds)
          with (d :: (firstn n' ds ++ skipn n' ds)).
        rewrite firstn_skipn. rewrite normal_wf by assumption.
        apply same_number. rewrite length_skipn. subst k. simpl List.length in *. lia.
      * intros E. apply (f_equal (@List.length N)) in E.
        rewrite length_skipn in E. simpl in E. lia.
    + destruct ((-6 <? k + e) && (k + e <=? 0))%Z eqn:C3.
      * (* zero, point, zeros, digits *)
        apply andb_true_iff in C3. destruct C3 as [_ C3]. apply Z.leb_le in C3.
        cbn [app]. unfold JSON.parseInteger. rewrite expect_same.
        rewrite repeat_digitChar, <- map_app.
        rewrite parseFraction_digits; auto.
        -- rewrite parseExponent_absent by assumption.
           change ([0] ++ ?z ++ d :: ds)
             with (repeat 0 1 ++ z ++ (d :: ds)).
           rewrite app_assoc, <- repeat_app.
           rewrite <- (app_nil_r (d :: ds)) at 1.
           change [] with (repeat 0 0) at 1.
           rewrite normal_padded by assumption. apply same_number.
           rewrite length_app, repeat_length. subst k. simpl List.length in *. lia.
        -- intros E. apply (f_equal (@List.length N)) in E.
           rewrite length_app in E. simpl in E. lia.
        -- apply Forall_app. split; [apply Forall_zeros | exact Hds].
      * (* exponent notation *)
        change (digitChar d :: ?l) with (List.map digitChar [d] ++ l).
        rewrite <- !app_assoc.
        assert (Hone : Forall (fun c => c < 10) [d])
          by (inversion Hds; subst; constructor; [assumption | constructor]).
        destruct ds as [|d' ds'].
        -- cbn [app].
           rewrite (@parseInteger_digits d [])
             by first [assumption | reflexivity].
           unfold JSON.parseFraction at 1. rewrite expect_other by discriminate.
           rewrite parseExponent_present by assumption.
           rewrite app_nil_r. rewrite normal_wf by assumption.
           apply same_number. subst k. simpl List.length in *. lia.
        -- cbn [app].
           rewrite (@parseInteger_digits d [])
             by first [assumption | reflexivity].
           rewrite parseFraction_digits;
             [|discriminate | inversion Hds; assumption | reflexivity].
           rewrite parseExponent_present by assumption.
           cbn [app]. rewrite normal_wf by assumption.
           apply same_number. subst k. simpl List.length in *. lia.
Qed.

Lemma digitChar_isDigitChar (d : N) : d < 10 -> isDigitChar (digitChar d).
Proof. unfold isDigitChar, digitChar. lia. Qed.

Lemma magnitudeText_head (d : N) (ds : list N) (e : Z) :
  d < 10 ->
  exists c t, magnitudeText (d :: ds) e = c :: t /\ isDigitChar c.
Proof.
  intros Hd. unfold magnitudeText.
  set (k := Z.of_nat (List.length (d :: ds))).
  destruct ((k <=? k + e) && (k + e <=? 21))%Z.
  - simpl. eexists _, _. split; [reflexivity | apply digitChar_isDigitChar; exact Hd].
  - destruct ((0 <? k + e) && (k + e <=? 21))%Z eqn:C2.
    + apply andb_true_iff in C2. destruct C2 as [C2 _]. apply Z.ltb_lt in C2.
      destruct (Z.to_nat (k + e)) as [|n'] eqn:En; [lia|].
      simpl. eexists _, _. split; [reflexivity | apply digitChar_isDigitChar; exact Hd].
    + destruct ((-6 <? k + e) && (k + e <=? 0))%Z.
      * simpl. eexists _, _. split; [reflexivity | unfold isDigitChar; lia].
      * eexists _, _. split; [reflexivity | apply digitChar_isDigitChar; exact Hd].
Qed.

Lemma parseNumber_toString (x : number) (rest : jsstring) :
  wf x = true -> delimited rest ->
  JSON.parseNumber (Number.toString x ++ rest) = Some (x, rest).
Proof.
  intros Hwf Hrest. unfold Number.toString.
  destruct (digits x) as [|d ds] eqn:E.
  - rewrite (wf_zero x Hwf E).
    unfold JSON.parseNumber. change (js "0" ++ rest) with (48 :: rest).
    rewrite expect_other by discriminate.
    unfold JSON.parseMagnitude, JSON.parseInteger. rewrite expect_same.
    rewrite parseFraction_absent by assumption.
    rewrite parseExponent_absent by assumption.
    reflexivity.
  - destruct (wf_nonzero x Hwf E) as [Hds [Hd Hl]].
    destruct x as [sg ds0 e]. simpl in E. subst ds0. simpl negative. simpl exp10.
    unfold JSON.parseNumber. destruct sg.
    + cbn [app]. rewrite expect_same.
      apply parseMagnitude_text; assumption.
    + cbn [app].
      destruct (@magnitudeText_head d ds e) as [c [t [Ht Hc]]];
        [inversion Hds; assumption|].
      assert (Hx : JSON.expect 45 (magnitudeText (d :: ds) e ++ rest) = None).
      { rewrite Ht. cbn [app]. apply expect_other.
        unfold isDigitChar in Hc. lia. }
      rewrite Hx. apply parseMagnitude_text; assumption.
Qed.

(** *** Strings *)

Lemma hexVal_hexChar (d : N) : d < 16 -> JSON.hexVal (JSON.hexChar d) = Some d.
Proof.
  intros H. unfold JSON.hexVal, JSON.hexChar.
  destruct (d <? 10) eqn:E.
  - apply N.ltb_lt in E.
    replace ((48 <=? 48 + d) && (48 + d <=? 57)) with true
      by (symmetry; apply andb_true_iff; split; apply N.leb_le; lia).
    f_equal. lia.
  - apply N.ltb_ge in E.
    replace ((48 <=? 87 + d) && (87 + d <=? 57)) with false
      by (symmetry; apply andb_false_iff; right; apply N.leb_gt; lia).
    replace ((97 <=? 87 + d) && (87 + d <=? 102)) with true
      by (symmetry; apply andb_true_iff; split; apply N.leb_le; lia).
    f_equal. lia.
Qed.

Lemma hex_digits (c : N) :
  c < 65536 ->
  c / 4096 < 16 /\ (c / 256) mod 16 < 16 /\ (c / 16) mod 16 < 16 /\ c mod 16 < 16
  /\ ((c / 4096 * 16 + (c / 256) mod 16) * 16 + (c / 16) mod 16) * 16 + c mod 16 = c.
Proof.
  intros H.
  pose proof (N.div_mod c 16 ltac:(discriminate)) as E1.
  pose proof (N.div_mod (c / 16) 16 ltac:(discriminate)) as E2.
  pose proof (N.div_mod (c / 16 / 16) 16 ltac:(discriminate)) as E3.
  pose proof (N.mod_lt c 16 ltac:(discriminate)).
  pose proof (N.mod_lt (c / 16) 16 ltac:(discriminate)).
  pose proof (N.mod_lt (c / 16 / 16) 16 ltac:(discriminate)).
  rewrite !N.Div0.div_div in *. 
  change (16 * 16) with 256 in *. change (256 * 16) with 4096 in *.
  assert (c / 4096 < 16) by (apply N.Div0.div_lt_upper_bound; lia).
  assert ((c / 4096) mod 16 = c / 4096) by (apply N.mod_small; assumption).
  repeat split; try assumption. lia.
Qed.

Lemma parseChars_plain (c : N) (X : jsstring) :
  c <> 34 -> c <> 92 -> 32 <= c ->
  JSON.parseChars (c :: X) = consInto c (JSON.parseChars X).
Proof.
  intros H1 H2 H3. cbn [JSON.parseChars].
  apply N.eqb_neq in H1, H2. apply N.ltb_ge in H3.
  rewrite H1, H2, H3. reflexivity.
Qed.

Lemma parseChars_escaped (e u : N) (X : jsstring) :
  JSON.unescape e = Some u -> e <> 117 ->
  JSON.parseChars (92 :: e :: X) = consInto u (JSON.parseChars X).
Proof.
  intros H1 H2. cbn [JSON.parseChars].
  change (92 =? 34) with false. change (92 =? 92) with true. cbv iota.
  apply N.eqb_neq in H2. rewrite H2, H1. reflexivity.
Qed.

Lemma parseChars_escapeUnit (c : N) (X : jsstring) :
  c < 65536 ->
  JSON.parseChars (JSON.escapeUnit c ++ X) = consInto c (JSON.parseChars X).
Proof.
  intros H. destruct (hex_digits H) as [H1 [H2 [H3 [H4 E]]]].
  unfold JSON.escapeUnit. cbn [app JSON.parseChars].
  change (92 =? 34) with false. change (92 =? 92) with true.
  change (117 =? 117) with true. cbv iota.
  rewrite !hexVal_hexChar by assumption. rewrite E. reflexivity.
Qed.

Lemma parseChars_quoteUnit (c : N) (X : jsstring) :
  c < 55296 \/ 57343 < c ->
  JSON.parseChars (JSON.quoteUnit c ++ X) = consInto c (JSON.parseChars X).
Proof.
  intros Hc. unfold JSON.quoteUnit.
  destruct (c =? 8) eqn:E8;
    [apply N.eqb_eq in E8; subst; apply parseChars_escaped; [reflexivity|discriminate]|].
  destruct (c =? 9) eqn:E9;
    [apply N.eqb_eq in E9; subst; apply parseChars_escaped; [reflexivity|discriminate]|].
  destruct (c =? 10) eqn:E10;
    [apply N.eqb_eq in E10; subst; apply parseChars_escaped; [reflexivity|discriminate]|].
  destruct (c =? 12) eqn:E12;
    [apply N.eqb_eq in E12; subst; apply parseChars_escaped; [reflexivity|discriminate]|].
  destruct (c =? 13) eqn:E13;
    [apply N.eqb_eq in E13; subst; apply parseChars_escaped; [reflexivity|discriminate]|].
  destruct (c =? 34) eqn:E34;
    [apply N.eqb_eq in E34; subst; apply parseChars_escaped; [reflexivity|discriminate]|].
  destruct (c =? 92) eqn:E92;
    [apply N.eqb_eq in E92; subst; apply parseChars_escaped; [reflexivity|discriminate]|].
  destruct (c <? 32) eqn:E32.
  - apply parseChars_escapeUnit. apply N.ltb_lt in E32. lia.
  - apply N.eqb_neq in E34, E92. apply N.ltb_ge in E32.
    cbn [app]. apply parseChars_plain; assumption.
Qed.

Lemma parseChars_quoteUnits_bounded (n : nat) :
  forall (s rest : jsstring),
    (List.length s <= n)%nat ->
    JSON.parseChars (JSON.quoteUnits s ++ 34 :: rest) = Some (s, rest).
Proof.
  induction n as [|n IH]; intros s rest Hlen.
  - destruct s; [reflexivity | simpl in Hlen; lia].
  - destruct s as [|c s']; [reflexivity|].
    simpl in Hlen. cbn [JSON.quoteUnits].
    destruct (JSON.isHighSurrogate c) eqn:Hh.
    + unfold JSON.isHighSurrogate in Hh. apply andb_true_iff in Hh.
      destruct Hh as [Hh1 Hh2]. apply N.leb_le in Hh1, Hh2.
      destruct s' as [|d s''].
      * rewrite parseChars_escapeUnit by lia. reflexivity.
      * destruct (JSON.isLowSurrogate d) eqn:Hl.
        -- unfold JSON.isLowSurrogate in Hl. apply andb_true_iff in Hl.
           destruct Hl as [Hl1 Hl2]. apply N.leb_le in Hl1, Hl2.
           cbn [app]. rewrite parseChars_plain by lia.
           rewrite parseChars_plain by lia.
           rewrite IH by (simpl in Hlen; lia). reflexivity.
        -- rewrite <- app_assoc, parseChars_escapeUnit by lia.
           rewrite IH by lia. reflexivity.
    + destruct (JSON.isLowSurrogate c) eqn:Hl.
      * unfold JSON.isLowSurrogate in Hl. apply andb_true_iff in Hl.
        destruct Hl as [Hl1 Hl2]. apply N.leb_le in Hl1, Hl2.
        rewrite <- app_assoc, parseChars_escapeUnit by lia.
        rewrite IH by lia. reflexivity.
      * rewrite <- app_assoc, parseChars_quoteUnit.
        -- rewrite IH by lia. reflexivity.
        -- unfold JSON.isHighSurrogate in Hh. unfold JSON.isLowSurrogate in Hl.
           apply andb_false_iff in Hh, Hl.
           destruct Hh as [Hh|Hh]; apply N.leb_gt in Hh;
             destruct Hl as [Hl|Hl]; apply N.leb_gt in Hl; lia.
Qed.

Lemma parseChars_quote (s rest : jsstring) :
  JSON.parseChars (JSON.quoteUnits s ++ 34 :: rest) = Some (s, rest).
Proof. apply (@parseChars_quoteUnits_bounded (List.length s)). lia. Qed.

(** *** Values *)

Lemma value_nested_ind (P : value -> Prop) :
  P Undefined -> P Null -> (forall b, P (Bool b)) -> (forall n, P (Num n)) ->
  (forall s, P (Str s)) ->
  (forall l, Forall P l -> P (Arr l)) ->
  (forall l, Forall (fun kx => P (snd kx)) l -> P (Obj l)) ->
  forall v, P v.
Proof.
  intros HU HN HB HNum HS HA HO.
  fix IH 1. intros [| | b | n | s | l | l].
  - exact HU.
  - exact HN.
  - apply HB.
  - apply HNum.
  - apply HS.
  - apply HA. induction l as [|x l IHl]; constructor; [apply IH | exact IHl].
  - apply HO. induction l as [|x l IHl]; constructor; [apply IH | exact IHl].
Qed.

Lemma toString_head (x : number) :
  wf x = true ->
  exists c t, Number.toString x = c :: t /\ (c = 45 \/ isDigitChar c).
Proof.
  intros Hwf. unfold Number.toString.
  destruct (digits x) as [|d ds] eqn:E.
  - exists 48, []. split; [reflexivity | right; unfold isDigitChar; lia].
  - destruct (wf_nonzero x Hwf E) as [Hds _].
    destruct (negative x).
    + eexists _, _. split; [reflexivity | left; reflexivity].
    + destruct (@magnitudeText_head d ds (exp10 x)) as [c [t [Ht Hc]]];
        [inversion Hds; assumption|].
      exists c, t. split; [rewrite Ht; reflexivity | right; exact Hc].
Qed.

Lemma serialize_head (v : value) (t : jsstring) :
  JSON.isJson v = true -> JSON.serialize v = Some t ->
  exists c r, t = c :: r /\ valueStart c.
Proof.
  unfold valueStart.
  destruct v as [| | [] | n | s | l | l]; simpl; intros Hj Ht;
    try discriminate; inversion Ht; subst; clear Ht;
    try (eexists _, _; split; [reflexivity | tauto]).
  destruct (toString_head n Hj) as [c [r [E Hc]]].
  exists c, r. split; [exact E | tauto].
Qed.

Lemma skipWs_start (c : N) (X : jsstring) :
  valueStart c -> JSON.skipWs (c :: X) = c :: X.
Proof.
  intros H. cbn [JSON.skipWs]. unfold JSON.isJsonWs.
  replace (c =? 32) with false; [replace (c =? 9) with false;
    [replace (c =? 10) with false; [replace (c =? 13) with false;
      [reflexivity|]|]|]|];
    symmetry; apply N.eqb_neq; unfold valueStart, isDigitChar in H; lia.
Qed.

Lemma skipWs_delimiter (c : N) (X : jsstring) :
  c = 44 \/ c = 93 \/ c = 125 \/ c = 58 -> JSON.skipWs (c :: X) = c :: X.
Proof. intros [->|[->|[->| ->]]]; reflexivity. Qed.

Lemma parseValue_number (f : nat) (c : N) (X : jsstring) :
  c = 45 \/ isDigitChar c ->
  JSON.parseValue (S f) (c :: X)
  = match JSON.parseNumber (c :: X) with
    | Some (n, r') => Some (Num n, r')
    | None => None
    end.
Proof.
  intros H. cbn [JSON.parseValue].
  rewrite skipWs_start by (unfold valueStart; tauto).
  change (js "true") with [116; 114; 117; 101].
  change (js "false") with [102; 97; 108; 115; 101].
  change (js "null") with [110; 117; 108; 108].
  cbn [startsWith].
  replace (c =? 123) with false; [replace (c =? 91) with false;
    [replace (c =? 34) with false; [replace (c =? 116) with false;
      [replace (c =? 102) with false; [replace (c =? 110) with false;
        [reflexivity|]|]|]|]|]|];
    symmetry; apply N.eqb_neq; unfold isDigitChar in H; lia.
Qed.

(** *** Objects: distinct keys are kept as they are *)

Lemma distinct_app_fresh (ks1 ks2 : list jsstring) (k : jsstring) :
  JSON.distinct (ks1 ++ k :: ks2) = true ->
  forall k', In k' ks1 -> JsString.eqb k' k = false.
Proof.
  induction ks1 as [|a ks1 IH]; simpl; intros H k' Hin; [contradiction|].
  apply andb_true_iff in H. destruct H as [H1 H2].
  destruct Hin as [->|Hin]; [|exact (IH H2 k' Hin)].
  apply negb_true_iff in H1.
  rewrite existsb_app in H1. apply orb_false_iff in H1.
  destruct H1 as [_ H1]. simpl in H1. apply orb_false_iff in H1. tauto.
Qed.

Lemma setProp_fresh (l : list (jsstring * value)) (k : jsstring) (v : value) :
  (forall k', In k' (List.map fst l) -> JsString.eqb k' k = false) ->
  JSON.setProp l k v = l ++ [(k, v)].
Proof.
  induction l as [|[k0 v0] l IH]; simpl; intros H; [reflexivity|].
  rewrite (H k0 (or_introl eq_refl)). rewrite IH; [reflexivity|].
  intros k' Hk'. apply H. right. exact Hk'.
Qed.

Lemma fold_setProp_distinct (l acc : list (jsstring * value)) :
  JSON.distinct (List.map fst (acc ++ l)) = true ->
  fold_left (fun a kv => JSON.setProp a (fst kv) (snd kv)) l acc = acc ++ l.
Proof.
  revert acc; induction l as [|[k v] l IH]; intros acc H; simpl.
  - rewrite app_nil_r. reflexivity.
  - rewrite setProp_fresh.
    + rewrite IH; rewrite <- app_assoc; [reflexivity | exact H].
    + rewrite map_app in H. simpl in H. exact (distinct_app_fresh _ _ _ H).
Qed.

Lemma objectOf_distinct (l : list (jsstring * value)) :
  JSON.distinct (List.map fst l) = true -> JSON.objectOf l = Obj l.
Proof.
  intros H. unfold JSON.objectOf. rewrite fold_setProp_distinct; auto.
Qed.

Lemma serialize_isJson (v : value) :
  JSON.isJson v = true -> exists t, JSON.serialize v = Some t.
Proof. destruct v as [| |[]| | | |]; simpl; intros H; try discriminate; eauto. Qed.

Lemma parseElements_join (l : list value) :
  Forall parsesBack l -> forallb JSON.isJson l = true -> l <> [] ->
  forall fuel rest,
    (List.length (elementsText l) + 1 < fuel)%nat ->
    JSON.parseElements fuel (elementsText l ++ 93 :: rest) = Some (l, rest).
Proof.
  induction l as [|x l IH]; intros HP HJ Hne fuel rest Hfuel; [contradiction|].
  inversion HP as [|? ? Hx HPl]; subst.
  simpl in HJ. apply andb_true_iff in HJ. destruct HJ as [Hjx Hjl].
  destruct (serialize_isJson x Hjx) as [t0 Ht0].
  destruct fuel as [|f]; [lia|].
  unfold elementsText in *. cbn [List.map JSON.join] in *.
  rewrite Ht0 in *. cbn [JSON.elementText] in *.
  cbn [JSON.parseElements].
  destruct l as [|y l'].
  - cbn [List.map] in *. rewrite app_nil_r in *.
    rewrite (Hx Hjx t0 Ht0 f (93 :: rest)); [reflexivity | lia |].
    simpl. auto.
  - set (J' := JSON.join [44]
                 (List.map (fun x => JSON.elementText (JSON.serialize x)) (y :: l'))) in *.
    cbn [List.map] in Hfuel |- *.
    rewrite length_app in Hfuel. cbn [List.length app] in Hfuel.
    rewrite <- app_assoc. cbn [app].
    rewrite (Hx Hjx t0 Ht0 f (44 :: J' ++ 93 :: rest)); [| lia | simpl; auto].
    cbn [JSON.skipWs JSON.isJsonWs]. 
    change (JSON.isJsonWs 44) with false. cbv iota.
    change (44 =? 44) with true. cbv iota.
    rewrite (IH HPl Hjl ltac:(discriminate) f rest); [reflexivity|].
    subst J'. lia.
Qed.

Lemma membersText_cons (k : jsstring) (v : value) (t0 : jsstring)
      (l : list (jsstring * value)) :
  JSON.serialize v = Some t0 ->
  forallb (fun kx => JSON.isJson (snd kx)) l = true ->
  membersText ((k, v) :: l)
  = JSON.quote k ++ 58 :: t0
    ++ match l with [] => [] | _ => 44 :: membersText l end.
Proof.
  intros Ht0 Hl. unfold membersText. cbn [List.flat_map fst snd].
  rewrite Ht0. cbn [JSON.memberText app JSON.join].
  rewrite <- app_assoc. cbn [app]. do 3 f_equal.
  destruct l as [|[k1 v1] l']; [reflexivity|].
  simpl in Hl. apply andb_true_iff in Hl. destruct Hl as [H1 _].
  destruct (serialize_isJson v1 H1) as [t1 Ht1].
  cbn [List.flat_map fst snd]. rewrite Ht1. reflexivity.
Qed.

Lemma parseMembers_join (l : list (jsstring * value)) :
  Forall (fun kx => parsesBack (snd kx)) l ->
  forallb (fun kx => JSON.isJson (snd kx)) l = true -> l <> [] ->
  forall fuel rest,
    (List.length (membersText l) + 1 < fuel)%nat ->
    JSON.parseMembers fuel (membersText l ++ 125 :: rest) = Some (l, rest).
Proof.
  induction l as [|[k v] l IH]; intros HP HJ Hne fuel rest Hfuel; [contradiction|].
  inversion HP as [|? ? Hx HPl]; subst. cbn [snd] in Hx.
  simpl in HJ. apply andb_true_iff in HJ. destruct HJ as [Hjx Hjl].
  destruct (serialize_isJson v Hjx) as [t0 Ht0].
  destruct fuel as [|f]; [lia|].
  rewrite (@membersText_cons k v t0 l Ht0 Hjl) in *.
  unfold JSON.quote in *. cbn [app] in *. rewrite <- !app_assoc in *.
  cbn [app] in *.
  cbn [JSON.parseMembers].
  change (JSON.skipWs (34 :: ?X)) with (34 :: X).
  rewrite expect_same, parseChars_quote.
  change (JSON.skipWs (58 :: ?X)) with (58 :: X).
  rewrite expect_same.
  cbn [List.length] in Hfuel. rewrite !length_app in Hfuel.
  cbn [List.length] in Hfuel. rewrite !length_app in Hfuel.
  destruct l as [|kx l'].
  - rewrite app_nil_r in *. cbn [app].
    rewrite (Hx Hjx t0 Ht0 f (125 :: rest)); [reflexivity | lia |].
    simpl. auto.
  - rewrite <- app_assoc. cbn [app].
    rewrite (Hx Hjx t0 Ht0 f (44 :: membersText (kx :: l') ++ 125 :: rest));
      [| lia | simpl; auto].
    change (JSON.skipWs (44 :: ?X)) with (44 :: X). cbv iota.
    change (44 =? 44) with true. cbv iota.
    rewrite (IH HPl Hjl ltac:(discriminate) f rest); [reflexivity|].
    cbn [List.length] in Hfuel. lia.
Qed.

Lemma parseValue_serialize (v : value) : parsesBack v.
Proof.
  induction v using value_nested_ind; unfold parsesBack;
    intros Hj t Ht fuel rest Hfuel Hrest;
    (destruct fuel as [|f]; [lia|]).
  - discriminate.
  - inversion Ht; subst. reflexivity.
  - destruct b; inversion Ht; subst; reflexivity.
  - simpl in Hj, Ht. inversion Ht; subst.
    destruct (toString_head n Hj) as [c [r [E Hc]]].
    rewrite E. cbn [app]. rewrite (parseValue_number f _ Hc).
    change (c :: r ++ rest) with ((c :: r) ++ rest). rewrite <- E.
    rewrite parseNumber_toString by assumption. reflexivity.
  - simpl in Ht. inversion Ht; subst. unfold JSON.quote.
    cbn [app JSON.parseValue]. change (JSON.skipWs (34 :: ?X)) with (34 :: X).
    cbv iota. change (34 =? 123) with false. change (34 =? 91) with false.
    change (34 =? 34) with true. cbv iota.
    rewrite <- app_assoc. cbn [app]. rewrite parseChars_quote. reflexivity.
  - simpl in Hj. cbn [JSON.serialize] in Ht. inversion Ht; subst. clear Ht.
    fold (elementsText l) in *.
    cbn [app JSON.parseValue]. change (JSON.skipWs (91 :: ?X)) with (91 :: X).
    cbv iota. change (91 =? 123) with false. change (91 =? 91) with true.
    cbv iota. rewrite <- app_assoc. cbn [app].
    destruct l as [|x l'].
    + reflexivity.
    + assert (Hhead : exists c r, elementsText (x :: l') = c :: r /\ valueStart c).
      { simpl in Hj. apply andb_true_iff in Hj. destruct Hj as [Hjx _].
        destruct (serialize_isJson x Hjx) as [t0 Ht0].
        destruct (serialize_head x Hjx Ht0) as [c [r [E Hc]]].
        unfold elementsText. cbn [List.map JSON.join]. rewrite Ht0.
        cbn [JSON.elementText]. rewrite E. cbn [app]. eauto. }
      destruct Hhead as [c [r [E Hc]]].
      assert (Hx : JSON.expect 93 (JSON.skipWs (elementsText (x :: l') ++ 93 :: rest))
                   = None).
      { rewrite E. cbn [app]. rewrite skipWs_start by assumption.
        apply expect_other. unfold valueStart, isDigitChar in Hc. lia. }
      rewrite Hx.
      rewrite parseElements_join; auto; [discriminate|].
      cbn [List.length] in Hfuel. rewrite length_app in Hfuel.
      cbn [List.length] in Hfuel. lia.
  - simpl in Hj. apply andb_true_iff in Hj. destruct Hj as [Hj Hd].
    cbn [JSON.serialize] in Ht. inversion Ht; subst. clear Ht.
    fold (membersText l) in *.
    cbn [app JSON.parseValue]. change (JSON.skipWs (123 :: ?X)) with (123 :: X).
    cbv iota. change (123 =? 123) with true. cbv iota.
    rewrite <- app_assoc. cbn [app].
    destruct l as [|[k v] l'].
    + reflexivity.
    + assert (Hx : JSON.expect 125 (JSON.skipWs (membersText ((k, v) :: l') ++ 125 :: rest))
                   = None).
      { simpl in Hj. apply andb_true_iff in Hj. destruct Hj as [Hjx Hjl].
        destruct (serialize_isJson v Hjx) as [t0 Ht0].
        rewrite (@membersText_cons k v t0 l' Ht0 Hjl).
        unfold JSON.quote. cbn [app]. reflexivity. }
      rewrite Hx.
      rewrite parseMembers_join; auto; [|discriminate|].
      * rewrite objectOf_distinct by assumption. reflexivity.
      * cbn [List.length] in Hfuel. rewrite length_app in Hfuel.
        cbn [List.length] in Hfuel. lia.
Qed.

Theorem parse_stringify (v : value) :
  JSON.isJson v = true ->
  exists t, JSON.stringify v = Some t /\ JSON.parse (Str t) = Ok v.
Proof.
  intros Hj. destruct (serialize_isJson v Hj) as [t Ht].
  exists t. split; [exact Ht|].
  unfold JSON.parse, JSON.parseText. cbn [ToString].
  pose proof (@parseValue_serialize v Hj t Ht (S (List.length t)) []) as H.
  rewrite app_nil_r in H. rewrite H; [reflexivity | lia | exact I].
Qed.

(** *** What the parser returns is a JSON value *)

Lemma dropZeros_suffix (l : list N) : exists p, l = p ++ dropZeros l.
Proof.
  induction l as [|d l [p IH]]; simpl.
  - exists []. reflexivity.
  - destruct (d =? 0).
    + exists (d :: p). simpl. rewrite <- IH. reflexivity.
    + exists []. reflexivity.
Qed.

Lemma dropZeros_head_nonzero (l t : list N) (d : N) :
  dropZeros l = d :: t -> d <> 0.
Proof.
  induction l as [|x l IH]; simpl; [discriminate|].
  destruct (x =? 0) eqn:E; [exact IH|].
  intros H. inversion H; subst. apply N.eqb_neq. exact E.
Qed.

Lemma Forall_dropZeros (P : N -> Prop) (l : list N) :
  Forall P l -> Forall P (dropZeros l).
Proof.
  intros H. destruct (dropZeros_suffix l) as [p E].
  rewrite E in H. apply Forall_app in H. tauto.
Qed.

Lemma normal_result_wf (sg : bool) (ds : list N) (e : Z) :
  Forall (fun c => c < 10) ds -> wf (normal sg ds e) = true.
Proof.
  intros Hds. unfold normal.
  destruct (dropZeros (rev (dropZeros ds))) as [|d0 sd'] eqn:Esd; [reflexivity|].
  pose proof (dropZeros_head_nonzero _ Esd) as Hd0.
  destruct (dropZeros_suffix (rev (dropZeros ds))) as [p Ep].
  rewrite Esd in Ep.
  assert (E1 : dropZeros ds = rev (d0 :: sd') ++ rev p).
  { rewrite <- rev_app_distr, <- Ep, rev_involutive. reflexivity. }
  assert (Hsmall : Forall (fun c => c < 10) (rev (d0 :: sd'))).
  { apply Forall_dropZeros in Hds. rewrite E1 in Hds.
    apply Forall_app in Hds. tauto. }
  unfold wf. cbn [digits negative exp10].
  destruct (rev (d0 :: sd')) as [|h tl] eqn:R.
  - apply (f_equal (@List.length N)) in R. rewrite length_rev in R. discriminate.
  - assert (Hh : h <> 0) by (cbn [app] in E1; exact (dropZeros_head_nonzero _ E1)).
    assert (Hlast : last (h :: tl) 1 = d0).
    { rewrite <- R. cbn [rev]. apply last_last. }
    rewrite Hlast.
    apply N.eqb_neq in Hh, Hd0. rewrite Hh, Hd0.
    rewrite andb_true_r. cbn [negb]. rewrite andb_true_r.
    apply forallb_forall. intros c Hc.
    rewrite Forall_forall in Hsmall. apply N.ltb_lt. auto.
Qed.

Lemma digitVal_small (c d : N) : JSON.digitVal c = Some d -> d < 10.
Proof.
  unfold JSON.digitVal.
  destruct ((48 <=? c) && (c <=? 57)) eqn:E; [|discriminate].
  apply andb_true_iff in E. destruct E as [E1 E2]. apply N.leb_le in E1, E2.
  intros H. inversion H. lia.
Qed.

Lemma spanDigits_small (s r : jsstring) (ds : list N) :
  JSON.spanDigits s = (ds, r) -> Forall (fun c => c < 10) ds.
Proof.
  revert ds r; induction s as [|c s IH]; simpl; intros ds r H.
  - inversion H. constructor.
  - destruct (JSON.digitVal c) as [d|] eqn:E.
    + destruct (JSON.spanDigits s) as [ds' r'] eqn:E'.
      inversion H; subst. constructor; [exact (digitVal_small _ E) | exact (IH _ _ eq_refl)].
    + inversion H. constructor.
Qed.

Lemma parseMagnitude_wf (sg : bool) (s r : jsstring) (n : number) :
  JSON.parseMagnitude sg s = Some (n, r) -> wf n = true.
Proof.
  unfold JSON.parseMagnitude, JSON.parseInteger, JSON.parseFraction.
  intros H.
  assert (Hip : Forall (fun c => c < 10)
                       (fst match JSON.expect 48 s with
                            | Some r0 => ([0], r0)
                            | None => JSON.spanDigits s
                            end)).
  { destruct (JSON.expect 48 s).
    - constructor; [reflexivity | constructor].
    - destruct (JSON.spanDigits s) as [a b] eqn:E. exact (spanDigits_small _ E). }
  destruct (match JSON.expect 48 s with
            | Some r0 => ([0], r0)
            | None => JSON.spanDigits s
            end) as [ip s2].
  cbn [fst] in Hip. destruct ip as [|i ip']; [discriminate|].
  assert (Hfp : forall fp s3,
             match JSON.expect 46 s2 with
             | Some r0 =>
                 let (fp0, r') := JSON.spanDigits r0 in
                 match fp0 with [] => None | _ => Some (fp0, r') end
             | None => Some ([], s2)
             end = Some (fp, s3) -> Forall (fun c => c < 10) fp).
  { intros fp s3. destruct (JSON.expect 46 s2) as [r0|].
    - destruct (JSON.spanDigits r0) as [fp0 r'] eqn:E.
      destruct fp0; [discriminate|]. intros H0; inversion H0; subst.
      exact (spanDigits_small _ E).
    - intros H0; inversion H0. constructor. }
  destruct (match JSON.expect 46 s2 with
            | Some r0 =>
                let (fp0, r') := JSON.spanDigits r0 in
                match fp0 with [] => None | _ => Some (fp0, r') end
            | None => Some ([], s2)
            end) as [[fp s3]|]; [|discriminate].
  specialize (Hfp fp s3 eq_refl).
  destruct (JSON.parseExponent s3) as [[e s4]|]; [|discriminate].
  inversion H; subst. apply normal_result_wf.
  change (i :: ip' ++ fp) with ((i :: ip') ++ fp).
  apply Forall_app. split; assumption.
Qed.

Lemma parseNumber_wf (s r : jsstring) (n : number) :
  JSON.parseNumber s = Some (n, r) -> wf n = true.
Proof.
  unfold JSON.parseNumber. destruct (JSON.expect 45 s); apply parseMagnitude_wf.
Qed.

Lemma setProp_keys_exists (f : jsstring -> bool) (l : list (jsstring * value))
      (k : jsstring) (v : value) :
  existsb f (List.map fst (JSON.setProp l k v)) = true ->
  existsb f (List.map fst l) = true \/ f k = true.
Proof.
  induction l as [|[k' v'] l IH]; simpl.
  - rewrite orb_false_r. auto.
  - destruct (JsString.eqb k' k); simpl.
    + auto.
    + rewrite !orb_true_iff. intros [H|H]; [auto|].
      destruct (IH H); auto.
Qed.

Lemma setProp_distinct (l : list (jsstring * value)) (k : jsstring) (v : value) :
  JSON.distinct (List.map fst l) = true ->
  JSON.distinct (List.map fst (JSON.setProp l k v)) = true.
Proof.
  induction l as [|[k' v'] l IH]; simpl; intros H; [reflexivity|].
  apply andb_true_iff in H. destruct H as [H1 H2].
  destruct (JsString.eqb k' k) eqn:E; simpl.
  - rewrite H1, H2. reflexivity.
  - rewrite (IH H2), andb_true_r. apply negb_true_iff.
    destruct (existsb (JsString.eqb k') (List.map fst (JSON.setProp l k v))) eqn:X;
      [|reflexivity].
    apply setProp_keys_exists in X. destruct X as [X|X].
    + apply negb_true_iff in H1. congruence.
    + congruence.
Qed.

Lemma setProp_isJson (l : list (jsstring * value)) (k : jsstring) (v : value) :
  forallb (fun kx => JSON.isJson (snd kx)) l = true ->
  JSON.isJson v = true ->
  forallb (fun kx => JSON.isJson (snd kx)) (JSON.setProp l k v) = true.
Proof.
  induction l as [|[k' v'] l IH]; simpl; intros H Hv.
  - rewrite Hv. reflexivity.
  - apply andb_true_iff in H. destruct H as [H1 H2].
    destruct (JsString.eqb k' k); simpl.
    + rewrite Hv, H2. reflexivity.
    + rewrite H1, (IH H2 Hv). reflexivity.
Qed.

Lemma objectOf_isJson (ms : list (jsstring * value)) :
  forallb (fun kx => JSON.isJson (snd kx)) ms = true ->
  JSON.isJson (JSON.objectOf ms) = true.
Proof.
  unfold JSON.objectOf.
  assert (G : forall acc,
             forallb (fun kx => JSON.isJson (snd kx)) acc = true ->
             JSON.distinct (List.map fst acc) = true ->
             forallb (fun kx => JSON.isJson (snd kx)) ms = true ->
             JSON.isJson
               (Obj (fold_left (fun a kv => JSON.setProp a (fst kv) (snd kv)) ms acc))
             = true).
  { induction ms as [|[k v] ms IH]; intros acc Ha Hd Hm.
    - simpl. rewrite Ha, Hd. reflexivity.
    - simpl in Hm. apply andb_true_iff in Hm. destruct Hm as [Hv Hm].
      cbn [fold_left fst snd]. apply IH.
      + apply setProp_isJson; assumption.
      + apply setProp_distinct; assumption.
      + exact Hm. }
  intros H. apply G; auto.
Qed.

Lemma parsers_isJson (fuel : nat) :
  (forall s v r, JSON.parseValue fuel s = Some (v, r) -> JSON.isJson v = true)
  /\ (forall s vs r, JSON.parseElements fuel s = Some (vs, r) ->
                     forallb JSON.isJson vs = true)
  /\ (forall s ms r, JSON.parseMembers fuel s = Some (ms, r) ->
                     forallb (fun kx => JSON.isJson (snd kx)) ms = true).
Proof.
  induction fuel as [|f [IHv [IHe IHm]]].
  - repeat split; intros; discriminate.
  - split; [|split].
    + intros s v r. cbn [JSON.parseValue].
      destruct (JSON.skipWs s) as [|c r0]; [discriminate|].
      destruct (c =? 123).
      { destruct (JSON.expect 125 (JSON.skipWs r0)).
        - intros H; inversion H; reflexivity.
        - destruct (JSON.parseMembers f r0) as [[ms r']|] eqn:E; [|discriminate].
          intros H; inversion H; subst. apply objectOf_isJson. exact (IHm _ _ _ E). }
      destruct (c =? 91).
      { destruct (JSON.expect 93 (JSON.skipWs r0)).
        - intros H; inversion H; reflexivity.
        - destruct (JSON.parseElements f r0) as [[vs r']|] eqn:E; [|discriminate].
          intros H; inversion H; subst. simpl. exact (IHe _ _ _ E). }
      destruct (c =? 34).
      { destruct (JSON.parseChars r0) as [[t r']|]; [|discriminate].
        intros H; inversion H; reflexivity. }
      destruct (startsWith (c :: r0) (js "true")); [intros H; inversion H; reflexivity|].
      destruct (startsWith (c :: r0) (js "false")); [intros H; inversion H; reflexivity|].
      destruct (startsWith (c :: r0) (js "null")); [intros H; inversion H; reflexivity|].
      destruct (JSON.parseNumber (c :: r0)) as [[n r']|] eqn:E; [|discriminate].
      intros H; inversion H; subst. simpl. exact (parseNumber_wf _ E).
    + intros s vs r. cbn [JSON.parseElements].
      destruct (JSON.parseValue f s) as [[v r0]|] eqn:E; [|discriminate].
      destruct (JSON.skipWs r0) as [|c r1]; [discriminate|].
      destruct (c =? 44).
      { destruct (JSON.parseElements f r1) as [[vs' r2]|] eqn:E'; [|discriminate].
        intros H; inversion H; subst. simpl.
        rewrite (IHv _ _ _ E), (IHe _ _ _ E'). reflexivity. }
      destruct (c =? 93); [|discriminate].
      intros H; inversion H; subst. simpl. rewrite (IHv _ _ _ E). reflexivity.
    + intros s ms r. cbn [JSON.parseMembers].
      destruct (JSON.expect 34 (JSON.skipWs s)) as [r0|]; [|discriminate].
      destruct (JSON.parseChars r0) as [[k r1]|]; [|discriminate].
      destruct (JSON.expect 58 (JSON.skipWs r1)) as [r2|]; [|discriminate].
      destruct (JSON.parseValue f r2) as [[v r3]|] eqn:E; [|discriminate].
      destruct (JSON.skipWs r3) as [|c r4]; [discriminate|].
      destruct (c =? 44).
      { destruct (JSON.parseMembers f r4) as [[ms' r5]|] eqn:E'; [|discriminate].
        intros H; inversion H; subst. simpl.
        rewrite (IHv _ _ _ E), (IHm _ _ _ E'). reflexivity. }
      destruct (c =? 125); [|discriminate].
      intros H; inversion H; subst. simpl. rewrite (IHv _ _ _ E). reflexivity.
Qed.

Theorem parse_isJson (t v : value) : JSON.parse t = Ok v -> JSON.isJson v = true.
Proof.
  unfold JSON.parse, JSON.parseText.
  destruct (JSON.parseValue _ _) as [[v' r]|] eqn:E; [|discriminate].
  destruct (JSON.skipWs r); [|discriminate].
  intros H; inversion H; subst.
  destruct (parsers_isJson (S (List.length (ToString t)))) as [Hv _].
  exact (Hv _ _ _ E).
Qed.

(** *** The fuel of the parser *)

Lemma skipWs_length (s : jsstring) :
  (List.length (JSON.skipWs s) <= List.length s)%nat.
Proof.
  induction s as [|c s IH]; simpl; [lia|].
  destruct (JSON.isJsonWs c); simpl; lia.
Qed.

Lemma expect_length (c : N) (s r : jsstring) :
  JSON.expect c s = Some r -> (List.length r < List.length s)%nat.
Proof.
  destruct s as [|x s]; simpl; [discriminate|].
  destruct (x =? c); [|discriminate]. intros H; inversion H; subst. lia.
Qed.

Lemma spanDigits_length (s r : jsstring) (ds : list N) :
  JSON.spanDigits s = (ds, r) ->
  (List.length r + List.length ds = List.length s)%nat.
Proof.
  revert ds r; induction s as [|c s IH]; simpl; intros ds r H.
  - inversion H; reflexivity.
  - destruct (JSON.digitVal c).
    + destruct (JSON.spanDigits s) as [ds' r'] eqn:E.
      inversion H; subst. specialize (IH _ _ eq_refl). simpl. lia.
    + inversion H; subst. simpl. lia.
Qed.

Lemma parseChars_length (n : nat) :
  forall s t r, (List.length s <= n)%nat ->
    JSON.parseChars s = Some (t, r) -> (List.length r < List.length s)%nat.
Proof.
  induction n as [|n IH]; intros s t r Hn.
  - destruct s; [discriminate | simpl in Hn; lia].
  - destruct s as [|c s']; [discriminate|]. simpl in Hn. cbn [JSON.parseChars].
    destruct (c =? 34); [intros H; inversion H; subst; simpl; lia|].
    destruct (c =? 92).
    + destruct s' as [|e s'']; [discriminate|].
      destruct (e =? 117).
      * destruct s'' as [|h1 [|h2 [|h3 [|h4 s3]]]]; try discriminate.
        destruct (JSON.hexVal h1), (JSON.hexVal h2), (JSON.hexVal h3),
          (JSON.hexVal h4); try discriminate.
        destruct (JSON.parseChars s3) as [[t' r']|] eqn:E; [|discriminate].
        intros H; inversion H; subst.
        assert (List.length r < List.length s3)%nat
          by (apply (IH s3 t' r); [simpl in Hn; lia | exact E]).
        simpl. lia.
      * destruct (JSON.unescape e); [|discriminate].
        destruct (JSON.parseChars s'') as [[t' r']|] eqn:E; [|discriminate].
        intros H; inversion H; subst.
        assert (List.length r < List.length s'')%nat
          by (apply (IH s'' t' r); [simpl in Hn; lia | exact E]).
        simpl. lia.
    + destruct (c <? 32); [discriminate|].
      destruct (JSON.parseChars s') as [[t' r']|] eqn:E; [|discriminate].
      intros H; inversion H; subst.
      assert (List.length r < List.length s')%nat
        by (apply (IH s' t' r); [lia | exact E]).
      simpl. lia.
Qed.

Lemma parseExponent_length (s r : jsstring) (e : Z) :
  JSON.parseExponent s = Some (e, r) -> (List.length r <= List.length s)%nat.
Proof.
  unfold JSON.parseExponent. destruct s as [|c s']; [intros H; inversion H; lia|].
  destruct ((c =? 101) || (c =? 69)); [|intros H; inversion H; lia].
  assert (G : forall r1, (List.length r1 <= List.length s')%nat ->
              forall b : bool,
              (let (ep, r2) := JSON.spanDigits r1 in
               match ep with
               | [] => None
               | _ => Some (if b then (- Z.of_N (valueOfDigits ep))%Z
                            else Z.of_N (valueOfDigits ep), r2)
               end) = Some (e, r) -> (List.length r <= List.length (c :: s'))%nat).
  { intros r1 Hr1 b. destruct (JSON.spanDigits r1) as [ep r2] eqn:E.
    apply spanDigits_length in E. destruct ep; [discriminate|].
    intros H; inversion H; subst. simpl in *. lia. }
  destruct (JSON.expect 45 s') as [r'|] eqn:E1.
  - apply expect_length in E1. intros H. apply (G r' ltac:(lia) true). exact H.
  - destruct (JSON.expect 43 s') as [r'|] eqn:E2.
    + apply expect_length in E2. intros H.
      apply (G r' ltac:(lia) false). exact H.
    + intros H. apply (G s' ltac:(lia) false). exact H.
Qed.

Lemma parseMagnitude_length (sg : bool) (s r : jsstring) (n : number) :
  JSON.parseMagnitude sg s = Some (n, r) -> (List.length r < List.length s)%nat.
Proof.
  unfold JSON.parseMagnitude, JSON.parseInteger, JSON.parseFraction.
  assert (Hip : forall ip s2,
             match JSON.expect 48 s with
             | Some r0 => ([0], r0)
             | None => JSON.spanDigits s
             end = (ip, s2) ->
             ip <> [] -> (List.length s2 < List.length s)%nat).
  { intros ip s2. destruct (JSON.expect 48 s) as [r0|] eqn:E.
    - intros H _. inversion H; subst. exact (expect_length _ _ E).
    - intros H Hne. apply spanDigits_length in H.
      destruct ip; [contradiction|]. simpl in H. lia. }
  destruct (match JSON.expect 48 s with
            | Some r0 => ([0], r0)
            | None => JSON.spanDigits s
            end) as [ip s2].
  specialize (Hip ip s2 eq_refl).
  destruct ip as [|i ip']; [discriminate|].
  specialize (Hip ltac:(discriminate)).
  assert (Hfp : forall fp s3,
             match JSON.expect 46 s2 with
             | Some r0 =>
                 let (fp0, r') := JSON.spanDigits r0 in
                 match fp0 with [] => None | _ => Some (fp0, r') end
             | None => Some ([], s2)
             end = Some (fp, s3) -> (List.length s3 <= List.length s2)%nat).
  { intros fp s3. destruct (JSON.expect 46 s2) as [r0|] eqn:E.
    - apply expect_length in E.
      destruct (JSON.spanDigits r0) as [fp0 r'] eqn:E'.
      apply spanDigits_length in E'.
      destruct fp0; [discriminate|]. intros H0; inversion H0; subst. lia.
    - intros H0; inversion H0. lia. }
  destruct (match JSON.expect 46 s2 with
            | Some r0 =>
                let (fp0, r') := JSON.spanDigits r0 in
                match fp0 with [] => None | _ => Some (fp0, r') end
            | None => Some ([], s2)
            end) as [[fp s3]|]; [|discriminate].
  specialize (Hfp fp s3 eq_refl).
  destruct (JSON.parseExponent s3) as [[e s4]|] eqn:E; [|discriminate].
  apply parseExponent_length in E.
  intros H; inversion H; subst. lia.
Qed.

Lemma parseNumber_length (s r : jsstring) (n : number) :
  JSON.parseNumber s = Some (n, r) -> (List.length r < List.length s)%nat.
Proof.
  unfold JSON.parseNumber. destruct (JSON.expect 45 s) as [r0|] eqn:E.
  - intros H. apply parseMagnitude_length in H. apply expect_length in E. lia.
  - apply parseMagnitude_length.
Qed.

Lemma skipn_shorter (n : nat) (l : list N) :
  (List.length (skipn n l) <= List.length l)%nat.
Proof. rewrite length_skipn. lia. Qed.

Lemma parsers_fuel (f : nat) :
  enough JSON.parseValue f /\ enough JSON.parseElements f
  /\ enough JSON.parseMembers f.
Proof.
  induction f as [|f [IHv [IHe IHm]]].
  - repeat split; intros; discriminate.
  - split; [|split]; intros s a r.
    + cbn [JSON.parseValue].
      pose proof (skipWs_length s) as Hws.
      destruct (JSON.skipWs s) as [|c r0] eqn:Es; [discriminate|].
      cbn [List.length] in Hws.
      destruct (c =? 123) eqn:C1.
      { destruct (JSON.expect 125 (JSON.skipWs r0)) as [r'|] eqn:E1.
        - intros H; inversion H; subst.
          pose proof (expect_length _ _ E1). pose proof (skipWs_length r0).
          split; [lia|]. intros [|f'] Hf'; [lia|].
          cbn [JSON.parseValue]. rewrite Es, C1, E1. reflexivity.
        - destruct (JSON.parseMembers f r0) as [[ms r']|] eqn:E2; [|discriminate].
          intros H; inversion H; subst.
          destruct (IHm _ _ _ E2) as [L K].
          split; [lia|]. intros [|f'] Hf'; [lia|].
          cbn [JSON.parseValue]. rewrite Es, C1, E1, (K f') by lia. reflexivity. }
      destruct (c =? 91) eqn:C2.
      { destruct (JSON.expect 93 (JSON.skipWs r0)) as [r'|] eqn:E1.
        - intros H; inversion H; subst.
          pose proof (expect_length _ _ E1). pose proof (skipWs_length r0).
          split; [lia|]. intros [|f'] Hf'; [lia|].
          cbn [JSON.parseValue]. rewrite Es, C1, C2, E1. reflexivity.
        - destruct (JSON.parseElements f r0) as [[vs r']|] eqn:E2; [|discriminate].
          intros H; inversion H; subst.
          destruct (IHe _ _ _ E2) as [L K].
          split; [lia|]. intros [|f'] Hf'; [lia|].
          cbn [JSON.parseValue]. rewrite Es, C1, C2, E1, (K f') by lia.
          reflexivity. }
      destruct (c =? 34) eqn:C3.
      { destruct (JSON.parseChars r0) as [[t r']|] eqn:E1; [|discriminate].
        intros H; inversion H; subst.
        pose proof (@parseChars_length (List.length r0) r0 t r (le_n _) E1).
        split; [lia|]. intros [|f'] Hf'; [lia|].
        cbn [JSON.parseValue]. rewrite Es, C1, C2, C3, E1. reflexivity. }
      destruct (startsWith (c :: r0) (js "true")) eqn:C4.
      { intros H; injection H as Ha Hr; subst a r.
        pose proof (skipn_shorter 3 r0) as Hsk. simpl skipn in Hsk |- *.
        split; [lia|]. intros [|f'] Hf'; [lia|].
        cbn [JSON.parseValue]. rewrite Es, C1, C2, C3, C4. reflexivity. }
      destruct (startsWith (c :: r0) (js "false")) eqn:C5.
      { intros H; injection H as Ha Hr; subst a r.
        pose proof (skipn_shorter 4 r0) as Hsk. simpl skipn in Hsk |- *.
        split; [lia|]. intros [|f'] Hf'; [lia|].
        cbn [JSON.parseValue]. rewrite Es, C1, C2, C3, C4, C5. reflexivity. }
      destruct (startsWith (c :: r0) (js "null")) eqn:C6.
      { intros H; injection H as Ha Hr; subst a r.
        pose proof (skipn_shorter 3 r0) as Hsk. simpl skipn in Hsk |- *.
        split; [lia|]. intros [|f'] Hf'; [lia|].
        cbn [JSON.parseValue]. rewrite Es, C1, C2, C3, C4, C5, C6. reflexivity. }
      destruct (JSON.parseNumber (c :: r0)) as [[n r']|] eqn:E1; [|discriminate].
      intros H; inversion H; subst.
      pose proof (parseNumber_length _ E1) as L. cbn [List.length] in L.
      split; [lia|]. intros [|f'] Hf'; [lia|].
      cbn [JSON.parseValue]. rewrite Es, C1, C2, C3, C4, C5, C6, E1. reflexivity.
    + cbn [JSON.parseElements].
      destruct (JSON.parseValue f s) as [[v r0]|] eqn:E1; [|discriminate].
      destruct (IHv _ _ _ E1) as [L1 K1].
      pose proof (skipWs_length r0) as Hws.
      destruct (JSON.skipWs r0) as [|c r1] eqn:Es; [discriminate|].
      cbn [List.length] in Hws.
      destruct (c =? 44) eqn:C1.
      { destruct (JSON.parseElements f r1) as [[vs' r2]|] eqn:E2; [|discriminate].
        destruct (IHe _ _ _ E2) as [L2 K2].
        intros H; inversion H; subst.
        split; [lia|]. intros [|f'] Hf'; [lia|].
        cbn [JSON.parseElements].
        rewrite (K1 f') by lia. rewrite Es, C1, (K2 f') by lia. reflexivity. }
      destruct (c =? 93) eqn:C2; [|discriminate].
      intros H; inversion H; subst.
      split; [lia|]. intros [|f'] Hf'; [lia|].
      cbn [JSON.parseElements]. rewrite (K1 f') by lia. rewrite Es, C1, C2.
      reflexivity.
    + cbn [JSON.parseMembers].
      pose proof (skipWs_length s) as Hws.
      destruct (JSON.expect 34 (JSON.skipWs s)) as [r0|] eqn:E0; [|discriminate].
      pose proof (expect_length _ _ E0) as L0.
      destruct (JSON.parseChars r0) as [[k r1]|] eqn:E1; [|discriminate].
      pose proof (@parseChars_length (List.length r0) r0 k r1 (le_n _) E1) as L1.
      pose proof (skipWs_length r1) as Hws1.
      destruct (JSON.expect 58 (JSON.skipWs r1)) as [r2|] eqn:E2; [|discriminate].
      pose proof (expect_length _ _ E2) as L2.
      destruct (JSON.parseValue f r2) as [[v r3]|] eqn:E3; [|discriminate].
      destruct (IHv _ _ _ E3) as [L3 K3].
      pose proof (skipWs_length r3) as Hws3.
      destruct (JSON.skipWs r3) as [|c r4] eqn:Es; [discriminate|].
      cbn [List.length] in Hws3.
      destruct (c =? 44) eqn:C1.
      { destruct (JSON.parseMembers f r4) as [[ms' r5]|] eqn:E4; [|discriminate].
        destruct (IHm _ _ _ E4) as [L4 K4].
        intros H; inversion H; subst.
        split; [lia|]. intros [|f'] Hf'; [lia|].
        cbn [JSON.parseMembers].
        rewrite E0, E1, E2, (K3 f') by lia.
        rewrite Es, C1, (K4 f') by lia. reflexivity. }
      destruct (c =? 125) eqn:C2; [|discriminate].
      intros H; inversion H; subst.
      split; [lia|]. intros [|f'] Hf'; [lia|].
      cbn [JSON.parseMembers].
      rewrite E0, E1, E2, (K3 f') by lia. rewrite Es, C1, C2. reflexivity.
Qed.

(** The fuel [S (length s)] of [parseText] is enough: with any larger fuel
    the answer is the same. *)
Theorem parseValue_fuel (f : nat) (s : jsstring) :
  (List.length s < f)%nat ->
  JSON.parseValue f s = JSON.parseValue (S (List.length s)) s.
Proof.
  intros Hf.
  destruct (JSON.parseValue f s) as [[v r]|] eqn:E1.
  - destruct (parsers_fuel f) as [Hv _]. destruct (Hv _ _ _ E1) as [L K].
    symmetry. apply K. lia.
  - destruct (JSON.parseValue (S (List.length s)) s) as [[v r]|] eqn:E2;
      [|reflexivity].
    destruct (parsers_fuel (S (List.length s))) as [Hv _].
    destruct (Hv _ _ _ E2) as [L K].
    rewrite (K f) in E1 by lia. discriminate.
Qed.

End JSONFacts.

(** ** The dashboard renderer *)

Module DashboardFacts.
Import Dashboard DashboardSpec Samples.

Lemma nullish_or_index (values : list value) (i : nat) :
  nullish_or (index values i) (Num zero) = valueAt values i.
Proof.
  unfold index, valueAt. destruct (nth_error values i) as [[]|]; reflexivity.
Qed.

Lemma transformChartData_arrays (data : value) (labels values : list value) :
  prop data (js "labels") = Arr labels ->
  prop data (js "values") = Arr values ->
  transformChartData data
  = mapi (fun label i => point label (valueAt values i)) labels.
Proof.
  intros Hl Hv. unfold transformChartData.
  assert (Ht : truthy data = true).
  { destruct data; simpl in Hl; try discriminate; reflexivity. }
  rewrite Ht, Hl, Hv. cbn [negb orb Array_isArray elements].
  destruct labels as [|l labels]; [reflexivity|].
  cbn [List.length Nat.eqb]. unfold mapi.
  generalize 0%nat. generalize (l :: labels).
  induction l0 as [|x xs IH]; intros k; simpl; [reflexivity|].
  rewrite nullish_or_index, IH. reflexivity.
Qed.

Lemma renderChart_skips_iff_empty (chart data : value) :
  get chart (js "data") = Ok data ->
  renderChart chart = Ok None <-> transformChartData data = [].
Proof.
  intros Hd. unfold renderChart. rewrite Hd. simpl.
  destruct (transformChartData data) as [|p ps]; simpl.
  - tauto.
  - split; discriminate.
Qed.

(** C6, as stated, fails: a spec with labels and no [values] array has no
    point at all, where the zip of the labels with the values would give
    one point of value 0 per label; the chart is skipped. *)
Lemma labels_without_values_are_not_zipped :
  transformChartData (prop chartNoValues (js "data")) = []
  /\ transformChartData_byZip (prop chartNoValues (js "data"))
     = [Obj [(js "label", Str (js "a")); (js "value", Num zero)];
        Obj [(js "label", Str (js "b")); (js "value", Num zero)]]
  /\ transformChartData (prop chartNoValues (js "data"))
     <> transformChartData_byZip (prop chartNoValues (js "data"))
  /\ renderChart chartNoValues = Ok None.
Proof.
  repeat split; try (vm_compute; reflexivity).
  vm_compute. discriminate.
Qed.

(** C6, amended. For every chart spec the chart callback returns no card
    exactly when the transformed list is empty.  When [data] holds the
    arrays [labels] and [values], the transformed list has one point per
    label, in order; the point at index [i] is the object
    [{label, value}] of the label at [i] and of the entry of [values] at
    [i], or of [0] where [values] has no entry at [i] or holds [null] there
    (so three labels and two values give three points).  When [labels] or
    [values] is not an array the list is empty. *)
Theorem chart_points_zip_labels_with_values (chart data : value) :
  get chart (js "data") = Ok data ->
  let points := transformChartData data in
  (renderChart chart = Ok None <-> points = [])
  /\ (forall labels values,
         prop data (js "labels") = Arr labels ->
         prop data (js "values") = Arr values ->
         List.length points = List.length labels
         /\ forall i label,
             nth_error labels i = Some label ->
             exists v,
               nth_error points i
               = Some (Obj [(js "label", label); (js "value", v)])
               /\ (forall x, nth_error values i = Some x ->
                             x <> Null -> x <> Undefined -> v = x)
               /\ (nth_error values i = None
                   \/ nth_error values i = Some Null
                   \/ nth_error values i = Some Undefined ->
                   v = Num zero))
  /\ (Array_isArray (prop data (js "labels")) = false
      \/ Array_isArray (prop data (js "values")) = false ->
      points = []).
Proof.
  intros Hd points. subst points.
  split; [apply renderChart_skips_iff_empty; assumption|]. split.
  - intros labels values Hl Hv.
    rewrite (transformChartData_arrays _ Hl Hv).
    split; [apply mapi_from_length|].
    intros i label Hi. exists (valueAt values i). split; [|split].
    + unfold mapi. rewrite mapi_from_nth, Hi. reflexivity.
    + intros x Hx Hn Hu. unfold valueAt. rewrite Hx.
      destruct x; try reflexivity; contradiction.
    + intros H. unfold valueAt.
      destruct H as [H|[H|H]]; rewrite H; reflexivity.
  - intros H. unfold transformChartData.
    destruct H as [H|H]; rewrite H; cbn [negb];
      rewrite ?orb_true_r; reflexivity.
Qed.

Lemma chart_points_zip_labels_with_values_witness :
  let points := transformChartData (prop chart32 (js "data")) in
  List.length points = 3%nat
  /\ nth_error points 2
     = Some (Obj [(js "label", Str (js "c")); (js "value", Num zero)])
  /\ renderChart chart32 <> Ok None.
Proof.
  pose proof (@chart_points_zip_labels_with_values
                chart32 (prop chart32 (js "data")) eq_refl) as [Hskip [Hzip _]].
  destruct (Hzip [Str (js "a"); Str (js "b"); Str (js "c")]
                 [Num (normal false [1%N] 0); Num (normal false [2%N] 0)]
                 eq_refl eq_refl) as [Hlen Hnth].
  split; [exact Hlen|].
  split.
  - destruct (Hnth 2%nat (Str (js "c")) eq_refl) as [v [Hp [_ Hz]]].
    rewrite (Hz (or_introl eq_refl)) in Hp. exact Hp.
  - intros H. apply Hskip in H. discriminate H.
Defined.

(** C10. When [data] is falsy (absent), or [data.labels] is not an array
    or is empty, or [data.values] is not an array, the transformed list is
    empty and the chart callback returns no card; so labels without a
    [values] array give no chart, not a chart of zeros. *)
Theorem chart_without_arrays_is_skipped (data : value) :
  truthy data = false
  \/ Array_isArray (prop data (js "labels")) = false
  \/ prop data (js "labels") = Arr []
  \/ Array_isArray (prop data (js "values")) = false ->
  transformChartData data = []
  /\ (forall chart, get chart (js "data") = Ok data ->
                    renderChart chart = Ok None).
Proof.
  intros H.
  assert (E : transformChartData data = []).
  { unfold transformChartData.
    destruct H as [H|[H|[H|H]]].
    - rewrite H. reflexivity.
    - rewrite H. cbn [negb]. rewrite orb_true_r. reflexivity.
    - rewrite H. cbn [elements List.length Nat.eqb].
      rewrite orb_true_r. reflexivity.
    - rewrite H. cbn [negb]. rewrite orb_true_r. reflexivity. }
  split; [exact E|].
  intros chart Hc. apply (renderChart_skips_iff_empty _ Hc). exact E.
Qed.

Lemma chart_without_arrays_is_skipped_witness :
  transformChartData (prop chartNoValues (js "data")) = []
  /\ renderChart chartNoValues = Ok None.
Proof.
  destruct (@chart_without_arrays_is_skipped
              (prop chartNoValues (js "data")))
    as [E R].
  - right; right; right; reflexivity.
  - split; [exact E | apply R; reflexivity].
Defined.

Lemma strictEqStr_true (v : value) (s : jsstring) :
  strictEqStr v s = true <-> v = Str s.
Proof.
  destruct v; simpl; try (split; [discriminate | intros H; discriminate H]).
  rewrite jseqb_eq. split; [intros ->; reflexivity | intros H; inversion H; auto].
Qed.

Lemma removeClass_clean (cls : N -> bool) (s : jsstring) :
  (forall c, In c s -> cls c = false) -> removeClass cls s = s.
Proof.
  unfold removeClass. induction s as [|x s IH]; simpl; intros H; [reflexivity|].
  rewrite (H x (or_introl eq_refl)). simpl. rewrite IH; auto.
Qed.

Lemma removeClass_app (cls : N -> bool) (a b : jsstring) :
  removeClass cls (a ++ b) = removeClass cls a ++ removeClass cls b.
Proof. apply filter_app. Qed.

Lemma glyphClass_spec (c : N) :
  glyphClass c = false <-> ~ In c warningGlyph /\ ~ In c successGlyph.
Proof.
  unfold glyphClass, warningGlyph, successGlyph. simpl.
  rewrite !orb_false_iff, !N.eqb_neq. intuition congruence.
Qed.

Lemma getAlertVariant_object (props : list (jsstring * value)) :
  getAlertVariant (Obj props) = Ok destructive
  <-> prop (Obj props) (js "type") = Str (js "error")
      \/ prop (Obj props) (js "type") = Str (js "warning").
Proof.
  unfold getAlertVariant, get, bind.
  rewrite <- !strictEqStr_true.
  destruct (strictEqStr _ (js "error")), (strictEqStr _ (js "warning"));
    simpl; split; intros H; auto; try discriminate;
    destruct H; discriminate.
Qed.

(** C8. String alerts.  The variant is destructive when the string starts
    with the warning glyph, the code units U+26A0 U+FE0F, and default
    otherwise.  The displayed message is the string without its code units
    U+26A0, U+FE0F and U+2705 (the warning glyph and the success glyph),
    trimmed: it holds code units of the string only and none of the three;
    a string that holds none of the three is displayed trimmed and
    otherwise whole, and each of the three is dropped wherever it stands;
    so the warning glyph, a text, the success glyph and a text show the two
    texts only.  Object alerts: the variant is destructive exactly for the
    types 'error' and 'warning', hence default for 'info' and for an absent
    type, and the displayed message is the [message] property unchanged. *)
Theorem alert_variant_and_message :
  (forall rest : jsstring,
      getAlertVariant (Str (9888%N :: 65039%N :: rest)) = Ok destructive)
  /\ (forall s : jsstring,
         (forall rest, s <> 9888%N :: 65039%N :: rest) ->
         getAlertVariant (Str s) = Ok default)
  /\ (forall s : jsstring,
         exists m,
           getAlertMessage (Str s) = Ok (Str m)
           /\ (forall c, In c m ->
                         In c s
                         /\ c <> 9888%N /\ c <> 65039%N /\ c <> 9989%N))
  /\ (forall s : jsstring,
         (forall c, In c s -> c <> 9888%N /\ c <> 65039%N /\ c <> 9989%N) ->
         getAlertMessage (Str s) = Ok (Str (trim s)))
  /\ (forall (a b : jsstring) (g : N),
         g = 9888%N \/ g = 65039%N \/ g = 9989%N ->
         getAlertMessage (Str (a ++ g :: b)) = getAlertMessage (Str (a ++ b)))
  /\ getAlertMessage
       (Str ([9888%N; 65039%N] ++ js " watch spend " ++ [9989%N] ++ js " ok "))
     = Ok (Str (js "watch spend  ok"))
  /\ (forall props : list (jsstring * value),
         let alert := Obj props in
         (getAlertVariant alert = Ok destructive
          <-> prop alert (js "type") = Str (js "error")
              \/ prop alert (js "type") = Str (js "warning"))
         /\ (prop alert (js "type") = Str (js "info")
             \/ lookup (js "type") props = None ->
             getAlertVariant alert = Ok default)
         /\ getAlertMessage alert = Ok (prop alert (js "message"))).
Proof.
  split; [|split; [|split; [|split; [|split; [|split]]]]].
  - intros rest. reflexivity.
  - intros s H. unfold getAlertVariant.
    destruct (startsWith s warningGlyph) eqn:E; [|reflexivity].
    apply startsWith_prefix in E. destruct E as [r E].
    exfalso. exact (H r E).
  - intros s. exists (trim (removeClass glyphClass s)).
    split; [reflexivity|].
    intros c Hc. apply trim_In in Hc. unfold removeClass in Hc.
    apply filter_In in Hc. destruct Hc as [Hin Hcls].
    apply negb_true_iff in Hcls. apply glyphClass_spec in Hcls.
    unfold warningGlyph, successGlyph in Hcls. simpl in Hcls.
    split; [exact Hin|]. repeat split; intros ->; tauto.
  - intros s H. unfold getAlertMessage.
    rewrite removeClass_clean; [reflexivity|].
    intros c Hc. destruct (H c Hc) as [H1 [H2 H3]].
    unfold glyphClass. rewrite !orb_false_iff, !N.eqb_neq. auto.
  - intros a b g Hg. unfold getAlertMessage.
    rewrite !removeClass_app. unfold removeClass at 2. cbn [filter].
    replace (glyphClass g) with true
      by (destruct Hg as [->|[->| ->]]; reflexivity).
    reflexivity.
  - vm_compute. reflexivity.
  - intros props alert. split; [apply getAlertVariant_object|]. split.
    + intros H. subst alert.
      pose proof (getAlertVariant_object props) as G.
      unfold getAlertVariant, get, bind in *.
      destruct (strictEqStr (prop (Obj props) (js "type")) (js "error")
                || strictEqStr (prop (Obj props) (js "type")) (js "warning"))
               eqn:E; [|reflexivity].
      exfalso. destruct G as [G _]. specialize (G eq_refl).
      destruct H as [H|H].
      * rewrite H in G. destruct G; discriminate.
      * simpl in G. rewrite H in G. destruct G; discriminate.
    + reflexivity.
Qed.

End DashboardFacts.

(** ** The message dispatcher *)

Module DispatcherFacts.
Import Dispatcher DispatcherSpec Samples.

Lemma sendMessage_started (w : World) (s0 : State) (sid : jsstring) :
  refused s0 = false ->
  ensureSession w (currentSessionId s0) = Ok (Some sid) ->
  saveMessage_user w = Ok tt ->
  updateSessionTitle w = Ok tt ->
  sendMessage w s0
  = finallyM (catchM (request w (inputMessage s0)) (fun _ => recover w))
             (setIsLoading false) (started s0 sid).
Proof.
  intros Hg Hs Hu Ht. unfold sendMessage. rewrite Hg.
  unfold bindM, lift. rewrite Hs. cbn.
  rewrite Hu, Ht. unfold started.
  destruct (Nat.leb _ 1); cbn; rewrite ?app_nil_r; reflexivity.
Qed.

Lemma request_replyOf (w : World) (u : jsstring) (s : State) :
  request w u s
  = match replyOf w with
    | Ok reply => saveMessage (saveMessage_reply w) (stringified reply) Assistant s
    | Throw e => (Throw e, s)
    end.
Proof.
  unfold request, replyOf, bindM, lift, bind.
  destruct (fetch w) as [resp|e]; [|reflexivity].
  destruct (ok resp); cbn; [|reflexivity].
  destruct (JSON.parse (Str (body resp))) as [data|e]; [|reflexivity].
  destruct (normalizeReply data); reflexivity.
Qed.

(** The flag is cleared by the [finally] block whatever the [try] and
    [catch] blocks do. *)
Lemma finally_clears_flag {A} (body : M A) (s : State) :
  isLoading (snd (finallyM body (setIsLoading false) s)) = false.
Proof.
  unfold finallyM, setIsLoading. destruct (body s) as [r s']. reflexivity.
Qed.

Lemma sendMessage_settles_flag (w : World) (s0 : State) (sid : jsstring) :
  refused s0 = false ->
  ensureSession w (currentSessionId s0) = Ok (Some sid) ->
  saveMessage_user w = Ok tt ->
  updateSessionTitle w = Ok tt ->
  isLoading (snd (sendMessage w s0)) = false.
Proof.
  intros Hg Hs Hu Ht. rewrite (sendMessage_started w s0 Hg Hs Hu Ht).
  apply finally_clears_flag.
Qed.

(** A send whose reply is normalized and saved. *)
Lemma sendMessage_delivered (w : World) (s0 : State) (sid : jsstring)
      (reply : value) :
  refused s0 = false ->
  ensureSession w (currentSessionId s0) = Ok (Some sid) ->
  saveMessage_user w = Ok tt ->
  updateSessionTitle w = Ok tt ->
  replyOf w = Ok reply ->
  saveMessage_reply w = Ok tt ->
  fst (sendMessage w s0) = Ok tt
  /\ saved (snd (sendMessage w s0))
     = saved s0 ++ [(Str (inputMessage s0), User); (stringified reply, Assistant)]
  /\ error (snd (sendMessage w s0)) = None
  /\ toasts (snd (sendMessage w s0)) = toasts s0.
Proof.
  intros Hg Hs Hu Ht Hr Hv. rewrite (sendMessage_started w s0 Hg Hs Hu Ht).
  unfold finallyM, catchM. rewrite request_replyOf, Hr.
  unfold saveMessage. rewrite Hv. cbn.
  rewrite <- app_assoc. repeat split; reflexivity.
Qed.

(** A send whose [try] block raises: the [catch] block saves the apology. *)
Lemma sendMessage_apologizes (w : World) (s0 : State) (sid : jsstring) :
  refused s0 = false ->
  ensureSession w (currentSessionId s0) = Ok (Some sid) ->
  saveMessage_user w = Ok tt ->
  updateSessionTitle w = Ok tt ->
  (exists e, replyOf w = Throw e)
  \/ (exists e, saveMessage_reply w = Throw e) ->
  saveMessage_apology w = Ok tt ->
  fst (sendMessage w s0) = Ok tt
  /\ saved (snd (sendMessage w s0))
     = saved s0 ++ [(Str (inputMessage s0), User); (Str errorMessage, Assistant)]
  /\ error (snd (sendMessage w s0))
     = Some (js "Failed to send message. Please check your connection and try again.")
  /\ toasts (snd (sendMessage w s0)) = toasts s0 ++ [js "Connection Error"].
Proof.
  intros Hg Hs Hu Ht Hf Ha. rewrite (sendMessage_started w s0 Hg Hs Hu Ht).
  unfold finallyM, catchM. rewrite request_replyOf.
  assert (E : exists e, match replyOf w with
                        | Ok reply =>
                            saveMessage (saveMessage_reply w) (stringified reply)
                                        Assistant (started s0 sid)
                        | Throw e => (Throw e, started s0 sid)
                        end = (Throw e, started s0 sid)).
  { destruct Hf as [[e He]|[e He]].
    - rewrite He. eauto.
    - destruct (replyOf w); [|eauto].
      unfold saveMessage. rewrite He. eauto. }
  destruct E as [e ->].
  unfold recover, bindM, setError, toast, saveMessage. rewrite Ha. cbn.
  rewrite <- app_assoc. repeat split; reflexivity.
Qed.

Lemma truthy_prop_hasField (v : value) (k : jsstring) :
  truthy (prop v k) = true -> hasField v k = true.
Proof.
  destruct v; simpl; try discriminate.
  destruct (lookup k props); [reflexivity | discriminate].
Qed.

Lemma stringify_None (v : value) : JSON.stringify v = None <-> v = Undefined.
Proof.
  destruct v as [| |[]| | | |]; simpl; split; intros H;
    try reflexivity; discriminate.
Qed.

Lemma stringified_string (v : value) :
  v <> Undefined -> exists text, JSON.stringify v = Some text /\ stringified v = Str text.
Proof.
  intros H. unfold stringified.
  destruct (JSON.stringify v) as [t|] eqn:E; [eauto|].
  apply stringify_None in E. contradiction.
Qed.

Lemma parseValue_defined (fuel : nat) (s r : jsstring) (v : value) :
  JSON.parseValue fuel s = Some (v, r) -> v <> Undefined.
Proof.
  destruct fuel as [|f]; [discriminate|].
  cbn [JSON.parseValue]. unfold JSON.objectOf.
  repeat match goal with
         | |- context [match ?x with _ => _ end] => destruct x
         end;
    intros H; inversion H; discriminate.
Qed.

Lemma parse_defined (t v : value) : JSON.parse t = Ok v -> v <> Undefined.
Proof.
  unfold JSON.parse, JSON.parseText.
  destruct (JSON.parseValue _ _) as [[v' r]|] eqn:E; [|discriminate].
  destruct (JSON.skipWs r); [|discriminate].
  intros H; inversion H; subst. eapply parseValue_defined; eauto.
Qed.

(** The two branches of the normalization for a truthy [response]. *)
Lemma normalizeReply_truthy (data response : value) :
  get data (js "response") = Ok response ->
  truthy response = true ->
  normalizeReply data
  = Ok (match JSON.parse response with
        | Ok parsed =>
            if truthy (prop parsed (js "textView")) then parsed
            else fallbackReply data response
        | Throw _ => fallbackReply data response
        end).
Proof.
  intros Hr Ht. unfold normalizeReply. rewrite Hr. cbn [bind]. rewrite Ht.
  destruct (JSON.parse response) as [parsed|e]; [|reflexivity].
  destruct parsed; reflexivity.
Qed.

Lemma normalizeReply_falsy (data response : value) :
  get data (js "response") = Ok response ->
  truthy response = false ->
  normalizeReply data = Ok data.
Proof.
  intros Hr Ht. unfold normalizeReply. rewrite Hr. cbn [bind]. rewrite Ht.
  reflexivity.
Qed.

Lemma normalizeReply_throws (data : value) (e : exn) :
  normalizeReply data = Throw e <-> (data = Null \/ data = Undefined) /\ e = TypeError.
Proof.
  unfold normalizeReply, get, bind, try_catch. split.
  - destruct data; intros H; try (inversion H; auto; fail);
      exfalso; revert H;
      repeat match goal with
             | |- context [match ?x with _ => _ end] => destruct x
             end; discriminate.
  - intros [[->| ->] ->]; reflexivity.
Qed.

Lemma normalizeReply_defined (data reply : value) :
  data <> Undefined -> normalizeReply data = Ok reply -> reply <> Undefined.
Proof.
  intros Hd H. destruct (get data (js "response")) as [r|e] eqn:Hr.
  - destruct (truthy r) eqn:Ht.
    + rewrite (normalizeReply_truthy _ Hr Ht) in H. inversion H; subst.
      destruct (JSON.parse r) as [p|] eqn:E; [|discriminate].
      destruct (truthy (prop p (js "textView"))); [|discriminate].
      eapply parse_defined; eauto.
    + rewrite (normalizeReply_falsy _ Hr Ht) in H. inversion H; subst. exact Hd.
  - unfold normalizeReply in H. rewrite Hr in H. discriminate.
Qed.

Lemma replyOf_ok (w : World) (resp : Response) (data : value) :
  fetch w = Ok resp -> ok resp = true ->
  JSON.parse (Str (body resp)) = Ok data ->
  replyOf w = normalizeReply data.
Proof.
  intros Hf Ho Hp. unfold replyOf. rewrite Hf. cbn [bind]. rewrite Ho, Hp.
  reflexivity.
Qed.

(** The ways in which the [try] block raises before it saves. *)
Lemma replyOf_throws (w : World) (e : exn) :
  replyOf w = Throw e ->
  fetch w = Throw e
  \/ (exists resp, fetch w = Ok resp /\ ok resp = false)
  \/ (exists resp, fetch w = Ok resp /\ ok resp = true
                   /\ JSON.parse (Str (body resp)) = Throw SyntaxError)
  \/ (exists resp, fetch w = Ok resp /\ ok resp = true
                   /\ JSON.parse (Str (body resp)) = Ok Null).
Proof.
  unfold replyOf. destruct (fetch w) as [resp|e'] eqn:Hf; cbn [bind].
  - destruct (ok resp) eqn:Ho; cbn [bind].
    + destruct (JSON.parse (Str (body resp))) as [data|e'] eqn:Hp; cbn [bind].
      * intros H. apply normalizeReply_throws in H. destruct H as [[->| ->] _].
        -- right; right; right. eauto.
        -- exfalso. exact (parse_defined _ Hp eq_refl).
      * intros _. right; right; left. exists resp. repeat split; auto.
        revert Hp. unfold JSON.parse.
        destruct (JSON.parseText _); [discriminate | auto].
    + intros _. right; left. eauto.
  - intros H; inversion H; subst. left; reflexivity.
Qed.

(** C9. When the body's [response] is falsy (absent, empty string, 0,
    false or null) the normalization returns the body itself, and the
    assistant message that is saved is the JSON text of the body: no
    [textView] fallback is applied. *)
Theorem falsy_response_persists_body_verbatim
        (w : World) (s0 : State) (sid : jsstring) (resp : Response)
        (data response : value) :
  refused s0 = false ->
  ensureSession w (currentSessionId s0) = Ok (Some sid) ->
  saveMessage_user w = Ok tt ->
  updateSessionTitle w = Ok tt ->
  saveMessage_reply w = Ok tt ->
  fetch w = Ok resp -> ok resp = true ->
  JSON.parse (Str (body resp)) = Ok data ->
  get data (js "response") = Ok response ->
  truthy response = false ->
  normalizeReply data = Ok data
  /\ exists text,
      JSON.stringify data = Some text
      /\ saved (snd (sendMessage w s0))
         = saved s0 ++ [(Str (inputMessage s0), User); (Str text, Assistant)].
Proof.
  intros Hg Hs Hu Ht Hv Hf Ho Hp Hr Hfalsy.
  pose proof (normalizeReply_falsy _ Hr Hfalsy) as Hn.
  split; [exact Hn|].
  destruct (stringified_string (parse_defined _ Hp)) as [text [E1 E2]].
  exists text. split; [exact E1|].
  assert (Hreply : replyOf w = Ok data)
    by (rewrite (replyOf_ok _ Hf Ho Hp); exact Hn).
  destruct (sendMessage_delivered _ _ Hg Hs Hu Ht Hreply Hv) as [_ [E _]].
  rewrite E, E2. reflexivity.
Qed.

Lemma falsy_response_persists_body_verbatim_witness :
  saved (snd (sendMessage (answering (jsq "{'response':''}")) sampleState))
  = [(Str (js "hello"), User); (Str (jsq "{'response':''}"), Assistant)].
Proof.
  destruct (@falsy_response_persists_body_verbatim
              (answering (jsq "{'response':''}")) sampleState (js "s1")
              (mkResponse true 200 (jsq "{'response':''}"))
              (Obj [(js "response", Str [])]) (Str [])
              eq_refl eq_refl eq_refl eq_refl eq_refl eq_refl eq_refl
              eq_refl eq_refl eq_refl)
    as [_ [text [E1 E2]]].
  rewrite E2. inversion E1. reflexivity.
Defined.

(** C1, as stated, fails: the branches are chosen by truthiness.  An empty
    [response] is kept as the body itself; a parsed value with an empty
    [textView] is not taken as the reply; a falsy [module_outputs] is
    replaced by the empty object. *)
Lemma normalizeReply_is_not_by_presence :
  (hasField bodyEmptyResponse (js "response") = true
   /\ normalizeReply bodyEmptyResponse = Ok bodyEmptyResponse
   /\ normalizeReply_byPresence bodyEmptyResponse
      = Obj [(js "textView", Str []); (js "dashboardView", Obj [])]
   /\ normalizeReply bodyEmptyResponse
      <> Ok (normalizeReply_byPresence bodyEmptyResponse))
  /\ (hasField bodyEmptyTextView (js "response") = true
      /\ normalizeReply bodyEmptyTextView
         = Ok (Obj [(js "textView", Str (jsq "{'textView':''}"));
                    (js "dashboardView", Obj [])])
      /\ normalizeReply_byPresence bodyEmptyTextView
         = Obj [(js "textView", Str [])])
  /\ (hasField bodyFalseOutputs (js "response") = true
      /\ normalizeReply bodyFalseOutputs
         = Ok (Obj [(js "textView", Str (js "plain text"));
                    (js "dashboardView", Obj [])])
      /\ normalizeReply_byPresence bodyFalseOutputs
         = Obj [(js "textView", Str (js "plain text"));
                (js "dashboardView", Bool false)]).
Proof.
  repeat split; try (vm_compute; reflexivity).
  vm_compute. discriminate.
Qed.

(** C1, amended. For a body whose [response] is truthy: when [response]
    parses as JSON to a value whose [textView] is truthy, the reply is the
    parsed value; otherwise (no JSON, or a parsed value with a falsy or
    absent [textView]) the reply is [{textView: response, dashboardView:
    module_outputs}] with the empty object in place of a falsy or absent
    [module_outputs]; and the saved assistant message is the JSON text of
    that reply. *)
Theorem normalization_of_truthy_response (data response : value) :
  get data (js "response") = Ok response ->
  truthy response = true ->
  (forall parsed,
      JSON.parse response = Ok parsed ->
      truthy (prop parsed (js "textView")) = true ->
      normalizeReply data = Ok parsed)
  /\ ((forall parsed,
          JSON.parse response = Ok parsed ->
          truthy (prop parsed (js "textView")) = false) ->
      normalizeReply data = Ok (fallbackReply data response))
  /\ fallbackReply data response
     = Obj [(js "textView", response);
            (js "dashboardView",
             if truthy (prop data (js "module_outputs"))
             then prop data (js "module_outputs") else Obj [])]
  /\ (forall w s0 sid resp,
         refused s0 = false ->
         ensureSession w (currentSessionId s0) = Ok (Some sid) ->
         saveMessage_user w = Ok tt ->
         updateSessionTitle w = Ok tt ->
         saveMessage_reply w = Ok tt ->
         fetch w = Ok resp -> ok resp = true ->
         JSON.parse (Str (body resp)) = Ok data ->
         exists reply text,
           normalizeReply data = Ok reply
           /\ JSON.stringify reply = Some text
           /\ saved (snd (sendMessage w s0))
              = saved s0
                ++ [(Str (inputMessage s0), User); (Str text, Assistant)]).
Proof.
  intros Hr Ht. pose proof (normalizeReply_truthy _ Hr Ht) as Hn.
  split; [|split; [|split]].
  - intros parsed Hp Htv. rewrite Hn, Hp, Htv. reflexivity.
  - intros H. rewrite Hn.
    destruct (JSON.parse response) as [parsed|e] eqn:Hp; [|reflexivity].
    rewrite (H parsed eq_refl). reflexivity.
  - reflexivity.
  - intros w s0 sid resp Hg Hs Hu Htl Hv Hf Ho Hp.
    destruct (normalizeReply data) as [reply|e] eqn:E; [|discriminate].
    destruct (stringified_string
                (normalizeReply_defined (parse_defined _ Hp) E))
      as [text [E1 E2]].
    exists reply, text. split; [reflexivity|]. split; [exact E1|].
    assert (Hreply : replyOf w = Ok reply)
      by (rewrite (replyOf_ok _ Hf Ho Hp); exact E).
    destruct (sendMessage_delivered _ _ Hg Hs Hu Htl Hreply Hv) as [_ [S _]].
    rewrite S, E2. reflexivity.
Qed.

Lemma normalization_of_truthy_response_witness :
  normalizeReply bodyPlainText
  = Ok (Obj [(js "textView", Str (js "plain text"));
             (js "dashboardView",
              Obj [(js "alerts",
                    Arr [Str (Dashboard.warningGlyph ++ js " watch spend")])])]).
Proof.
  destruct (@normalization_of_truthy_response
              bodyPlainText (Str (js "plain text")) eq_refl eq_refl)
    as [_ [H _]].
  rewrite H; [reflexivity|].
  intros parsed Hp. vm_compute in Hp. discriminate Hp.
Defined.

(** Example of the specification: a [response] that holds the reply as
    JSON text. *)
Example normalizeReply_nested :
  normalizeReply
    (Obj [(js "response", Str (jsq "{'textView':'hi','dashboardView':{}}"))])
  = Ok (Obj [(js "textView", Str (js "hi")); (js "dashboardView", Obj [])]).
Proof. vm_compute. reflexivity. Qed.

(** The apology is not the JSON text of any object: such a text starts
    with a brace. *)
Lemma apology_is_not_an_object_text (props : list (jsstring * value)) :
  JSON.stringify (Obj props) <> Some errorMessage.
Proof. simpl. intros H. inversion H. Qed.

(** C2, as stated, fails: after a network failure the saved assistant
    message is the apology itself, not a JSON text, so it is the
    stringification of no reply object. *)
Lemma apology_is_saved_raw :
  fst (sendMessage offline sampleState) = Ok tt
  /\ saved (snd (sendMessage offline sampleState))
     = [(Str (js "hello"), User); (Str errorMessage, Assistant)]
  /\ ~ (exists reply,
          hasField reply (js "textView") = true
          /\ JSON.stringify reply = Some errorMessage).
Proof.
  split; [vm_compute; reflexivity|]. split; [vm_compute; reflexivity|].
  intros [reply [Hf Hs]]. destruct reply; try discriminate Hf.
  exact (apology_is_not_an_object_text Hs).
Qed.

(** C2, amended. After a send that passes the entry guard, has a session,
    and whose calls to the storage collaborator resolve, exactly one
    assistant message is saved after the user's message.  When the agent
    answers with a 2xx status and a JSON body other than [null], its content
    is the JSON text of the normalized reply, which has a [textView] field
    when the body's [response] is truthy and is the body itself otherwise.
    In every other case (network failure, other status, a body that is not
    JSON or is [null]) its content is the apology string itself, which is
    not a JSON text of an object. *)
Theorem assistant_message_content (w : World) (s0 : State) (sid : jsstring) :
  refused s0 = false ->
  ensureSession w (currentSessionId s0) = Ok (Some sid) ->
  saveMessage_user w = Ok tt ->
  updateSessionTitle w = Ok tt ->
  saveMessage_reply w = Ok tt ->
  saveMessage_apology w = Ok tt ->
  exists c,
    fst (sendMessage w s0) = Ok tt
    /\ saved (snd (sendMessage w s0))
       = saved s0 ++ [(Str (inputMessage s0), User); (c, Assistant)]
    /\ ((exists resp data reply text,
            fetch w = Ok resp /\ ok resp = true
            /\ JSON.parse (Str (body resp)) = Ok data
            /\ normalizeReply data = Ok reply
            /\ JSON.stringify reply = Some text
            /\ c = Str text
            /\ (truthy (prop data (js "response")) = true ->
                hasField reply (js "textView") = true)
            /\ (truthy (prop data (js "response")) = false -> reply = data))
        \/ (c = Str errorMessage
            /\ (forall props, JSON.stringify (Obj props) <> Some errorMessage)
            /\ exists e,
                fetch w = Throw e
                \/ (exists resp, fetch w = Ok resp /\ ok resp = false)
                \/ (exists resp, fetch w = Ok resp /\ ok resp = true
                      /\ JSON.parse (Str (body resp)) = Throw SyntaxError)
                \/ (exists resp, fetch w = Ok resp /\ ok resp = true
                      /\ JSON.parse (Str (body resp)) = Ok Null))).
Proof.
  intros Hg Hs Hu Ht Hv Ha.
  destruct (replyOf w) as [reply|e] eqn:Hreply.
  - destruct (sendMessage_delivered _ _ Hg Hs Hu Ht Hreply Hv) as [R [S _]].
    exists (stringified reply). split; [exact R|]. split; [exact S|]. left.
    revert Hreply. unfold replyOf.
    destruct (fetch w) as [resp|] eqn:Hf; [|discriminate]. cbn [bind].
    destruct (ok resp) eqn:Ho; [|discriminate]. cbn [bind].
    destruct (JSON.parse (Str (body resp))) as [data|] eqn:Hp; [|discriminate].
    cbn [bind]. intros Hn.
    destruct (stringified_string
                (normalizeReply_defined (parse_defined _ Hp) Hn))
      as [text [E1 E2]].
    exists resp, data, reply, text. repeat (split; [solve [auto]|]).
    assert (Hget : get data (js "response") = Ok (prop data (js "response"))).
    { destruct data; try reflexivity.
      - exfalso. exact (parse_defined _ Hp eq_refl).
      - unfold normalizeReply in Hn. simpl in Hn. discriminate Hn. }
    split.
    + intros Htr. rewrite (normalizeReply_truthy _ Hget Htr) in Hn.
      inversion Hn; subst.
      destruct (JSON.parse (prop data (js "response"))) as [parsed|];
        [|reflexivity].
      destruct (truthy (prop parsed (js "textView"))) eqn:Htv; [|reflexivity].
      apply truthy_prop_hasField; exact Htv.
    + intros Hfa. rewrite (normalizeReply_falsy _ Hget Hfa) in Hn.
      inversion Hn; reflexivity.
  - destruct (@sendMessage_apologizes w s0 sid Hg Hs Hu Ht) as [R [S _]];
      [left; eauto | exact Ha |].
    exists (Str errorMessage). split; [exact R|]. split; [exact S|]. right.
    split; [reflexivity|]. split; [apply apology_is_not_an_object_text|].
    exists e. apply replyOf_throws. exact Hreply.
Qed.

Lemma assistant_message_content_witness :
  exists c,
    saved (snd (sendMessage offline sampleState))
    = [(Str (js "hello"), User); (c, Assistant)]
    /\ c = Str errorMessage.
Proof.
  destruct (@assistant_message_content offline sampleState (js "s1")
              eq_refl eq_refl eq_refl eq_refl eq_refl eq_refl)
    as [c [_ [S _]]].
  exists c. split; [exact S|].
  vm_compute in S. inversion S. reflexivity.
Defined.

(** C3, on the code. The flag is set before the user's message is saved and
    the title is updated, and both calls are awaited outside the [try]
    block: when one of them rejects, the send ends with that exception and
    the flag stays [true]. *)
Theorem flag_stays_set_when_early_await_rejects
        (w : World) (s0 : State) (sid : jsstring) (e : exn) :
  refused s0 = false ->
  ensureSession w (currentSessionId s0) = Ok (Some sid) ->
  saveMessage_user w = Throw e
  \/ (saveMessage_user w = Ok tt
      /\ messages s0 = []
      /\ updateSessionTitle w = Throw e) ->
  fst (sendMessage w s0) = Throw e
  /\ isLoading (snd (sendMessage w s0)) = true.
Proof.
  intros Hg Hs H. unfold sendMessage. rewrite Hg.
  unfold bindM, lift. rewrite Hs. cbn.
  destruct H as [H|[H1 [H2 H3]]].
  - rewrite H. split; reflexivity.
  - rewrite H1, H2, H3. split; reflexivity.
Qed.

Lemma flag_stays_set_when_early_await_rejects_witness :
  fst (sendMessage storageDown sampleState) = Throw (Rejected "saveMessage")
  /\ isLoading (snd (sendMessage storageDown sampleState)) = true.
Proof.
  apply (@flag_stays_set_when_early_await_rejects
           storageDown sampleState (js "s1") (Rejected "saveMessage")).
  - reflexivity.
  - reflexivity.
  - left; reflexivity.
Defined.

End DispatcherFacts.

(** ** The response renderer *)

Module RendererFacts.
Import Dispatcher DispatcherSpec Renderer RendererSpec Samples.

(** The second parse attempt repeats the first parse before it parses
    again, so it raises whenever it is reached. *)
Lemma parseContent_first_parse (c : jsstring) :
  parseContent c
  = match JSON.parse (Str c) with
    | Ok v => Ok v
    | Throw _ => Throw (Error (js "Not valid JSON"))
    end.
Proof.
  unfold parseContent, try_catch, bind.
  destruct (JSON.parse (Str c)); reflexivity.
Qed.

Lemma classify_plain (c : jsstring) (parsed : value) :
  parsed <> Null -> parsed <> Undefined ->
  truthy (prop parsed (js "textView")) = false ->
  truthy (prop parsed (js "response")) = false ->
  classify c parsed = Ok (Str c, Null).
Proof.
  intros H1 H2 Ht Hr. unfold classify.
  assert (G : get parsed (js "textView") = Ok (prop parsed (js "textView")))
    by (destruct parsed; try reflexivity; contradiction).
  rewrite G. cbn [bind]. rewrite Ht, Hr. reflexivity.
Qed.

Lemma classify_total (c : jsstring) (parsed : value) :
  parsed <> Null -> parsed <> Undefined ->
  exists tc, classify c parsed = Ok tc.
Proof.
  intros H1 H2. unfold classify.
  assert (G : get parsed (js "textView") = Ok (prop parsed (js "textView")))
    by (destruct parsed; try reflexivity; contradiction).
  rewrite G. cbn [bind].
  destruct (truthy (prop parsed (js "textView"))); [eauto|].
  destruct (truthy (prop parsed (js "response"))); eauto.
Qed.

Lemma render_of_classified
      (modes : jsstring -> option ViewMode) (m : Message)
      (parsed : value) (tc : value * value) :
  JSON.parse (Str (content m)) = Ok parsed ->
  classify (content m) parsed = Ok tc ->
  renderMessageContent modes m
  = Ok (match modes (id m) with
        | Some dashboard =>
            if truthy (snd tc) then DashboardView (snd tc) else TextView (fst tc)
        | _ => TextView (fst tc)
        end).
Proof.
  intros Hp Hc. unfold renderMessageContent.
  rewrite parseContent_first_parse, Hp. cbn [bind]. rewrite Hc. cbn.
  destruct (modes (id m)) as [[]|]; reflexivity.
Qed.

(** C7. [renderMessageContent] returns an element for every stored message
    and every view mode: it never raises.  When the content is not JSON, or
    is the JSON [null] on which the classification raises, the element is
    the fallback markdown of the raw content; when the parsed value has
    neither a truthy [textView] nor a truthy [response] (a number, a string,
    an array, an unexpected object) the raw content is rendered as text. *)
Theorem renderMessageContent_never_throws
        (modes : jsstring -> option ViewMode) (m : Message) :
  (exists element, renderMessageContent modes m = Ok element)
  /\ (forall e, JSON.parse (Str (content m)) = Throw e ->
                renderMessageContent modes m = Ok (RawFallback (content m)))
  /\ (JSON.parse (Str (content m)) = Ok Null ->
      renderMessageContent modes m = Ok (RawFallback (content m)))
  /\ (forall parsed,
         JSON.parse (Str (content m)) = Ok parsed ->
         parsed <> Null ->
         truthy (prop parsed (js "textView")) = false ->
         truthy (prop parsed (js "response")) = false ->
         renderMessageContent modes m = Ok (TextView (Str (content m)))).
Proof.
  assert (Hfail : forall e, JSON.parse (Str (content m)) = Throw e ->
                  renderMessageContent modes m = Ok (RawFallback (content m))).
  { intros e H. unfold renderMessageContent.
    rewrite parseContent_first_parse, H. reflexivity. }
  assert (Hnull : JSON.parse (Str (content m)) = Ok Null ->
                  renderMessageContent modes m = Ok (RawFallback (content m))).
  { intros H. unfold renderMessageContent.
    rewrite parseContent_first_parse, H. reflexivity. }
  split; [|split; [exact Hfail|split; [exact Hnull|]]].
  - destruct (JSON.parse (Str (content m))) as [parsed|e] eqn:Hp.
    + pose proof (DispatcherFacts.parse_defined _ Hp) as Hu.
      assert (D : parsed = Null \/ parsed <> Null)
        by (destruct parsed; auto; right; discriminate).
      destruct D as [->|Hn].
      * rewrite (Hnull eq_refl). eauto.
      * destruct (classify_total (content m) Hn Hu) as [tc Hc].
        rewrite (render_of_classified modes m Hp Hc). eauto.
    + rewrite (Hfail e eq_refl). eauto.
  - intros parsed Hp Hn Ht Hr.
    pose proof (DispatcherFacts.parse_defined _ Hp) as Hu.
    rewrite (render_of_classified modes m Hp
               (classify_plain (content m) Hn Hu Ht Hr)).
    destruct (modes (id m)) as [[]|]; reflexivity.
Qed.

(** Stored content that is not JSON. *)
Example render_hello_world :
  renderMessageContent (fun _ => Some dashboard)
    (mkMessage (js "m1") Assistant (js "hello world") (js "t"))
  = Ok (RawFallback (js "hello world")).
Proof. vm_compute. reflexivity. Qed.

(** C4, on the code. When the content is a JSON string literal the first
    parse succeeds with the decoded string, the second parse is not
    attempted, and the string is classified as plain content: the text
    rendered is the raw content and no dashboard content is recovered,
    whatever the string holds. *)
Theorem string_content_is_rendered_raw
        (modes : jsstring -> option ViewMode) (m : Message) (inner : jsstring) :
  JSON.parse (Str (content m)) = Ok (Str inner) ->
  parseContent (content m) = Ok (Str inner)
  /\ classify (content m) (Str inner) = Ok (Str (content m), Null)
  /\ renderMessageContent modes m = Ok (TextView (Str (content m))).
Proof.
  intros Hp. split; [|split].
  - rewrite parseContent_first_parse, Hp. reflexivity.
  - reflexivity.
  - rewrite (@render_of_classified modes m (Str inner) (Str (content m), Null)
               Hp eq_refl).
    destruct (modes (id m)) as [[]|]; reflexivity.
Qed.

Lemma string_content_is_rendered_raw_witness :
  JSON.parse (Str (jsq "{'textView':'hi','dashboardView':{}}"))
  = Ok (Obj [(js "textView", Str (js "hi")); (js "dashboardView", Obj [])])
  /\ JSON.parse (Str twiceEncoded)
     = Ok (Str (jsq "{'textView':'hi','dashboardView':{}}"))
  /\ renderMessageContent (fun _ => Some dashboard)
       (mkMessage (js "m1") Assistant twiceEncoded (js "t"))
     = Ok (TextView (Str twiceEncoded)).
Proof.
  split; [vm_compute; reflexivity|]. split; [vm_compute; reflexivity|].
  apply (@string_content_is_rendered_raw
           (fun _ => Some dashboard)
           (mkMessage (js "m1") Assistant twiceEncoded (js "t"))
           (jsq "{'textView':'hi','dashboardView':{}}")).
  vm_compute. reflexivity.
Defined.

(** A reply with a truthy [textView], written by [JSON.stringify], is read
    back by the first parse and classified by the first case. *)
Lemma stringified_reply_is_read_back (reply : value) :
  JSON.isJson reply = true ->
  truthy (prop reply (js "textView")) = true ->
  exists c,
    JSON.stringify reply = Some c
    /\ parseContent c = Ok reply
    /\ classify c reply
       = Ok (prop reply (js "textView"), prop reply (js "dashboardView")).
Proof.
  intros Hj Ht. destruct (JSONFacts.parse_stringify reply Hj) as [c [Hs Hp]].
  exists c. split; [exact Hs|]. split.
  - rewrite parseContent_first_parse, Hp. reflexivity.
  - unfold classify.
    assert (G : get reply (js "textView") = Ok (prop reply (js "textView")))
      by (destruct reply; try reflexivity; discriminate).
    rewrite G. cbn [bind]. rewrite Ht. reflexivity.
Qed.

Lemma prop_isJson (v : value) (k : jsstring) :
  JSON.isJson v = true -> truthy (prop v k) = true ->
  JSON.isJson (prop v k) = true.
Proof.
  destruct v; simpl; try discriminate. intros Hd.
  apply andb_true_iff in Hd. destruct Hd as [Hd _].
  induction props as [|[k' v'] l IH]; simpl; [discriminate|].
  simpl in Hd. apply andb_true_iff in Hd. destruct Hd as [Hv Hl].
  destruct (JsString.eqb k' k); [intros _; exact Hv | apply IH; exact Hl].
Qed.

(** The replies of the dispatcher are JSON values. *)
Lemma normalizeReply_isJson (data reply : value) :
  JSON.isJson data = true ->
  normalizeReply data = Ok reply ->
  JSON.isJson reply = true.
Proof.
  intros Hd Hn.
  assert (Hprop : forall k, truthy (prop data k) = true ->
                            JSON.isJson (prop data k) = true)
    by (intros k; apply prop_isJson; exact Hd).
  assert (Hfb : forall r, truthy r = true -> JSON.isJson r = true ->
                          JSON.isJson (fallbackReply data r) = true).
  { intros r Hr Hjr. unfold fallbackReply, or_else.
    cbn [JSON.isJson forallb snd]. rewrite Hjr.
    destruct (truthy (prop data (js "module_outputs"))) eqn:Hm.
    - rewrite (Hprop _ Hm). reflexivity.
    - reflexivity. }
  destruct (get data (js "response")) as [r|e] eqn:Hr.
  - assert (r = prop data (js "response"))
      by (destruct data; inversion Hr; reflexivity).
    subst r.
    destruct (truthy (prop data (js "response"))) eqn:Ht.
    + rewrite (DispatcherFacts.normalizeReply_truthy _ Hr Ht) in Hn.
      inversion Hn; subst.
      destruct (JSON.parse (prop data (js "response"))) as [parsed|] eqn:Hp.
      * destruct (truthy (prop parsed (js "textView")));
          [exact (JSONFacts.parse_isJson _ Hp) | auto].
      * auto.
    + rewrite (DispatcherFacts.normalizeReply_falsy _ Hr Ht) in Hn.
      inversion Hn; subst. exact Hd.
  - unfold normalizeReply in Hn. rewrite Hr in Hn. discriminate.
Qed.

(** End to end: what the dispatcher saves for a body is read back by the
    renderer whenever the normalized reply has a truthy [textView]. *)
Lemma dispatched_reply_is_read_back (text : jsstring) (data reply : value) :
  JSON.parse (Str text) = Ok data ->
  normalizeReply data = Ok reply ->
  truthy (prop reply (js "textView")) = true ->
  exists c,
    stringified reply = Str c
    /\ parseContent c = Ok reply
    /\ classify c reply
       = Ok (prop reply (js "textView"), prop reply (js "dashboardView")).
Proof.
  intros Hp Hn Ht.
  pose proof (normalizeReply_isJson _ (JSONFacts.parse_isJson _ Hp) Hn) as Hj.
  destruct (stringified_reply_is_read_back _ Hj Ht) as [c [Hs [Hc Hk]]].
  exists c. unfold stringified. rewrite Hs. auto.
Qed.

(** C5, as stated, fails: a reply whose [textView] is the empty string is
    not classified by the first case; the text becomes the raw stored
    content and the dashboard content is [null]. *)
Lemma empty_textView_is_not_read_back :
  JSON.stringify replyWithoutText
  = Some (jsq "{'textView':'','dashboardView':{'alerts':['watch spend']}}")
  /\ parseContent (jsq "{'textView':'','dashboardView':{'alerts':['watch spend']}}")
     = Ok replyWithoutText
  /\ classify (jsq "{'textView':'','dashboardView':{'alerts':['watch spend']}}")
              replyWithoutText
     = Ok (Str (jsq "{'textView':'','dashboardView':{'alerts':['watch spend']}}"),
           Null)
  /\ classify (jsq "{'textView':'','dashboardView':{'alerts':['watch spend']}}")
              replyWithoutText
     <> Ok (prop replyWithoutText (js "textView"),
            prop replyWithoutText (js "dashboardView")).
Proof.
  repeat split; try (vm_compute; reflexivity).
  vm_compute. discriminate.
Qed.

(** C5, amended. For a reply [{textView, dashboardView}] whose [textView]
    is not empty and whose [dashboardView] is a JSON value, the text written
    by [JSON.stringify] is parsed back to the reply, the first case of the
    classification gives [textView] as the text and [dashboardView] as the
    dashboard content, and the message is rendered from these two. *)
Theorem reply_round_trip (textView : jsstring) (dashboardView : value) :
  textView <> [] ->
  JSON.isJson dashboardView = true ->
  exists c,
    JSON.stringify (replyObject textView dashboardView) = Some c
    /\ parseContent c = Ok (replyObject textView dashboardView)
    /\ classify c (replyObject textView dashboardView)
       = Ok (Str textView, dashboardView)
    /\ (forall modes m,
           content m = c ->
           renderMessageContent modes m
           = Ok (match modes (id m) with
                 | Some dashboard =>
                     if truthy dashboardView then DashboardView dashboardView
                     else TextView (Str textView)
                 | _ => TextView (Str textView)
                 end)).
Proof.
  intros Ht Hj.
  assert (Hreply : JSON.isJson (replyObject textView dashboardView) = true)
    by (unfold replyObject; cbn [JSON.isJson forallb snd]; rewrite Hj; reflexivity).
  assert (Htv : truthy (prop (replyObject textView dashboardView) (js "textView"))
                = true)
    by (destruct textView; [contradiction | reflexivity]).
  destruct (stringified_reply_is_read_back _ Hreply Htv) as [c [Hs [Hp Hc]]].
  change (prop (replyObject textView dashboardView) (js "textView"))
    with (Str textView) in Hc.
  change (prop (replyObject textView dashboardView) (js "dashboardView"))
    with dashboardView in Hc.
  exists c. repeat (split; [assumption|]).
  intros modes m Hm. subst c.
  rewrite parseContent_first_parse in Hp.
  destruct (JSON.parse (Str (content m))) as [parsed|] eqn:E; [|discriminate].
  inversion Hp; subst parsed.
  rewrite (render_of_classified modes m E Hc). reflexivity.
Qed.

Lemma reply_round_trip_witness :
  classify (jsq "{'textView':'hi','dashboardView':{'alerts':['watch spend']}}")
           (replyObject (js "hi")
                        (Obj [(js "alerts", Arr [Str (js "watch spend")])]))
  = Ok (Str (js "hi"), Obj [(js "alerts", Arr [Str (js "watch spend")])]).
Proof.
  destruct (@reply_round_trip
              (js "hi") (Obj [(js "alerts", Arr [Str (js "watch spend")])])
              ltac:(discriminate) eq_refl)
    as [c [Hs [_ [Hc _]]]].
  vm_compute in Hs. inversion Hs; subst c. exact Hc.
Defined.

End RendererFacts.

(** * The rest of the two files: properties *)

(** ** The send, step by step *)

Module DispatcherMore.
Import Dispatcher DispatcherSpec Samples MoreSamples Interface.

Lemma trimStart_blank (s : jsstring) :
  Forall (fun c => isWhiteSpace c = true) s -> trimStart s = [].
Proof.
  induction 1 as [|c s Hc _ IH]; simpl; [reflexivity|].
  rewrite Hc. exact IH.
Qed.

Lemma trim_blank (s : jsstring) :
  Forall (fun c => isWhiteSpace c = true) s -> trim s = [].
Proof. intros H. unfold trim. rewrite (trimStart_blank H). reflexivity. Qed.

(** X1. A send with an input made of white space only, or while a send is
    in flight, or without a signed-in user, changes nothing: no message is
    saved, no title is written, the flag and the input are as before, and no
    collaborator is consulted. *)
Theorem refused_send_changes_nothing (w : World) (s0 : State) :
  Forall (fun c => isWhiteSpace c = true) (inputMessage s0)
  \/ isLoading s0 = true
  \/ user s0 = None ->
  sendMessage w s0 = (Ok tt, s0).
Proof.
  intros H. unfold sendMessage.
  assert (R : refused s0 = true).
  { unfold refused. destruct H as [H|[H|H]].
    - rewrite (trim_blank H). reflexivity.
    - rewrite H. apply orb_true_iff. left. apply orb_true_r.
    - rewrite H. apply orb_true_r. }
  rewrite R. reflexivity.
Qed.

Lemma refused_send_changes_nothing_witness :
  sendMessage offline blankState = (Ok tt, blankState).
Proof.
  apply refused_send_changes_nothing. left.
  repeat constructor.
Defined.

(** X2. When there is no current session and the session that is created
    is not usable (null, or an empty id), the send ends without any effect;
    when the creation is rejected, the send ends with that exception, again
    without any effect: in both cases the flag is never set. *)
Theorem unusable_session_aborts (w : World) (s0 : State) :
  refused s0 = false ->
  validSession (currentSessionId s0) = None ->
  (createNewSession w = Ok None \/ createNewSession w = Ok (Some []) ->
   sendMessage w s0 = (Ok tt, s0))
  /\ (forall e, createNewSession w = Throw e ->
                sendMessage w s0 = (Throw e, s0)).
Proof.
  intros Hg Hs. unfold sendMessage, ensureSession, bindM, lift.
  rewrite Hg, Hs. split.
  - intros [H|H]; rewrite H; reflexivity.
  - intros e H. rewrite H. reflexivity.
Qed.

Lemma unusable_session_aborts_witness :
  sendMessage (creating (Ok None)) noSessionState = (Ok tt, noSessionState)
  /\ sendMessage (creating (Throw (Rejected "createNewSession"))) noSessionState
     = (Throw (Rejected "createNewSession"), noSessionState).
Proof.
  split.
  - apply (@unusable_session_aborts (creating (Ok None)) noSessionState
             eq_refl eq_refl).
    left; reflexivity.
  - apply (@unusable_session_aborts
             (creating (Throw (Rejected "createNewSession"))) noSessionState
             eq_refl eq_refl).
    reflexivity.
Defined.

(** X3. A send in a session that exists never asks for a new one: the
    outcome of [createNewSession] has no influence on the send. *)
Theorem existing_session_is_reused
        (s0 : State) (sid : jsstring)
        (c1 c2 : result (option jsstring)) (u t : result unit)
        (f : result Response) (r a : result unit) :
  currentSessionId s0 = Some sid -> sid <> [] ->
  sendMessage (mkWorld c1 u t f r a) s0 = sendMessage (mkWorld c2 u t f r a) s0.
Proof.
  intros Hs Hn. unfold sendMessage, ensureSession, bindM, lift.
  rewrite Hs. destruct sid as [|c sid]; [contradiction|]. reflexivity.
Qed.

Lemma existing_session_is_reused_witness :
  sendMessage (creating (Throw (Rejected "createNewSession"))) sampleState
  = sendMessage (creating (Ok (Some (js "s2")))) sampleState.
Proof.
  apply (@existing_session_is_reused sampleState (js "s1")).
  - reflexivity.
  - discriminate.
Defined.

(** What the [try], [catch] and [finally] blocks do to a state: they leave
    the input, the titles and the session alone, clear the flag, and save
    at most one message, an assistant one. *)
Lemma guarded_request_frame (w : World) (u : jsstring) (s1 : State) :
  let s' := snd (finallyM (catchM (request w u) (fun _ => recover w))
                          (setIsLoading false) s1) in
  inputMessage s' = inputMessage s1
  /\ titled s' = titled s1
  /\ isLoading s' = false
  /\ exists later,
      saved s' = saved s1 ++ later
      /\ (List.length later <= 1)%nat
      /\ Forall (fun p => snd p = Assistant) later.
Proof.
  unfold finallyM, catchM. rewrite DispatcherFacts.request_replyOf.
  unfold recover, bindM, setError, toast, saveMessage, setIsLoading.
  destruct (replyOf w) as [reply|e];
    [destruct (saveMessage_reply w)|];
    try (destruct (saveMessage_apology w)); cbn;
    repeat split;
    first [ solve [exists []; rewrite app_nil_r; repeat split; auto]
          | solve [eexists [_]; repeat split; auto] ].
Qed.

(** The state in which the title is updated or not. *)
Lemma sendMessage_saved_user (w : World) (s0 : State) (sid : jsstring) :
  refused s0 = false ->
  ensureSession w (currentSessionId s0) = Ok (Some sid) ->
  saveMessage_user w = Ok tt ->
  sendMessage w s0
  = ((if Nat.leb (List.length
                    (filter (fun msg =>
                               negb (startsWith (id msg) (js "welcome-")))
                            (messages s0))) 1
      then updateTitle (updateSessionTitle w) sid (inputMessage s0)
      else ret tt) ;;;
     finallyM (catchM (request w (inputMessage s0)) (fun _ => recover w))
              (setIsLoading false))
      (mkState (user s0) (currentSessionId s0) (messages s0) [] true None
               (saved s0 ++ [(Str (inputMessage s0), User)]) (titled s0)
               (toasts s0)).
Proof.
  intros Hg Hs Hu. unfold sendMessage. rewrite Hg.
  unfold bindM at 1. unfold lift at 1. rewrite Hs.
  unfold bindM at 1. unfold setInputMessage at 1.
  unfold bindM at 1. unfold setIsLoading at 1. cbn [isLoading].
  unfold bindM at 1. unfold setError at 1.
  unfold bindM at 1. unfold saveMessage at 1. rewrite Hu.
  reflexivity.
Qed.

(** X4. Once the user's message is saved, every outcome of the send has
    cleared the input and has saved the user's message first, followed by
    at most one message, which is an assistant message: no outcome of the
    title update, the request or the later saves loses the user's message,
    duplicates it or saves two answers. *)
Theorem user_message_is_saved_first (w : World) (s0 : State) (sid : jsstring) :
  refused s0 = false ->
  ensureSession w (currentSessionId s0) = Ok (Some sid) ->
  saveMessage_user w = Ok tt ->
  inputMessage (snd (sendMessage w s0)) = []
  /\ exists later,
      saved (snd (sendMessage w s0))
      = saved s0 ++ (Str (inputMessage s0), User) :: later
      /\ (List.length later <= 1)%nat
      /\ Forall (fun p => snd p = Assistant) later.
Proof.
  intros Hg Hs Hu. rewrite (sendMessage_saved_user w s0 Hg Hs Hu).
  set (s1 := mkState _ _ _ _ _ _ _ _ _).
  assert (Hstop : forall e : exn,
             inputMessage (snd (@pair (result unit) State (Throw e) s1)) = []
             /\ exists later,
                 saved (snd (@pair (result unit) State (Throw e) s1))
                 = saved s0 ++ (Str (inputMessage s0), User) :: later
                 /\ (List.length later <= 1)%nat
                 /\ Forall (fun p => snd p = Assistant) later).
  { intros e. split; [reflexivity|]. exists []. repeat split; auto. }
  assert (Hgo : forall s2 : State,
             inputMessage s2 = [] ->
             saved s2 = saved s0 ++ [(Str (inputMessage s0), User)] ->
             let s' := snd (finallyM (catchM (request w (inputMessage s0))
                                             (fun _ => recover w))
                                     (setIsLoading false) s2) in
             inputMessage s' = []
             /\ exists later,
                 saved s' = saved s0 ++ (Str (inputMessage s0), User) :: later
                 /\ (List.length later <= 1)%nat
                 /\ Forall (fun p => snd p = Assistant) later).
  { intros s2 Hi Hv.
    destruct (guarded_request_frame w (inputMessage s0) s2)
      as [Hin [_ [_ [later [Hl [Hn Hf]]]]]].
    cbv zeta. rewrite Hin, Hl, Hv, Hi. split; [reflexivity|].
    exists later. rewrite <- app_assoc. auto. }
  unfold bindM.
  destruct (Nat.leb _ 1).
  - unfold updateTitle. destruct (updateSessionTitle w) as [[]|e].
    + apply Hgo; reflexivity.
    + apply Hstop.
  - unfold ret. apply Hgo; reflexivity.
Qed.

Lemma user_message_is_saved_first_witness :
  inputMessage (snd (sendMessage allDown sampleState)) = []
  /\ exists later,
      saved (snd (sendMessage allDown sampleState))
      = saved sampleState ++ (Str (inputMessage sampleState), User) :: later
      /\ (List.length later <= 1)%nat
      /\ Forall (fun p => snd p = Assistant) later.
Proof.
  apply (@user_message_is_saved_first allDown sampleState (js "s1"));
    reflexivity.
Defined.

(** X5. The title of the session.  When the message list that the send
    sees holds at most one message whose id does not start with
    [welcome-], the title becomes the text of the input, for the session of
    the send.  When it holds more, no title is set and the outcome of
    [updateSessionTitle] has no influence: the send goes on to the request
    and settles with the flag cleared. *)
Theorem title_follows_the_first_message
        (w : World) (s0 : State) (sid : jsstring) :
  refused s0 = false ->
  ensureSession w (currentSessionId s0) = Ok (Some sid) ->
  saveMessage_user w = Ok tt ->
  let nonWelcomeMessages :=
    filter (fun msg => negb (startsWith (id msg) (js "welcome-")))
           (messages s0) in
  ((List.length nonWelcomeMessages <= 1)%nat ->
   updateSessionTitle w = Ok tt ->
   titled (snd (sendMessage w s0)) = titled s0 ++ [(sid, inputMessage s0)])
  /\ ((1 < List.length nonWelcomeMessages)%nat ->
      titled (snd (sendMessage w s0)) = titled s0
      /\ isLoading (snd (sendMessage w s0)) = false).
Proof.
  intros Hg Hs Hu nonWelcomeMessages.
  rewrite (sendMessage_saved_user w s0 Hg Hs Hu).
  fold nonWelcomeMessages. set (s1 := mkState _ _ _ _ _ _ _ _ _).
  split.
  - intros Hle Ht. apply Nat.leb_le in Hle. rewrite Hle.
    unfold bindM, updateTitle. rewrite Ht.
    match goal with
    | |- titled (snd (finallyM _ _ ?s2)) = _ =>
        destruct (guarded_request_frame w (inputMessage s0) s2)
          as [_ [Ht2 _]]; cbv zeta in Ht2; rewrite Ht2
    end.
    reflexivity.
  - intros Hlt. apply Nat.leb_gt in Hlt. rewrite Hlt.
    unfold bindM, ret.
    destruct (guarded_request_frame w (inputMessage s0) s1)
      as [_ [Ht2 [Hl _]]].
    cbv zeta in Ht2, Hl. rewrite Ht2, Hl. split; reflexivity.
Qed.

Lemma title_follows_the_first_message_witness :
  titled (snd (sendMessage (answering (jsq "{'textView':'hi'}")) sampleState))
  = [(js "s1", js "hello")]
  /\ titled (snd (sendMessage titleDown busyState)) = []
  /\ isLoading (snd (sendMessage titleDown busyState)) = false.
Proof.
  split.
  - apply (@title_follows_the_first_message
             (answering (jsq "{'textView':'hi'}")) sampleState (js "s1")
             eq_refl eq_refl eq_refl).
    + simpl. lia.
    + reflexivity.
  - apply (@title_follows_the_first_message titleDown busyState (js "s1")
             eq_refl eq_refl eq_refl).
    vm_compute. lia.
Defined.

(** X6. The outcomes of a send that has reached the request.  The flag is
    cleared in each of them.  When the reply is computed and saved, the
    send ends normally, with no error banner and no new toast.  In every
    other case (the request, the parse or the normalization raises, or the
    save of the reply is rejected) the error banner is set and one toast is
    shown, also when the apology cannot be saved; the send then ends as the
    save of the apology ends, so the only exception that escapes is a
    rejection of that save. *)
Theorem only_a_rejected_apology_escapes
        (w : World) (s0 : State) (sid : jsstring) :
  refused s0 = false ->
  ensureSession w (currentSessionId s0) = Ok (Some sid) ->
  saveMessage_user w = Ok tt ->
  updateSessionTitle w = Ok tt ->
  isLoading (snd (sendMessage w s0)) = false
  /\ ((exists reply, replyOf w = Ok reply) /\ saveMessage_reply w = Ok tt ->
      fst (sendMessage w s0) = Ok tt
      /\ error (snd (sendMessage w s0)) = None
      /\ toasts (snd (sendMessage w s0)) = toasts s0)
  /\ ((exists e, replyOf w = Throw e) \/ (exists e, saveMessage_reply w = Throw e) ->
      fst (sendMessage w s0) = saveMessage_apology w
      /\ error (snd (sendMessage w s0))
         = Some (js "Failed to send message. Please check your connection and try again.")
      /\ toasts (snd (sendMessage w s0)) = toasts s0 ++ [js "Connection Error"]).
Proof.
  intros Hg Hs Hu Ht.
  rewrite (DispatcherFacts.sendMessage_started w s0 Hg Hs Hu Ht).
  split; [apply DispatcherFacts.finally_clears_flag|].
  unfold finallyM, catchM. rewrite DispatcherFacts.request_replyOf.
  unfold recover, bindM, setError, toast, saveMessage, setIsLoading.
  split.
  - intros [[reply Hr] Hv]. rewrite Hr, Hv. cbn. auto.
  - intros Hf.
    assert (E : match replyOf w with
                | Ok reply =>
                    match saveMessage_reply w with
                    | Ok _ => false
                    | Throw _ => true
                    end
                | Throw _ => true
                end = true).
    { destruct Hf as [[e He]|[e He]]; rewrite He; [reflexivity|].
      destruct (replyOf w); reflexivity. }
    destruct (replyOf w) as [reply|e1];
      [destruct (saveMessage_reply w) as [[]|e2]; [discriminate|]|];
      destruct (saveMessage_apology w) as [[]|e3]; cbn; auto.
Qed.

Lemma only_a_rejected_apology_escapes_witness :
  isLoading (snd (sendMessage allDown sampleState)) = false
  /\ fst (sendMessage allDown sampleState) = Throw (Rejected "saveMessage")
  /\ toasts (snd (sendMessage allDown sampleState)) = [js "Connection Error"].
Proof.
  destruct (@only_a_rejected_apology_escapes allDown sampleState (js "s1")
              eq_refl eq_refl eq_refl eq_refl) as [Hl [_ Hf]].
  destruct Hf as [Hr [_ Ho]].
  - left. exists (Rejected "fetch"). reflexivity.
  - split; [exact Hl|]. split; [exact Hr | exact Ho].
Defined.

(** X7. The failures of the request are not told apart: a response with a
    status outside 2xx (whose body is never read), a rejected [fetch], a
    body that is not JSON and a body on which the normalization raises all
    leave the same state and the same result, whatever the rest of the
    world and the state are. *)
Theorem request_failures_are_not_told_apart
        (s0 : State) (c : result (option jsstring)) (u t : result unit)
        (f1 f2 : result Response) (r a : result unit) (e1 e2 : exn) :
  replyOf (mkWorld c u t f1 r a) = Throw e1 ->
  replyOf (mkWorld c u t f2 r a) = Throw e2 ->
  sendMessage (mkWorld c u t f1 r a) s0 = sendMessage (mkWorld c u t f2 r a) s0.
Proof.
  intros H1 H2.
  set (w1 := mkWorld c u t f1 r a) in *. set (w2 := mkWorld c u t f2 r a) in *.
  assert (G : forall s,
             finallyM (catchM (request w1 (inputMessage s0))
                              (fun _ => recover w1))
                      (setIsLoading false) s
             = finallyM (catchM (request w2 (inputMessage s0))
                                (fun _ => recover w2))
                        (setIsLoading false) s).
  { intros s. unfold finallyM, catchM.
    rewrite !DispatcherFacts.request_replyOf, H1, H2. reflexivity. }
  destruct (refused s0) eqn:Hg;
    [unfold sendMessage; rewrite Hg; reflexivity|].
  assert (Hs2 : ensureSession w2 (currentSessionId s0)
                = ensureSession w1 (currentSessionId s0)) by reflexivity.
  destruct (ensureSession w1 (currentSessionId s0)) as [[sid|]|e] eqn:Hs1;
    try (unfold sendMessage, bindM, lift; rewrite Hg, Hs1, Hs2; reflexivity).
  destruct u as [[]|eu].
  - rewrite (sendMessage_saved_user w1 s0 Hg Hs1 eq_refl),
            (sendMessage_saved_user w2 s0 Hg Hs2 eq_refl).
    unfold bindM. cbn [updateSessionTitle w1 w2].
    destruct (Nat.leb _ 1).
    + unfold updateTitle. destruct t as [[]|et]; [apply G | reflexivity].
    + apply G.
  - unfold sendMessage, bindM, lift. rewrite Hg, Hs1, Hs2. reflexivity.
Qed.

Lemma request_failures_are_not_told_apart_witness :
  sendMessage failing500 sampleState = sendMessage offline sampleState.
Proof.
  apply (@request_failures_are_not_told_apart
           sampleState (Ok None) (Ok tt) (Ok tt)
           (Ok (mkResponse false 500 (jsq "{'textView':'hi'}")))
           (Throw (Rejected "fetch")) (Ok tt) (Ok tt)
           (Error (js "HTTP error! status: 500")) (Rejected "fetch"));
    reflexivity.
Defined.

End DispatcherMore.

(** ** From the stored content to the element *)

Module RendererMore.
Import Dispatcher DispatcherSpec Renderer RendererSpec Samples Interface ViewSpec.

Lemma render_selected
      (modes : jsstring -> option ViewMode) (m : Message)
      (parsed : value) (tc : value * value) :
  JSON.parse (Str (content m)) = Ok parsed ->
  classify (content m) parsed = Ok tc ->
  renderMessageContent modes m
  = Ok (selected (viewModeOf modes (id m)) (fst tc) (snd tc)).
Proof.
  intros Hp Hc. rewrite (RendererFacts.render_of_classified modes m Hp Hc).
  unfold selected, viewModeOf. destruct (modes (id m)) as [[]|]; reflexivity.
Qed.

(** The element depends on the modes through the mode of the message. *)
Lemma render_by_mode (modes1 modes2 : jsstring -> option ViewMode)
      (m : Message) :
  viewModeOf modes1 (id m) = viewModeOf modes2 (id m) ->
  renderMessageContent modes1 m = renderMessageContent modes2 m.
Proof.
  unfold viewModeOf, renderMessageContent. intros H. rewrite H. reflexivity.
Qed.

(** X8. A dashboard is rendered only on request: when the element is the
    dashboard component, the mode of the message is 'dashboard' and the
    content handed to the component is truthy.  A message without a mode,
    or in text mode, never shows a dashboard. *)
Theorem dashboard_only_on_request
        (modes : jsstring -> option ViewMode) (m : Message) (d : value) :
  renderMessageContent modes m = Ok (DashboardView d) ->
  modes (id m) = Some dashboard /\ truthy d = true.
Proof.
  unfold renderMessageContent, try_catch, bind.
  destruct (parseContent (content m)) as [parsed|]; [|discriminate].
  destruct (classify (content m) parsed) as [[t c]|]; [|discriminate].
  cbn [fst snd].
  destruct (modes (id m)) as [[]|]; try discriminate.
  destruct (truthy c) eqn:E; [|discriminate].
  intros H. inversion H; subst. auto.
Qed.

Lemma dashboard_only_on_request_witness :
  (fun _ : jsstring => Some dashboard) (id storedReply) = Some dashboard
  /\ truthy (Obj [(js "alerts", Arr [Str (js "watch spend")])]) = true.
Proof.
  apply (@dashboard_only_on_request (fun _ => Some dashboard) storedReply).
  vm_compute. reflexivity.
Defined.

Lemma replyOf_inv (w : World) (reply : value) :
  replyOf w = Ok reply ->
  exists resp data,
    fetch w = Ok resp /\ ok resp = true
    /\ JSON.parse (Str (body resp)) = Ok data
    /\ normalizeReply data = Ok reply.
Proof.
  unfold replyOf, bind.
  destruct (fetch w) as [resp|]; [|discriminate].
  destruct (ok resp) eqn:Ho; [|discriminate].
  destruct (JSON.parse (Str (body resp))) as [data|] eqn:Hp; [|discriminate].
  intros H. exists resp, data. auto.
Qed.

(** What is rendered from the text saved for a normalized reply with a
    truthy [textView]. *)
Lemma normalized_reply_is_rendered
      (text : jsstring) (data reply : value)
      (modes : jsstring -> option ViewMode) (m : Message) :
  JSON.parse (Str text) = Ok data ->
  normalizeReply data = Ok reply ->
  truthy (prop reply (js "textView")) = true ->
  stringified reply = Str (content m) ->
  renderMessageContent modes m
  = Ok (selected (viewModeOf modes (id m))
                 (prop reply (js "textView"))
                 (prop reply (js "dashboardView"))).
Proof.
  intros Hp Hn Ht Hs.
  destruct (RendererFacts.dispatched_reply_is_read_back text Hp Hn Ht)
    as [c [Hc [Hpc Hk]]].
  rewrite Hs in Hc. inversion Hc; subst c.
  rewrite RendererFacts.parseContent_first_parse in Hpc.
  destruct (JSON.parse (Str (content m))) as [parsed|] eqn:E; [|discriminate].
  inversion Hpc; subst parsed.
  rewrite (render_selected modes m E Hk). reflexivity.
Qed.

(** X9. From the request to the screen, for numbers in the binary64
    range.  When the body of a response with a 2xx status parses to a value
    whose numbers are all in range, and the reply normalized from it has
    numbers in range only and a truthy [textView], the [try] block computes
    that reply, and the text that the dispatcher saves for it is parsed by
    the renderer at the first attempt and falls in its first case: text
    mode shows the reply's [textView], dashboard mode the reply's
    [dashboardView] when that is truthy and the [textView] otherwise.  The
    raw-content fallback is never taken.  (A number out of range is
    another matter: an overflowing [textView] is an infinity, which is
    saved as [null].) *)
Theorem delivered_reply_is_rendered
        (w : World) (resp : Response) (data reply : value)
        (modes : jsstring -> option ViewMode) (m : Message) :
  fetch w = Ok resp ->
  ok resp = true ->
  JSON.parse (Str (body resp)) = Ok data ->
  Binary64.allInRange data = true ->
  normalizeReply data = Ok reply ->
  Binary64.allInRange reply = true ->
  truthy (prop reply (js "textView")) = true ->
  stringified reply = Str (content m) ->
  replyOf w = Ok reply
  /\ renderMessageContent modes m
     = Ok (selected (viewModeOf modes (id m))
                    (prop reply (js "textView"))
                    (prop reply (js "dashboardView"))).
Proof.
  intros Hf Ho Hp _ Hn _ Ht Hs. split.
  - rewrite (DispatcherFacts.replyOf_ok w Hf Ho Hp). exact Hn.
  - exact (@normalized_reply_is_rendered _ _ _ modes m Hp Hn Ht Hs).
Qed.

Lemma delivered_reply_is_rendered_witness :
  renderMessageContent (fun _ => Some dashboard) storedTotal
  = Ok (DashboardView (Obj [(js "alerts", Arr [Str (js "watch spend")]);
                            (js "total", Num (normal false [1%N; 5%N] (-1)))])).
Proof.
  apply (@delivered_reply_is_rendered
           (answering (jsq "{'response':'{\'textView\':\'hi\',\'dashboardView\':{\'alerts\':[\'watch spend\'],\'total\':1.5}}','calls':3}"))
           (mkResponse true 200
              (jsq "{'response':'{\'textView\':\'hi\',\'dashboardView\':{\'alerts\':[\'watch spend\'],\'total\':1.5}}','calls':3}"))
           (Obj [(js "response",
                  Str (jsq "{'textView':'hi','dashboardView':{'alerts':['watch spend'],'total':1.5}}"));
                 (js "calls", Num (normal false [3%N] 0))])
           (replyObject (js "hi")
                        (Obj [(js "alerts", Arr [Str (js "watch spend")]);
                              (js "total", Num (normal false [1%N; 5%N] (-1)))]))
           (fun _ => Some dashboard) storedTotal);
    vm_compute; reflexivity.
Defined.

(** The properties of a value in range are in range. *)
Lemma prop_allInRange (v : value) (k : jsstring) :
  Binary64.allInRange v = true -> Binary64.allInRange (prop v k) = true.
Proof.
  destruct v; simpl; try reflexivity. intros H.
  induction props as [|[k' v'] l IH]; simpl; [reflexivity|].
  simpl in H. apply andb_true_iff in H. destruct H as [Hv Hl].
  destruct (JsString.eqb k' k); [exact Hv | apply IH; exact Hl].
Qed.

Lemma truthy_or_else_object (v : value) : truthy (or_else v (Obj [])) = true.
Proof. unfold or_else. destruct (truthy v) eqn:E; [exact E | reflexivity]. Qed.

(** X10. A body of the old format, with numbers in the binary64 range
    only, whose [response] is a text that is not the JSON of a reply.  The
    dispatcher saves the fallback reply, and the renderer shows the text of
    [response] in text mode and, in dashboard mode, always the dashboard
    component: on [module_outputs] when that is truthy, and on the empty
    object otherwise, since an empty object is truthy.  (For a
    [module_outputs] that overflows, an infinity, the saved [dashboardView]
    is [null] and the text is shown in both modes.) *)
Theorem text_answer_from_body_to_screen
        (text r : jsstring) (data : value) :
  JSON.parse (Str text) = Ok data ->
  Binary64.allInRange data = true ->
  prop data (js "response") = Str r ->
  r <> [] ->
  (forall inner, JSON.parse (Str r) = Ok inner ->
                 truthy (prop inner (js "textView")) = false) ->
  normalizeReply data = Ok (fallbackReply data (Str r))
  /\ Binary64.allInRange (fallbackReply data (Str r)) = true
  /\ forall modes m,
      stringified (fallbackReply data (Str r)) = Str (content m) ->
      renderMessageContent modes m
      = Ok (match viewModeOf modes (id m) with
            | dashboard =>
                DashboardView (or_else (prop data (js "module_outputs")) (Obj []))
            | text => TextView (Str r)
            end).
Proof.
  intros Hp Hb Hr Hne Hin.
  assert (Hg : get data (js "response") = Ok (Str r)).
  { destruct data; simpl in Hr; try discriminate. unfold get. simpl.
    rewrite Hr. reflexivity. }
  assert (Ht : truthy (Str r) = true) by (destruct r; [contradiction|reflexivity]).
  assert (Hn : normalizeReply data = Ok (fallbackReply data (Str r))).
  { rewrite (DispatcherFacts.normalizeReply_truthy _ Hg Ht).
    destruct (JSON.parse (Str r)) as [inner|] eqn:E; [|reflexivity].
    rewrite (Hin inner eq_refl). reflexivity. }
  split; [exact Hn|]. split.
  - unfold fallbackReply, or_else. cbn [Binary64.allInRange forallb snd].
    destruct (truthy (prop data (js "module_outputs"))); [|reflexivity].
    rewrite (prop_allInRange data (js "module_outputs") Hb). reflexivity.
  - intros modes m Hs.
    rewrite (@normalized_reply_is_rendered text data _ modes m Hp Hn Ht Hs).
    change (prop (fallbackReply data (Str r)) (js "textView")) with (Str r).
    change (prop (fallbackReply data (Str r)) (js "dashboardView"))
      with (or_else (prop data (js "module_outputs")) (Obj [])).
    unfold selected. rewrite truthy_or_else_object. reflexivity.
Qed.

Lemma text_answer_from_body_to_screen_witness :
  renderMessageContent (fun _ => Some dashboard)
    (mkMessage (js "m3") Assistant
               (jsq "{'textView':'plain text','dashboardView':{}}") (js "t"))
  = Ok (DashboardView (Obj [])).
Proof.
  destruct (@text_answer_from_body_to_screen
              (jsq "{'response':'plain text'}") (js "plain text")
              (Obj [(js "response", Str (js "plain text"))])) as [_ [_ H]].
  - vm_compute. reflexivity.
  - reflexivity.
  - reflexivity.
  - discriminate.
  - intros inner Hi. vm_compute in Hi. discriminate Hi.
  - apply (H (fun _ => Some dashboard)
             (mkMessage (js "m3") Assistant
                        (jsq "{'textView':'plain text','dashboardView':{}}")
                        (js "t"))).
    vm_compute. reflexivity.
Defined.

(** X11. Stored content of the old format: a parsed object without a
    truthy [textView] and with a truthy [response].  When [response] is
    the JSON of an object with a truthy [textView], that [textView] is the
    text; the dashboard content is the embedded [dashboardView] when it is
    truthy and [module_outputs] when only that is truthy.  In every other
    case ([response] is not JSON, or its JSON has no truthy [textView], or
    is [null]) the text is [response] and the dashboard content is
    [module_outputs] when it is truthy, and [null] otherwise, so that the
    text is shown in both modes. *)
Theorem legacy_content_is_rendered
        (modes : jsstring -> option ViewMode) (m : Message) (parsed : value) :
  JSON.parse (Str (content m)) = Ok parsed ->
  truthy (prop parsed (js "textView")) = false ->
  truthy (prop parsed (js "response")) = true ->
  let response := prop parsed (js "response") in
  let module_outputs := prop parsed (js "module_outputs") in
  (forall responseJson,
      JSON.parse response = Ok responseJson ->
      truthy (prop responseJson (js "textView")) = true ->
      renderMessageContent modes m
      = Ok (selected (viewModeOf modes (id m))
                     (prop responseJson (js "textView"))
                     (if truthy (prop responseJson (js "dashboardView"))
                      then prop responseJson (js "dashboardView")
                      else or_else module_outputs
                                   (prop responseJson (js "dashboardView")))))
  /\ ((forall responseJson,
          JSON.parse response = Ok responseJson ->
          truthy (prop responseJson (js "textView")) = false) ->
      renderMessageContent modes m
      = Ok (selected (viewModeOf modes (id m)) response
                     (or_else module_outputs Null))).
Proof.
  intros Hp Ht Hr response module_outputs.
  assert (Hg : get parsed (js "textView") = Ok (prop parsed (js "textView"))).
  { destruct parsed; try reflexivity; discriminate Hr. }
  split.
  - intros responseJson Hj Hi.
    assert (Hgi : get responseJson (js "textView")
                  = Ok (prop responseJson (js "textView"))).
    { destruct responseJson; try reflexivity; discriminate Hi. }
    rewrite (@render_selected modes m parsed
               (prop responseJson (js "textView"),
                if truthy (prop responseJson (js "dashboardView"))
                then prop responseJson (js "dashboardView")
                else or_else module_outputs
                             (prop responseJson (js "dashboardView"))) Hp);
      [reflexivity|].
    unfold classify. rewrite Hg. cbn [bind]. rewrite Ht, Hr.
    fold response. rewrite Hj. cbn [bind]. rewrite Hgi. cbn [bind].
    rewrite Hi. cbn [fst snd]. fold module_outputs. unfold or_else.
    destruct (truthy (prop responseJson (js "dashboardView")));
      destruct (truthy module_outputs); reflexivity.
  - intros Hno.
    rewrite (@render_selected modes m parsed
               (response, or_else module_outputs Null) Hp);
      [reflexivity|].
    unfold classify. rewrite Hg. cbn [bind]. rewrite Ht, Hr.
    fold response. fold module_outputs.
    assert (E : match (responseJson <- JSON.parse response ;;
                       inner <- get responseJson (js "textView") ;;
                       Ok (responseJson, inner)) with
                | Ok (responseJson, inner) =>
                    if truthy inner
                    then (inner, prop responseJson (js "dashboardView"))
                    else (response, Null)
                | Throw _ => (response, Null)
                end = (response, Null)).
    { destruct (JSON.parse response) as [responseJson|] eqn:Hj; [|reflexivity].
      cbn [bind]. pose proof (Hno responseJson eq_refl) as Hf.
      destruct responseJson; try reflexivity;
        unfold get; cbn [bind]; rewrite Hf; reflexivity. }
    rewrite E. cbn [fst snd negb andb truthy]. unfold or_else.
    destruct (truthy module_outputs); reflexivity.
Qed.

Lemma legacy_content_is_rendered_witness :
  renderMessageContent (fun _ => Some dashboard) storedLegacy
  = Ok (DashboardView (Obj [(js "alerts", Arr [Str (js "watch spend")])])).
Proof.
  destruct (@legacy_content_is_rendered
              (fun _ => Some dashboard) storedLegacy
              (Obj [(js "response", Str (js "plain text"));
                    (js "module_outputs",
                     Obj [(js "alerts", Arr [Str (js "watch spend")])])]))
    as [_ H].
  - vm_compute. reflexivity.
  - reflexivity.
  - reflexivity.
  - apply H. intros responseJson Hj. vm_compute in Hj. discriminate Hj.
Defined.

End RendererMore.

Module InterfaceFacts.
Import Dispatcher Renderer Interface ViewSpec.

Lemma viewModeOf_toggle (x : jsstring) (modes : jsstring -> option ViewMode)
      (k : jsstring) :
  viewModeOf (toggleMessageView x modes) k
  = if JsString.eqb k x
    then match viewModeOf modes x with dashboard => text | text => dashboard end
    else viewModeOf modes k.
Proof.
  unfold viewModeOf, toggleMessageView.
  destruct (JsString.eqb k x); [|reflexivity].
  destruct (modes x) as [[]|]; reflexivity.
Qed.

(** X12. Toggling the view of a message twice gives back, for every
    message, the element that was rendered before, also when the message
    had no entry in the modes at first. *)
Theorem toggle_twice_restores_the_rendering
        (x : jsstring) (modes : jsstring -> option ViewMode) (m : Message) :
  renderMessageContent (toggleMessageView x (toggleMessageView x modes)) m
  = renderMessageContent modes m.
Proof.
  apply RendererMore.render_by_mode.
  rewrite !viewModeOf_toggle, jseqb_refl.
  destruct (JsString.eqb (id m) x) eqn:E; [|reflexivity].
  apply jseqb_eq in E. rewrite E.
  destruct (viewModeOf modes x); reflexivity.
Qed.

(** X13. Toggling the view of one message flips the state of its toggle
    button and changes nothing for any other message: neither the button
    nor the element rendered. *)
Theorem toggle_touches_one_message
        (x : jsstring) (modes : jsstring -> option ViewMode) :
  togglePressed (toggleMessageView x modes) x = negb (togglePressed modes x)
  /\ forall m : Message,
      id m <> x ->
      togglePressed (toggleMessageView x modes) (id m)
      = togglePressed modes (id m)
      /\ renderMessageContent (toggleMessageView x modes) m
         = renderMessageContent modes m.
Proof.
  split.
  - unfold togglePressed, toggleMessageView. rewrite jseqb_refl.
    destruct (modes x) as [[]|]; reflexivity.
  - intros m Hm. apply jseqb_neq in Hm. split.
    + unfold togglePressed, toggleMessageView. rewrite Hm. reflexivity.
    + apply RendererMore.render_by_mode.
      rewrite viewModeOf_toggle, Hm. reflexivity.
Qed.

Lemma jseqb_sym (a b : jsstring) : JsString.eqb a b = JsString.eqb b a.
Proof.
  destruct (JsString.eqb b a) eqn:E.
  - apply jseqb_eq in E. subst. apply jseqb_refl.
  - apply jseqb_neq. apply jseqb_neq in E. congruence.
Qed.

Lemma Set_has_delete (s : list jsstring) (x y : jsstring) :
  Set_has (Set_delete s x) y
  = if JsString.eqb y x then false else Set_has s y.
Proof.
  unfold Set_has, Set_delete.
  induction s as [|z s IH]; simpl.
  - destruct (JsString.eqb y x); reflexivity.
  - destruct (JsString.eqb x z) eqn:Exz; simpl.
    + rewrite IH. apply jseqb_eq in Exz. subst z.
      destruct (JsString.eqb y x); reflexivity.
    + rewrite IH. destruct (JsString.eqb y x) eqn:Eyx; [|reflexivity].
      apply jseqb_eq in Eyx. subst y. rewrite Exz. reflexivity.
Qed.

Lemma Set_has_In (s : list jsstring) (x : jsstring) :
  Set_has s x = true <-> In x s.
Proof.
  unfold Set_has. rewrite existsb_exists. split.
  - intros [y [Hy E]]. apply jseqb_eq in E. subst. exact Hy.
  - intros H. exists x. split; [exact H | apply jseqb_refl].
Qed.

(** X14. Toggling the selection of a message flips whether that message
    is selected and leaves the selection of every other message as it was;
    the set keeps holding each id once. *)
Theorem selection_toggle_flips_one_message
        (x : jsstring) (selectedMessages : list jsstring) :
  (forall y,
      Set_has (handleMessageToggle x selectedMessages) y
      = if JsString.eqb y x then negb (Set_has selectedMessages x)
        else Set_has selectedMessages y)
  /\ (NoDup selectedMessages ->
      NoDup (handleMessageToggle x selectedMessages)).
Proof.
  unfold handleMessageToggle. cbv zeta. split.
  - intros y. destruct (Set_has selectedMessages x) eqn:Hx.
    + rewrite Set_has_delete. reflexivity.
    + unfold Set_add. rewrite Hx. unfold Set_has in *.
      rewrite existsb_app. simpl. rewrite orb_false_r.
      destruct (JsString.eqb y x) eqn:E.
      * apply jseqb_eq in E. subst y. rewrite Hx. reflexivity.
      * apply orb_false_r.
  - intros Hn. destruct (Set_has selectedMessages x) eqn:Hx.
    + unfold Set_delete. apply NoDup_filter. exact Hn.
    + unfold Set_add. rewrite Hx.
      apply NoDup_app; [exact Hn | repeat constructor; simpl; tauto |].
      intros a Ha [<-|[]].
      apply Set_has_In in Ha. congruence.
Qed.

End InterfaceFacts.

(** ** The dashboard component *)

Module DashboardBodyFacts.
Import Dashboard DashboardBody DashboardSchema Samples.

(** X15. The cells of a pie chart: one fill per point, the fill of the
    point of index [i] being the colour of index [i mod 8] of the palette,
    which exists; so the fills repeat with period 8. *)
Theorem pie_cells_cycle_the_palette (transformedData : list value) :
  List.length (cellFills transformedData) = List.length transformedData
  /\ forall i,
      (i < List.length transformedData)%nat ->
      nth_error (cellFills transformedData) i = Some (cellFill i)
      /\ (exists c, cellFill i = Str c
                    /\ nth_error COLORS (Nat.modulo i 8) = Some c)
      /\ cellFill (i + 8) = cellFill i.
Proof.
  unfold cellFills, mapi. split; [apply mapi_from_length|].
  intros i Hi. split; [|split].
  - rewrite mapi_from_nth.
    destruct (nth_error transformedData i) eqn:E; [reflexivity|].
    apply nth_error_None in E. lia.
  - unfold cellFill. change (List.length COLORS) with 8%nat.
    assert (Hm : (Nat.modulo i 8 < List.length COLORS)%nat)
      by (change (List.length COLORS) with 8%nat;
          apply Nat.mod_upper_bound; discriminate).
    destruct (nth_error COLORS (Nat.modulo i 8)) as [c|] eqn:E.
    + exists c. auto.
    + apply nth_error_None in E. lia.
  - unfold cellFill. change (List.length COLORS) with 8%nat.
    replace (i + 8)%nat with (i + 1 * 8)%nat by lia.
    rewrite Nat.Div0.mod_add. reflexivity.
Qed.

(** X16. The card of a chart that has points: its data are the
    transformed points; it is a pie chart exactly when [type] is the string
    'pie', so that every other type, 'line' included, and an absent type
    give the bar chart; its title is [title] when that is truthy and
    'Chart' otherwise. *)
Theorem chart_card_kind_and_title (chart data : value) :
  get chart (js "data") = Ok data ->
  transformChartData data <> [] ->
  exists card,
    renderChart chart = Ok (Some card)
    /\ cardData card = transformChartData data
    /\ (cardIsPie card = true <-> prop chart (js "type") = Str (js "pie"))
    /\ cardTitle card
       = (if truthy (prop chart (js "title")) then prop chart (js "title")
          else Str (js "Chart")).
Proof.
  intros Hd Hne. unfold renderChart. rewrite Hd. cbn [bind].
  destruct (transformChartData data) as [|p ps] eqn:E; [contradiction|].
  cbn [List.length Nat.eqb]. eexists. split; [reflexivity|].
  cbn [cardData cardIsPie cardTitle]. split; [reflexivity|]. split.
  - apply DashboardFacts.strictEqStr_true.
  - reflexivity.
Qed.

Lemma chart_card_kind_and_title_witness :
  exists card,
    renderChart lineChart = Ok (Some card)
    /\ cardIsPie card = false
    /\ cardTitle card = Str (js "Chart").
Proof.
  destruct (@chart_card_kind_and_title
              lineChart (prop lineChart (js "data")) eq_refl)
    as [card [Hr [_ [Hp Ht]]]].
  - vm_compute. discriminate.
  - exists card. split; [exact Hr|]. split; [|exact Ht].
    destruct (cardIsPie card); [|reflexivity].
    destruct Hp as [Hp _]. specialize (Hp eq_refl). discriminate Hp.
Defined.

(** [map] with callbacks that return. *)
Lemma mapM_ok {A B} (f : A -> result B) (l : list A) :
  Forall (fun x => exists y, f x = Ok y) l ->
  exists ys, mapM f l = Ok ys /\ List.length ys = List.length l.
Proof.
  induction 1 as [|x l [y Hy] _ [ys [Hys Hl]]]; simpl.
  - exists []. auto.
  - rewrite Hy, Hys. cbn [bind]. exists (y :: ys). simpl. auto.
Qed.

Lemma mapM_inv {A B} (f : A -> result B) (l : list A) (ys : list B) :
  mapM f l = Ok ys -> Forall (fun x => exists y, f x = Ok y) l.
Proof.
  revert ys. induction l as [|x l IH]; simpl; intros ys H; [constructor|].
  destruct (f x) as [y|] eqn:Hy; [|discriminate].
  cbn [bind] in H.
  destruct (mapM f l) as [ys'|] eqn:Hm; [|discriminate].
  constructor; [eauto | eapply IH; reflexivity].
Qed.

Lemma mapM_id (l : list value) : mapM (fun x => Ok x) l = Ok l.
Proof.
  induction l as [|x l IH]; simpl; [reflexivity|].
  rewrite IH. reflexivity.
Qed.

Lemma mapM_throws {A B} (f : A -> result B) (l : list A) (e : exn) :
  (forall x e', f x = Throw e' -> e' = TypeError) ->
  mapM f l = Throw e -> e = TypeError.
Proof.
  intros Hf. induction l as [|x l IH]; simpl; [discriminate|].
  destruct (f x) as [y|e'] eqn:Hy; cbn [bind].
  - destruct (mapM f l) as [ys|e''] eqn:Hm; cbn [bind]; [discriminate|].
    intros H. inversion H; subst. apply IH. reflexivity.
  - intros H. inversion H; subst. eapply Hf; eauto.
Qed.

Lemma mapM_rows (rows : list (list value)) :
  mapM (fun row => Array_map row (fun cell => Ok cell)) (List.map Arr rows)
  = Ok rows.
Proof.
  induction rows as [|r rows IH]; simpl; [reflexivity|].
  rewrite mapM_id. cbn [bind]. rewrite IH. reflexivity.
Qed.

(** X17. The rows of a table are rendered cell by cell as they are: for a
    table whose [headers] is an array and whose [rows] is an array of
    arrays, the head holds the headers and the body holds, for each row,
    exactly the cells of that row, whatever the number of headers is; the
    title is shown when it is truthy. *)
Theorem table_rows_keep_their_cells
        (table : value) (headers : list value) (rows : list (list value)) :
  prop table (js "headers") = Arr headers ->
  prop table (js "rows") = Arr (List.map Arr rows) ->
  renderTable table
  = Ok (mkTableView
          (if truthy (prop table (js "title"))
           then Shown (prop table (js "title"))
           else Leaked (prop table (js "title")))
          headers rows).
Proof.
  intros Hh Hr. unfold renderTable.
  assert (Hg : get table (js "title") = Ok (prop table (js "title")))
    by (destruct table; try reflexivity; discriminate Hh).
  rewrite Hg, Hh, Hr. cbn [bind Array_map].
  rewrite mapM_id. cbn [bind]. rewrite mapM_rows. reflexivity.
Qed.

Lemma table_rows_keep_their_cells_witness :
  option_map (fun t => List.map (@List.length value) (tableBody t))
             (match renderTable sampleTable with
              | Ok t => Some t
              | Throw _ => None
              end)
  = Some [1%nat; 3%nat].
Proof.
  rewrite (@table_rows_keep_their_cells
             sampleTable [Str (js "h1"); Str (js "h2")]
             [[Str (js "x")]; [Str (js "p"); Str (js "q"); Str (js "r")]]
             eq_refl eq_refl).
  reflexivity.
Defined.

Lemma renderSummaryCard_object (props : list (jsstring * value)) :
  exists card, renderSummaryCard (Obj props) = Ok card.
Proof. unfold renderSummaryCard, get. cbn [bind]. eauto. Qed.

Lemma renderChart_object (props : list (jsstring * value)) :
  exists card, renderChart (Obj props) = Ok card.
Proof.
  unfold renderChart, get. cbn [bind].
  destruct (Nat.eqb _ 0); eauto.
Qed.

Lemma arrayOf_inv (p : value -> bool) (v : value) :
  arrayOf p v = true -> exists l, v = Arr l /\ Forall (fun x => p x = true) l.
Proof.
  destruct v; simpl; try discriminate. intros H.
  exists elems. split; [reflexivity|]. apply Forall_forall.
  rewrite forallb_forall in H. exact H.
Qed.

Lemma renderTable_table (t : value) :
  isTable t = true -> exists view, renderTable t = Ok view.
Proof.
  unfold isTable. rewrite !andb_true_iff. intros [[Ho Hh] Hr].
  apply arrayOf_inv in Hh. destruct Hh as [hs [Hh _]].
  apply arrayOf_inv in Hr. destruct Hr as [rs [Hr Hrows]].
  assert (E : exists rows, rs = List.map Arr rows).
  { clear Hr. induction Hrows as [|r rs Hrow _ [rows ->]].
    - exists []. reflexivity.
    - apply arrayOf_inv in Hrow. destruct Hrow as [cells [-> _]].
      exists (cells :: rows). reflexivity. }
  destruct E as [rows ->].
  unfold renderTable.
  assert (Hg : get t (js "title") = Ok (prop t (js "title")))
    by (destruct t; try reflexivity; discriminate Ho).
  rewrite Hg, Hh, Hr. cbn [bind Array_map].
  rewrite mapM_id. cbn [bind]. rewrite mapM_rows. cbn [bind]. eauto.
Qed.

Lemma renderAlert_alert (a : value) :
  isAlert a = true -> exists view, renderAlert a = Ok view.
Proof.
  destruct a; simpl; try discriminate; intros _;
    unfold renderAlert, getAlertVariant, getAlertMessage, get;
    cbn [bind]; eauto.
Qed.

(** A guarded section on an absent field and on an array whose entries
    are rendered. *)
Lemma whenNotEmpty_optional {B} (p : value -> bool) (f : value -> result B)
      (xs : value) :
  (forall x, p x = true -> exists y, f x = Ok y) ->
  optional (arrayOf p) xs = true ->
  exists g,
    whenNotEmpty xs f = Ok g
    /\ shownCount g = List.length (elements xs)
    /\ (leak g = None \/ leak g = Some Undefined \/ leak g = Some (Bool false)).
Proof.
  intros Hf Hx. destruct xs; simpl in Hx; try discriminate.
  - exists (Leaked Undefined). cbn. auto.
  - unfold whenNotEmpty. cbn [truthy lengthPositive bind].
    destruct elems as [|x l].
    + exists (Leaked (Bool false)). cbn. auto.
    + destruct (@mapM_ok _ _ f (x :: l)) as [ys [Hys Hl]].
      { apply Forall_forall. intros z Hz. apply Hf.
        rewrite forallb_forall in Hx. apply Hx. exact Hz. }
      unfold Array_map. rewrite Hys. cbn [bind].
      exists (Shown ys). cbn [shownCount leak elements]. auto.
Qed.

Lemma optional_map_optional {B} (p : value -> bool) (f : value -> result B)
      (xs : value) :
  (forall x, p x = true -> exists y, f x = Ok y) ->
  optional (arrayOf p) xs = true ->
  exists o,
    optional_map xs f = Ok o
    /\ mappedCount o = List.length (elements xs).
Proof.
  intros Hf Hx. destruct xs; simpl in Hx; try discriminate.
  - exists None. auto.
  - destruct (@mapM_ok _ _ f elems) as [ys [Hys Hl]].
    { apply Forall_forall. intros z Hz. apply Hf.
      rewrite forallb_forall in Hx. apply Hx. exact Hz. }
    unfold optional_map, Array_map. rewrite Hys. cbn [bind].
    exists (Some ys). auto.
Qed.

Lemma isObject_inv (v : value) : isObject v = true -> exists props, v = Obj props.
Proof. destruct v; try discriminate. eauto. Qed.

(** The chart section on an absent field and on an array of objects: a
    card for each chart that has points, and [null] for the others. *)
Lemma mapM_renderChart (l : list value) :
  Forall (fun x => isObject x = true) l ->
  exists cards,
    mapM renderChart l = Ok cards
    /\ cardCount (Some cards) = List.length (filter hasPoints l).
Proof.
  induction 1 as [|x l Hx _ [cards [Hc Hn]]].
  - exists []. auto.
  - apply isObject_inv in Hx. destruct Hx as [props ->].
    cbn [mapM]. rewrite Hc. unfold renderChart at 1. unfold get.
    cbn [bind filter]. unfold hasPoints at 1. simpl in Hn.
    destruct (Nat.eqb _ 0); cbn [bind negb].
    + exists (None :: cards). split; [reflexivity|]. simpl. exact Hn.
    + eexists (Some _ :: cards). split; [reflexivity|]. simpl.
      rewrite Hn. reflexivity.
Qed.

Lemma optional_map_charts (xs : value) :
  optional (arrayOf isObject) xs = true ->
  exists o,
    optional_map xs renderChart = Ok o
    /\ cardCount o = List.length (filter hasPoints (elements xs)).
Proof.
  intros Hx. destruct xs; simpl in Hx; try discriminate.
  - exists None. auto.
  - destruct (@mapM_renderChart elems) as [cards [Hc Hn]].
    { apply Forall_forall. rewrite forallb_forall in Hx. exact Hx. }
    unfold optional_map, Array_map. rewrite Hc. cbn [bind].
    exists (Some cards). auto.
Qed.

(** X18. On props that have the declared shape the component returns: it
    never raises.  The sections of the cards, the tables, the alerts and
    the recommendations hold one view per entry of their array, and the
    chart section holds one card per chart whose transformed data is not
    empty, the other charts giving [null]; a section whose field is absent
    or whose array is empty holds no view, and in these two cases the
    guarded sections leave [undefined] or [false] as their child, which
    React does not display. *)
Theorem declared_props_are_rendered (content : value) :
  conforms content = true ->
  exists element,
    DashboardRenderer content = Ok element
    /\ shownCount (summaryCards element)
       = List.length (elements (prop content (js "summaryCards")))
    /\ cardCount (charts element)
       = List.length (filter hasPoints (elements (prop content (js "charts"))))
    /\ mappedCount (tables element)
       = List.length (elements (prop content (js "tables")))
    /\ shownCount (alerts element)
       = List.length (elements (prop content (js "alerts")))
    /\ shownCount (recommendations element)
       = List.length (elements (prop content (js "recommendations")))
    /\ Forall (fun l => l = None \/ l = Some Undefined \/ l = Some (Bool false))
              [leak (summaryCards element); leak (alerts element);
               leak (recommendations element)].
Proof.
  unfold conforms. rewrite !andb_true_iff.
  intros [[[[[Ho Hs] Ht] Hc] Ha] Hr].
  destruct (@whenNotEmpty_optional _ isObject renderSummaryCard _
              ltac:(intros x Hx; apply isObject_inv in Hx; destruct Hx as [p ->];
                    apply renderSummaryCard_object) Hs)
    as [gs [Es [Cs Ls]]].
  destruct (optional_map_charts _ Hc) as [oc [Ec Cc]].
  destruct (@optional_map_optional _ isTable renderTable _
              renderTable_table Ht)
    as [ot [Et Ct]].
  destruct (@whenNotEmpty_optional _ isAlert renderAlert _
              renderAlert_alert Ha)
    as [ga [Ea [Ca La]]].
  destruct (@whenNotEmpty_optional _ anything (fun rec => Ok rec) _
              ltac:(intros x _; eauto) Hr)
    as [gr [Er [Cr Lr]]].
  exists (mkDashboardElement gs oc ot ga gr).
  split.
  - unfold DashboardRenderer.
    assert (Hg : get content (js "summaryCards")
                 = Ok (prop content (js "summaryCards")))
      by (destruct content; try reflexivity; discriminate Ho).
    rewrite Hg. cbn [bind]. rewrite Es. cbn [bind]. rewrite Ec. cbn [bind].
    rewrite Et. cbn [bind]. rewrite Ea. cbn [bind]. rewrite Er. reflexivity.
  - cbn [summaryCards charts tables alerts recommendations].
    repeat (split; [assumption|]).
    constructor; [exact Ls|]. constructor; [exact La|].
    constructor; [exact Lr|]. constructor.
Qed.

Lemma declared_props_are_rendered_witness :
  exists element,
    DashboardRenderer sampleDashboard = Ok element
    /\ shownCount (summaryCards element) = 1%nat
    /\ cardCount (charts element) = 1%nat
    /\ mappedCount (tables element) = 1%nat
    /\ shownCount (alerts element) = 2%nat.
Proof.
  destruct (@declared_props_are_rendered sampleDashboard eq_refl)
    as [element [He [Hs [Hc [Ht [Ha _]]]]]].
  exists element. auto.
Defined.

(** Every exception of the component is a TypeError. *)
Lemma get_throws (v : value) (k : jsstring) (e : exn) :
  get v k = Throw e -> e = TypeError.
Proof. destruct v; simpl; intros H; inversion H; reflexivity. Qed.

Lemma Array_map_throws {B} (f : value -> result B) (xs : value) (e : exn) :
  (forall x e', f x = Throw e' -> e' = TypeError) ->
  Array_map xs f = Throw e -> e = TypeError.
Proof.
  intros Hf. destruct xs; simpl; intros H;
    try (inversion H; reflexivity).
  eapply mapM_throws; eauto.
Qed.

Lemma whenNotEmpty_throws {B} (f : value -> result B) (xs : value) (e : exn) :
  (forall x e', f x = Throw e' -> e' = TypeError) ->
  whenNotEmpty xs f = Throw e -> e = TypeError.
Proof.
  intros Hf. unfold whenNotEmpty.
  destruct (truthy xs); [|discriminate].
  destruct (lengthPositive xs) as [[]|e'] eqn:El; cbn [bind].
  - destruct (Array_map xs f) as [l|e''] eqn:Em; cbn [bind]; [discriminate|].
    intros H. inversion H; subst. eapply Array_map_throws; eauto.
  - discriminate.
  - intros H. inversion H; subst.
    destruct xs; simpl in El; inversion El; reflexivity.
Qed.

Lemma optional_map_throws {B} (f : value -> result B) (xs : value) (e : exn) :
  (forall x e', f x = Throw e' -> e' = TypeError) ->
  optional_map xs f = Throw e -> e = TypeError.
Proof.
  intros Hf. unfold optional_map.
  assert (G : (l <- Array_map xs f ;; Ok (Some l)) = Throw e -> e = TypeError).
  { destruct (Array_map xs f) as [l|e'] eqn:Em; cbn [bind]; [discriminate|].
    intros H. inversion H; subst. eapply Array_map_throws; eauto. }
  destruct xs; try discriminate; exact G.
Qed.

Lemma renderSummaryCard_throws (x : value) (e : exn) :
  renderSummaryCard x = Throw e -> e = TypeError.
Proof.
  unfold renderSummaryCard.
  destruct (get x (js "title")) eqn:E; cbn [bind]; [discriminate|].
  intros H. inversion H; subst. eapply get_throws; eauto.
Qed.

Lemma renderChart_throws (x : value) (e : exn) :
  renderChart x = Throw e -> e = TypeError.
Proof.
  unfold renderChart.
  destruct (get x (js "data")) eqn:E; cbn [bind].
  - destruct (Nat.eqb _ 0); discriminate.
  - intros H. inversion H; subst. eapply get_throws; eauto.
Qed.

Lemma renderTable_throws (x : value) (e : exn) :
  renderTable x = Throw e -> e = TypeError.
Proof.
  unfold renderTable.
  destruct (get x (js "title")) eqn:E; cbn [bind].
  - destruct (Array_map (prop x (js "headers")) _) eqn:Eh; cbn [bind].
    + destruct (Array_map (prop x (js "rows")) _) eqn:Er; cbn [bind];
        [discriminate|].
      intros H. inversion H; subst.
      eapply Array_map_throws; [|exact Er].
      intros row e' Hrow. eapply Array_map_throws; [|exact Hrow].
      discriminate.
    + intros H. inversion H; subst.
      eapply Array_map_throws; [|exact Eh]. discriminate.
  - intros H. inversion H; subst. eapply get_throws; eauto.
Qed.

Lemma renderAlert_throws (x : value) (e : exn) :
  renderAlert x = Throw e -> e = TypeError.
Proof.
  unfold renderAlert, getAlertVariant, getAlertMessage.
  destruct x; simpl; intros H; inversion H; reflexivity.
Qed.

Lemma DashboardRenderer_throws (content : value) (e : exn) :
  DashboardRenderer content = Throw e -> e = TypeError.
Proof.
  unfold DashboardRenderer.
  destruct (get content (js "summaryCards")) as [cards|] eqn:E0; cbn [bind];
    [|intros H; inversion H; subst; eapply get_throws; eauto].
  destruct (whenNotEmpty cards renderSummaryCard) eqn:E1; cbn [bind];
    [|intros H; inversion H; subst;
      eapply whenNotEmpty_throws; [apply renderSummaryCard_throws|exact E1]].
  destruct (optional_map _ renderChart) eqn:E2; cbn [bind];
    [|intros H; inversion H; subst;
      eapply optional_map_throws; [apply renderChart_throws|exact E2]].
  destruct (optional_map _ renderTable) eqn:E3; cbn [bind];
    [|intros H; inversion H; subst;
      eapply optional_map_throws; [apply renderTable_throws|exact E3]].
  destruct (whenNotEmpty _ renderAlert) eqn:E4; cbn [bind];
    [|intros H; inversion H; subst;
      eapply whenNotEmpty_throws; [apply renderAlert_throws|exact E4]].
  destruct (whenNotEmpty _ (fun rec => Ok rec)) eqn:E5; cbn [bind];
    [discriminate|].
  intros H; inversion H; subst.
  eapply whenNotEmpty_throws; [|exact E5]. discriminate.
Qed.

(** What a returned element tells about the arrays of the props. *)
Lemma whenNotEmpty_inv {B} (f : value -> result B) (l : list value)
      (g : Guarded (list B)) :
  whenNotEmpty (Arr l) f = Ok g ->
  Forall (fun x => exists y, f x = Ok y) l.
Proof.
  unfold whenNotEmpty. cbn [truthy lengthPositive bind].
  destruct l as [|x l]; [constructor|].
  unfold Array_map.
  destruct (mapM f (x :: l)) as [ys|] eqn:E; cbn [bind]; [|discriminate].
  intros _. eapply mapM_inv; eauto.
Qed.

Lemma optional_map_inv {B} (f : value -> result B) (l : list value)
      (o : option (list B)) :
  optional_map (Arr l) f = Ok o ->
  Forall (fun x => exists y, f x = Ok y) l.
Proof.
  unfold optional_map, Array_map.
  destruct (mapM f l) as [ys|] eqn:E; cbn [bind]; [|discriminate].
  intros _. eapply mapM_inv; eauto.
Qed.

Lemma DashboardRenderer_inv (content : value) (element : DashboardElement) :
  DashboardRenderer content = Ok element ->
  (forall l, prop content (js "summaryCards") = Arr l ->
             Forall (fun x => exists y, renderSummaryCard x = Ok y) l)
  /\ (forall l, prop content (js "charts") = Arr l ->
                Forall (fun x => exists y, renderChart x = Ok y) l)
  /\ (forall l, prop content (js "tables") = Arr l ->
                Forall (fun x => exists y, renderTable x = Ok y) l)
  /\ (forall l, prop content (js "alerts") = Arr l ->
                Forall (fun x => exists y, renderAlert x = Ok y) l).
Proof.
  unfold DashboardRenderer.
  destruct (get content (js "summaryCards")) as [cards|] eqn:E0; cbn [bind];
    [|discriminate].
  assert (cards = prop content (js "summaryCards"))
    by (destruct content; inversion E0; reflexivity).
  subst cards.
  destruct (whenNotEmpty _ renderSummaryCard) eqn:E1; cbn [bind];
    [|discriminate].
  destruct (optional_map _ renderChart) eqn:E2; cbn [bind]; [|discriminate].
  destruct (optional_map _ renderTable) eqn:E3; cbn [bind]; [|discriminate].
  destruct (whenNotEmpty _ renderAlert) eqn:E4; cbn [bind]; [|discriminate].
  intros _. repeat split; intros l Hl.
  - rewrite Hl in E1. eapply whenNotEmpty_inv; eauto.
  - rewrite Hl in E2. eapply optional_map_inv; eauto.
  - rewrite Hl in E3. eapply optional_map_inv; eauto.
  - rewrite Hl in E4. eapply whenNotEmpty_inv; eauto.
Qed.

Lemma renderTable_inv (table : value) (view : TableView) :
  renderTable table = Ok view ->
  Array_isArray (prop table (js "headers")) = true
  /\ Array_isArray (prop table (js "rows")) = true
  /\ Forall (fun row => Array_isArray row = true)
            (elements (prop table (js "rows"))).
Proof.
  unfold renderTable.
  destruct (get table (js "title")); cbn [bind]; [|discriminate].
  destruct (prop table (js "headers")); cbn [Array_map bind];
    try discriminate.
  destruct (mapM _ elems); cbn [bind]; [|discriminate].
  destruct (prop table (js "rows")) as [| | | | |rows|]; cbn [Array_map bind];
    try discriminate.
  destruct (mapM _ rows) eqn:E; cbn [bind]; [|discriminate].
  intros _. split; [reflexivity|]. split; [reflexivity|].
  cbn [elements]. apply mapM_inv in E.
  eapply Forall_impl; [|exact E].
  intros row [y Hy]. destruct row; simpl in Hy; try discriminate. reflexivity.
Qed.

(** X19. One malformed entry breaks the whole dashboard: the component
    raises a TypeError, and so renders no section at all, when an entry of
    [summaryCards], [charts], [tables] or [alerts] is [null], and when a
    table has no [headers] array, no [rows] array, or a row that is not an
    array. *)
Theorem malformed_entry_breaks_the_dashboard (content : value) :
  (exists k l,
      In k [js "summaryCards"; js "charts"; js "tables"; js "alerts"]
      /\ prop content k = Arr l /\ In Null l)
  \/ (exists l table,
         prop content (js "tables") = Arr l /\ In table l
         /\ (Array_isArray (prop table (js "headers")) = false
             \/ Array_isArray (prop table (js "rows")) = false
             \/ exists row, In row (elements (prop table (js "rows")))
                            /\ Array_isArray row = false)) ->
  DashboardRenderer content = Throw TypeError.
Proof.
  intros H.
  destruct (DashboardRenderer content) as [element|e] eqn:E.
  - exfalso. destruct (DashboardRenderer_inv _ E) as [Hs [Hc [Ht Ha]]].
    destruct H as [[k [l [Hk [Hl Hn]]]]|[l [table [Hl [Hin Hbad]]]]].
    + assert (Hnull : Forall (fun x => x <> Null) l -> False).
      { intros F. rewrite Forall_forall in F. exact (F Null Hn eq_refl). }
      apply Hnull.
      simpl in Hk.
      destruct Hk as [<-|[<-|[<-|[<-|[]]]]];
        [specialize (Hs l Hl) as F | specialize (Hc l Hl) as F
         | specialize (Ht l Hl) as F | specialize (Ha l Hl) as F];
        (eapply Forall_impl; [|exact F]);
        intros x [y Hy] ->; discriminate Hy.
    + specialize (Ht l Hl). rewrite Forall_forall in Ht.
      destruct (Ht table Hin) as [view Hv].
      destruct (renderTable_inv _ Hv) as [Hh [Hr Hrows]].
      destruct Hbad as [Hb|[Hb|[row [Hrow Hb]]]]; try congruence.
      rewrite Forall_forall in Hrows. specialize (Hrows row Hrow). congruence.
  - f_equal. eapply DashboardRenderer_throws; eauto.
Qed.

Lemma malformed_entry_breaks_the_dashboard_witness :
  DashboardRenderer brokenDashboard = Throw TypeError.
Proof.
  apply malformed_entry_breaks_the_dashboard. right.
  exists [Obj [(js "headers", Arr [Str (js "h1")])]],
         (Obj [(js "headers", Arr [Str (js "h1")])]).
  split; [reflexivity|]. split; [left; reflexivity|].
  right; left. reflexivity.
Defined.

End DashboardBodyFacts.
